(** * vault-cli: request translation, result envelope and result shaping

    A shallow embedding of [.github/skills/obsidian-vault/vault-cli.py]:
    the [VaultClient] class (the request executor [_request] and the eight
    operations built on it) and the command dispatch of [main], together
    with models of the parts of the Python runtime the program calls
    ([bytes.decode], [str.encode], [urllib.parse.quote], [json.loads],
    [datetime.strptime], the constructor of [urllib.request.Request]).

    Python exceptions are values of [exn]; a computation that can raise
    returns [Exc A]; a computation that can also issue HTTP requests lives
    in the monad [M], which threads the list of requests issued so far.

    What lies outside the embedding: [argparse] (the program starts from
    the parsed namespace of one of the eight sub-commands), the printing
    of the envelope, and the HTTP transport itself, which is an oracle of
    the [world]: for each request, the octets read from the response or
    the exception [urlopen] raises. The [world] also holds the settings of
    the interpreter the program meets: the limit on the digits of an
    integer literal and the depth of nesting [json.loads] can follow. *)

From Stdlib Require Import String Ascii Strings.Byte DecimalString.
From Stdlib Require Import ZArith NArith Bool Lia List.
Import ListNotations.

Local Open Scope Z_scope.

(* ================================================================= *)
(** ** Python values *)

Module Py.

(** A [str] is a sequence of code points, [bytes] a sequence of octets. *)
#[warnings="-notation-for-abbreviation"] Notation char := N (only parsing).
Definition str := list char.
Definition bytes := list byte.

(** The code points of an ASCII literal of the source. *)
Definition lit (s : string) : str := map Byte.to_N (list_byte_of_string s).

(** The octets of a literal, for concrete response bodies. *)
Definition blit (s : string) : bytes := list_byte_of_string s.

Fixpoint str_eqb (a b : str) : bool :=
  match a, b with
  | [], [] => true
  | x :: a', y :: b' => N.eqb x y && str_eqb a' b'
  | _, _ => false
  end.

(** A float is kept as the decimal it was read from: [Ffin neg m e] is the
    double nearest to (-1)^neg * m * 10^e. *)
Inductive pyfloat :=
| Ffin (neg : bool) (m : N) (e : Z)
| Finf (neg : bool)
| Fnan.

(** The values [json.loads] produces, which are also the values an
    envelope holds. A [dict] keeps insertion order and has unique keys. *)
#[warnings="-register-all"] Inductive value :=
| VNone
| VBool (b : bool)
| VInt (z : Z)
| VFloat (f : pyfloat)
| VStr (s : str)
| VList (l : list value)
| VDict (d : list (str * value)).

Definition dict := list (str * value).

(** [k in d] *)
Fixpoint dict_has {V} (d : list (str * V)) (k : str) : bool :=
  match d with
  | [] => false
  | (k', _) :: d' => str_eqb k' k || dict_has d' k
  end.

(** [d.get(k)] without default *)
Fixpoint dict_lookup {V} (d : list (str * V)) (k : str) : option V :=
  match d with
  | [] => None
  | (k', v) :: d' => if str_eqb k' k then Some v else dict_lookup d' k
  end.

(** [d.get(k, default)] *)
Definition dict_get {V} (d : list (str * V)) (k : str) (default : V) : V :=
  match dict_lookup d k with
  | Some v => v
  | None => default
  end.

(** [d[k] = v]: an existing key keeps its position, a new one goes last. *)
Fixpoint dict_set {V} (d : list (str * V)) (k : str) (v : V) : list (str * V) :=
  match d with
  | [] => [(k, v)]
  | (k', v') :: d' =>
      if str_eqb k' k then (k', v) :: d' else (k', v') :: dict_set d' k v
  end.

(** [d.pop(k, None)], the popped value dropped: no binding of [k] stays. *)
Fixpoint dict_pop {V} (d : list (str * V)) (k : str) : list (str * V) :=
  match d with
  | [] => []
  | (k', v') :: d' =>
      if str_eqb k' k then dict_pop d' k else (k', v') :: dict_pop d' k
  end.

(** [d.update(e)] *)
Definition dict_update {V} (d e : list (str * V)) : list (str * V) :=
  fold_left (fun acc kv => dict_set acc (fst kv) (snd kv)) e d.

Fixpoint unique_keys {V} (d : list (str * V)) : bool :=
  match d with
  | [] => true
  | (k, _) :: d' => negb (dict_has d' k) && unique_keys d'
  end.

(** [x[:n]] for an int [n]: a negative bound counts from the end. *)
Definition slice_to {A} (n : Z) (l : list A) : list A :=
  if n <? 0 then firstn (length l - Z.to_nat (- n)) l
  else firstn (Z.to_nat n) l.

(** [len(x)] as a Python int *)
Definition len {A} (l : list A) : Z := Z.of_nat (length l).

(** [bool(f)] for a float: false exactly when the double is a zero, which
    is when |m * 10^e| <= 2^-1075 (half the least subnormal). *)
Definition float_truthy (f : pyfloat) : bool :=
  match f with
  | Ffin _ m e =>
      if 0 <=? e then negb (N.eqb m 0)
      else (10 ^ (- e) <? Z.of_N m * 2 ^ 1075)
  | Finf _ => true
  | Fnan => true
  end.

(** Truth value testing, [if x:] *)
Definition truthy (v : value) : bool :=
  match v with
  | VNone => false
  | VBool b => b
  | VInt z => negb (z =? 0)
  | VFloat f => float_truthy f
  | VStr s => match s with [] => false | _ => true end
  | VList l => match l with [] => false | _ => true end
  | VDict d => match d with [] => false | _ => true end
  end.

Definition nonempty {A} (l : list A) : bool :=
  match l with [] => false | _ => true end.

(** [str(n)] for an int *)
Definition str_of_int (z : Z) : str := lit (NilZero.string_of_int (Z.to_int z)).

(** [s.rstrip('/')] and the like: drop every trailing [c]. *)
Fixpoint rstrip (c : char) (s : str) : str :=
  match s with
  | [] => []
  | x :: s' =>
      match rstrip c s' with
      | [] => if N.eqb x c then [] else [x]
      | t => x :: t
      end
  end.

(** [c.isspace()]: the characters [str.strip()] removes. *)
Definition is_space (c : char) : bool :=
  (N.leb 9 c && N.leb c 13) || (N.leb 28 c && N.leb c 32)
  || N.eqb c 133 || N.eqb c 160 || N.eqb c 5760
  || (N.leb 8192 c && N.leb c 8202) || N.eqb c 8232 || N.eqb c 8233
  || N.eqb c 8239 || N.eqb c 8287 || N.eqb c 12288.

Fixpoint lstrip_space (s : str) : str :=
  match s with
  | c :: r => if is_space c then lstrip_space r else s
  | [] => []
  end.

Fixpoint rstrip_space (s : str) : str :=
  match s with
  | [] => []
  | x :: s' =>
      match rstrip_space s' with
      | [] => if is_space x then [] else [x]
      | t => x :: t
      end
  end.

(** [s.strip()] *)
Definition strip (s : str) : str := lstrip_space (rstrip_space s).

(** Exceptions the program can meet. [HTTPError] carries the status code,
    the reason phrase and, when the error has a body stream ([e.fp]), the
    octets [e.read()] returns; [URLError] carries [str(e.reason)]. *)
Inductive exn :=
| HTTPError (code : Z) (msg : str) (fp : option bytes)
| URLError (reason : str)
| JSONDecodeError
| UnicodeDecodeError
| UnicodeEncodeError
| ValueError
| KeyError
| TypeError
| AttributeError
| OSError
| RecursionError.

(** [isinstance(e, ValueError)]: the decode errors are subclasses. *)
Definition is_ValueError (e : exn) : bool :=
  match e with
  | JSONDecodeError | UnicodeDecodeError | UnicodeEncodeError | ValueError => true
  | _ => false
  end.

Inductive Exc (A : Type) :=
| Return (a : A)
| Raise (e : exn).
Arguments Return {A} a.
Arguments Raise {A} e.

Definition of_option {A} (e : exn) (o : option A) : Exc A :=
  match o with
  | Some a => Return a
  | None => Raise e
  end.

(** [str(e)] for an [HTTPError] *)
Definition str_of_HTTPError (code : Z) (msg : str) : str :=
  lit "HTTP Error " ++ str_of_int code ++ lit ": " ++ msg.

End Py.
Import Py.

(* ================================================================= *)
(** ** UTF-8: [str.encode('utf-8')] and [bytes.decode('utf-8')] *)

Module Utf8.

Definition byte_of_N (n : N) : byte :=
  match Byte.of_N n with
  | Some b => b
  | None => x00
  end.

Definition is_surrogate (c : char) : bool :=
  (N.leb 55296 c && N.leb c 57343)%N.

(** A code point [str.encode] accepts: a Unicode scalar value. *)
Definition scalar (c : char) : bool :=
  negb (is_surrogate c) && N.ltb c 1114112.

Definition encode_char (c : char) : option (list N) :=
  if N.ltb c 128 then Some [c]
  else if N.ltb c 2048 then
    Some [192 + c / 64; 128 + c mod 64]%N
  else if N.ltb c 65536 then
    if is_surrogate c then None
    else Some [224 + c / 4096; 128 + (c / 64) mod 64; 128 + c mod 64]%N
  else if N.ltb c 1114112 then
    Some [240 + c / 262144; 128 + (c / 4096) mod 64;
          128 + (c / 64) mod 64; 128 + c mod 64]%N
  else None.

(** [s.encode('utf-8')]: raises [UnicodeEncodeError] on a lone surrogate. *)
Fixpoint encode (s : str) : option bytes :=
  match s with
  | [] => Some []
  | c :: s' =>
      match encode_char c, encode s' with
      | Some bs, Some rest => Some (map byte_of_N bs ++ rest)
      | _, _ => None
      end
  end.

Definition between (lo hi x : N) : bool := (N.leb lo x && N.leb x hi)%N.
Definition cont (x : N) : bool := between 128 191 x.

(** [b.decode('utf-8')], strict: overlong forms, surrogates, code points
    above U+10FFFF and truncated sequences raise [UnicodeDecodeError]. *)
Fixpoint decode (b : bytes) : option str :=
  match b with
  | [] => Some []
  | b0 :: r0 =>
      let a := Byte.to_N b0 in
      if N.ltb a 128 then option_map (cons a) (decode r0)
      else match r0 with
      | [] => None
      | b1 :: r1 =>
          let x := Byte.to_N b1 in
          if between 194 223 a then
            if cont x
            then option_map (cons ((a - 192) * 64 + (x - 128))%N) (decode r1)
            else None
          else match r1 with
          | [] => None
          | b2 :: r2 =>
              let y := Byte.to_N b2 in
              if between 224 239 a then
                if (if N.eqb a 224 then between 160 191 x
                    else if N.eqb a 237 then between 128 159 x
                    else cont x) && cont y
                then option_map
                       (cons ((a - 224) * 4096 + (x - 128) * 64 + (y - 128))%N)
                       (decode r2)
                else None
              else match r2 with
              | [] => None
              | b3 :: r3 =>
                  let z := Byte.to_N b3 in
                  if between 240 244 a then
                    if (if N.eqb a 240 then between 144 191 x
                        else if N.eqb a 244 then between 128 143 x
                        else cont x) && cont y && cont z
                    then option_map
                           (cons ((a - 240) * 262144 + (x - 128) * 4096
                                  + (y - 128) * 64 + (z - 128))%N)
                           (decode r3)
                    else None
                  else None
              end
          end
      end
  end.

End Utf8.

(* ================================================================= *)
(** ** [urllib.parse]: [quote], [quote_plus], [urlencode] *)

Module Urllib.

(** [_ALWAYS_SAFE]: letters, digits and [_.-~] *)
Definition always_safe (b : N) : bool :=
  Utf8.between 65 90 b || Utf8.between 97 122 b || Utf8.between 48 57 b
  || N.eqb b 95 || N.eqb b 46 || N.eqb b 45 || N.eqb b 126.

Definition hex_digit (n : N) : char :=
  if N.ltb n 10 then (48 + n)%N else (55 + n)%N.

(** One octet of [quote_from_bytes]: kept when safe, else [%XX]. *)
Definition quote_byte (safe : list N) (b : byte) : str :=
  let n := Byte.to_N b in
  if always_safe n || existsb (N.eqb n) safe then [n]
  else [37%N; hex_digit (n / 16); hex_digit (n mod 16)].

Definition quote_from_bytes (safe : list N) (bs : bytes) : str :=
  flat_map (quote_byte safe) bs.

(** [quote(s, safe=safe)] *)
Definition quote (s : str) (safe : list N) : Exc str :=
  match Utf8.encode s with
  | Some bs => Return (quote_from_bytes safe bs)
  | None => Raise UnicodeEncodeError
  end.

(** [quote_plus(s)]: the space is kept by [quote] and then replaced. *)
Definition quote_plus (s : str) : Exc str :=
  match quote s [32%N] with
  | Return q => Return (map (fun c => if N.eqb c 32 then 43%N else c) q)
  | Raise e => Raise e
  end.

(** [urlencode({'query': query, 'contextLength': context_length})] *)
Definition urlencode_search (query : str) (context_length : Z) : Exc str :=
  match quote_plus query, quote_plus (str_of_int context_length) with
  | Return q, Return c =>
      Return (lit "query=" ++ q ++ lit "&contextLength=" ++ c)
  | Raise e, _ => Raise e
  | _, Raise e => Raise e
  end.

(** [unwrap(url)]: the URL without blanks around it, without the angle
    brackets of [<...>] and without a leading [URL:]. *)
Definition unwrap (url : str) : str :=
  let url := strip url in
  let url :=
    match url with
    | 60%N :: r =>
        match rev r with
        | 62%N :: m => strip (rev m)
        | _ => url
        end
    | _ => url
    end in
  match url with
  | 85%N :: 82%N :: 76%N :: 58%N :: r => strip r
  | _ => url
  end.

(** [url.rpartition('#')]: what precedes the last [#], when there is one. *)
Fixpoint before_last_hash (url : str) : option str :=
  match url with
  | [] => None
  | c :: r =>
      match before_last_hash r with
      | Some p => Some (c :: p)
      | None => if N.eqb c 35 then Some [] else None
      end
  end.

(** [_splittag(url)[0]]: the URL without its fragment. *)
Definition splittag (url : str) : str :=
  match before_last_hash url with
  | Some p => p
  | None => url
  end.

(** The rest of a match of [[^/:]+:] whose first character is read. *)
Fixpoint scheme_colon (s : str) : bool :=
  match s with
  | [] => false
  | c :: r =>
      if N.eqb c 58 then true
      else if N.eqb c 47 then false
      else scheme_colon r
  end.

(** [_splittype(url)[0] is not None]: the URL starts with one or more
    characters other than [/] and [:], and a colon. *)
Definition splittype (url : str) : bool :=
  match url with
  | [] => false
  | c :: r => if N.eqb c 58 || N.eqb c 47 then false else scheme_colon r
  end.

(** The URL has a type, as the setter of [Request.full_url] finds it. *)
Definition has_type (url : str) : bool := splittype (splittag (unwrap url)).

End Urllib.

(* ================================================================= *)
(** ** [json.loads]

    The decoder of the standard library's [json] module with its default
    settings (strict strings, [NaN] and [Infinity] accepted, a repeated key
    keeps its first position and its last value). The decoder raises
    [JSONDecodeError] for a text that is not JSON, [ValueError] for an
    integer literal with more digits than the interpreter converts
    ([sys.get_int_max_str_digits()], 4300 unless set otherwise, 0 for no
    limit), and [RecursionError] when arrays and objects are nested deeper
    than the interpreter follows. *)

Module Json.

Definition is_ws (c : char) : bool :=
  N.eqb c 32 || N.eqb c 9 || N.eqb c 10 || N.eqb c 13.

Fixpoint skip_ws (s : str) : str :=
  match s with
  | c :: r => if is_ws c then skip_ws r else s
  | [] => []
  end.

Definition is_digit (c : char) : bool := Utf8.between 48 57 c.

Definition hex_value (c : char) : option N :=
  if Utf8.between 48 57 c then Some (c - 48)%N
  else if Utf8.between 97 102 c then Some (c - 87)%N
  else if Utf8.between 65 70 c then Some (c - 55)%N
  else None.

(** The four hex digits after a backslash-u. *)
Definition hex4 (s : str) : option (N * str) :=
  match s with
  | a :: b :: c :: d :: r =>
      match hex_value a, hex_value b, hex_value c, hex_value d with
      | Some a, Some b, Some c, Some d =>
          Some ((a * 4096 + b * 256 + c * 16 + d)%N, r)
      | _, _, _, _ => None
      end
  | _ => None
  end.

Definition simple_escape (c : char) : option char :=
  if N.eqb c 34 then Some 34%N          (* quote *)
  else if N.eqb c 92 then Some 92%N     (* backslash *)
  else if N.eqb c 47 then Some 47%N     (* slash *)
  else if N.eqb c 98 then Some 8%N      (* b *)
  else if N.eqb c 102 then Some 12%N    (* f *)
  else if N.eqb c 110 then Some 10%N    (* n *)
  else if N.eqb c 114 then Some 13%N    (* r *)
  else if N.eqb c 116 then Some 9%N     (* t *)
  else None.

(** The low half of a surrogate pair, when [s] starts with one. *)
Definition low_surrogate (s : str) : option (N * str) :=
  match s with
  | 92%N :: 117%N :: r =>
      match hex4 r with
      | Some (lo, r') =>
          if Utf8.between 56320 57343 lo then Some (lo, r') else None
      | None => None
      end
  | _ => None
  end.

(** [scanstring], after the opening quote. The fuel bounds the number of
    characters and escapes read; the length of the input is enough. *)
Fixpoint scanstring (fuel : nat) (s : str) (acc : str) : option (str * str) :=
  match fuel with
  | O => None
  | S fuel =>
      match s with
      | [] => None
      | c :: r =>
          if N.eqb c 34 then Some (rev acc, r)
          else if N.eqb c 92 then
            match r with
            | [] => None
            | e :: r' =>
                if N.eqb e 117 then
                  match hex4 r' with
                  | None => None
                  | Some (u, r4) =>
                      if Utf8.between 55296 56319 u then
                        match low_surrogate r4 with
                        | Some (lo, r10) =>
                            scanstring fuel r10
                              ((65536 + (u - 55296) * 1024 + (lo - 56320))%N
                               :: acc)
                        | None => scanstring fuel r4 (u :: acc)
                        end
                      else scanstring fuel r4 (u :: acc)
                  end
                else
                  match simple_escape e with
                  | Some x => scanstring fuel r' (x :: acc)
                  | None => None
                  end
            end
          else if N.ltb c 32 then None
          else scanstring fuel r (c :: acc)
      end
  end.

(** A maximal run of digits: its value, its length and the rest. *)
Fixpoint digits (s : str) (acc : N) (n : Z) : N * Z * str :=
  match s with
  | c :: r => if is_digit c then digits r (acc * 10 + (c - 48))%N (n + 1)
              else (acc, n, s)
  | [] => (acc, n, s)
  end.

(** The integer part of [NUMBER_RE]: [0] or a digit run not starting with
    0; its value, its number of digits and the rest. *)
Definition int_part (s : str) : option (N * Z * str) :=
  match s with
  | c :: r =>
      if N.eqb c 48 then Some (0%N, 1, r)
      else if is_digit c then Some (digits s 0%N 0)
      else None
  | [] => None
  end.

(** The optional fraction: a dot and at least one digit. *)
Definition frac_part (s : str) : option (N * Z * str) :=
  match s with
  | 46%N :: ((c :: _) as r) =>
      if is_digit c then Some (digits r 0%N 0) else None
  | _ => None
  end.

(** The optional exponent: [e] or [E], a sign, at least one digit. *)
Definition exp_part (s : str) : option (Z * str) :=
  match s with
  | x :: r =>
      if N.eqb x 101 || N.eqb x 69 then
        let '(sgn, r') :=
          match r with
          | 43%N :: t => (1, t)
          | 45%N :: t => (-1, t)
          | _ => (1, r)
          end in
        match r' with
        | c :: _ =>
            if is_digit c then
              let '(v, _, r'') := digits r' 0%N 0 in
              Some (sgn * Z.of_N v, r'')
            else None
        | [] => None
        end
      else None
  | [] => None
  end.

Section Limits.

(** [sys.get_int_max_str_digits()] *)
Variable max_str_digits : N.

(** [int(literal)] refuses a literal of [n] digits: the limit is set and
    [n] is above it (and above the threshold under which it is never
    looked at). *)
Definition too_many_digits (n : Z) : bool :=
  (0 <? Z.of_N max_str_digits) && (Z.of_N max_str_digits <? n) && (640 <? n).

(** [match_number]: an int when there is neither fraction nor exponent,
    or the [ValueError] of its conversion. [None]: no number here. *)
Definition number (s : str) : option (Exc value * str) :=
  let '(neg, s1) :=
    match s with
    | 45%N :: t => (true, t)
    | _ => (false, s)
    end in
  match int_part s1 with
  | None => None
  | Some (i, k, s2) =>
      match frac_part s2, exp_part s2 with
      | None, None =>
          Some (if too_many_digits k then Raise ValueError
                else Return (VInt (if neg then - Z.of_N i else Z.of_N i)), s2)
      | None, Some (e, s3) => Some (Return (VFloat (Ffin neg i e)), s3)
      | Some (f, n, s3), _ =>
          let m := (i * N.pow 10 (Z.to_N n) + f)%N in
          match exp_part s3 with
          | Some (e, s4) => Some (Return (VFloat (Ffin neg m (e - n))), s4)
          | None => Some (Return (VFloat (Ffin neg m (- n))), s3)
          end
      end
  end.

(** [s] starts with the literal [p]: the rest after it. *)
Fixpoint strip_prefix (p s : str) : option str :=
  match p, s with
  | [], _ => Some s
  | x :: p', y :: s' => if N.eqb x y then strip_prefix p' s' else None
  | _ :: _, [] => None
  end.

Definition constant (s : str) : option (value * str) :=
  match strip_prefix (lit "NaN") s with
  | Some r => Some (VFloat Fnan, r)
  | None =>
  match strip_prefix (lit "Infinity") s with
  | Some r => Some (VFloat (Finf false), r)
  | None =>
  match strip_prefix (lit "-Infinity") s with
  | Some r => Some (VFloat (Finf true), r)
  | None => None
  end end end.

Definition keyword (s : str) : option (value * str) :=
  match strip_prefix (lit "null") s with
  | Some r => Some (VNone, r)
  | None =>
  match strip_prefix (lit "true") s with
  | Some r => Some (VBool true, r)
  | None =>
  match strip_prefix (lit "false") s with
  | Some r => Some (VBool false, r)
  | None => None
  end end end.

(** [scan_once] with [JSONArray] and [JSONObject]. [array] and [object]
    start at an element (a key), the opening bracket and the blanks after
    it or after a comma already read. [depth] is the number of arrays and
    objects that can still be entered, one inside the other: the scanner
    asks the interpreter before it enters one. The fuel bounds the calls;
    twice the length of the input is enough. *)
Fixpoint scan_once (fuel depth : nat) (s : str) : Exc (value * str) :=
  match fuel with
  | O => Raise JSONDecodeError
  | S fuel =>
      match s with
      | [] => Raise JSONDecodeError
      | c :: r =>
          if N.eqb c 34 then
            match scanstring (S (List.length r)) r [] with
            | Some (x, r') => Return (VStr x, r')
            | None => Raise JSONDecodeError
            end
          else if N.eqb c 123 then
            match depth with
            | O => Raise RecursionError
            | S depth =>
                match skip_ws r with
                | c' :: r' =>
                    if N.eqb c' 125 then Return (VDict [], r')
                    else object fuel depth (c' :: r') []
                | [] => Raise JSONDecodeError
                end
            end
          else if N.eqb c 91 then
            match depth with
            | O => Raise RecursionError
            | S depth =>
                match skip_ws r with
                | c' :: r' =>
                    if N.eqb c' 93 then Return (VList [], r')
                    else array fuel depth (c' :: r') []
                | [] => Raise JSONDecodeError
                end
            end
          else
            match keyword s with
            | Some res => Return res
            | None =>
                match number s with
                | Some (Return v, r') => Return (v, r')
                | Some (Raise e, _) => Raise e
                | None => of_option JSONDecodeError (constant s)
                end
            end
      end
  end

with array (fuel depth : nat) (s : str) (acc : list value) : Exc (value * str) :=
  match fuel with
  | O => Raise JSONDecodeError
  | S fuel =>
      match scan_once fuel depth s with
      | Raise e => Raise e
      | Return (v, r) =>
          match skip_ws r with
          | c :: r' =>
              if N.eqb c 93 then Return (VList (rev (v :: acc)), r')
              else if N.eqb c 44 then array fuel depth (skip_ws r') (v :: acc)
              else Raise JSONDecodeError
          | [] => Raise JSONDecodeError
          end
      end
  end

with object (fuel depth : nat) (s : str) (acc : dict) : Exc (value * str) :=
  match fuel with
  | O => Raise JSONDecodeError
  | S fuel =>
      match s with
      | q :: r =>
          if N.eqb q 34 then
            match scanstring (S (List.length r)) r [] with
            | None => Raise JSONDecodeError
            | Some (k, r1) =>
                match skip_ws r1 with
                | colon :: r2 =>
                    if N.eqb colon 58 then
                      match scan_once fuel depth (skip_ws r2) with
                      | Raise e => Raise e
                      | Return (v, r3) =>
                          match skip_ws r3 with
                          | c :: r' =>
                              if N.eqb c 125
                              then Return (VDict (dict_set acc k v), r')
                              else if N.eqb c 44
                              then object fuel depth (skip_ws r') (dict_set acc k v)
                              else Raise JSONDecodeError
                          | [] => Raise JSONDecodeError
                          end
                      end
                    else Raise JSONDecodeError
                | [] => Raise JSONDecodeError
                end
            end
          else Raise JSONDecodeError
      | [] => Raise JSONDecodeError
      end
  end.

(** [json.loads(s)] for a [str]: a leading byte order mark is refused,
    blanks around the document are skipped, anything after it is an error. *)
Definition loads (depth : nat) (s : str) : Exc value :=
  match s with
  | 65279%N :: _ => Raise JSONDecodeError
  | _ =>
      match scan_once (2 * List.length s + 4) depth (skip_ws s) with
      | Return (v, r) =>
          match skip_ws r with
          | [] => Return v
          | _ => Raise JSONDecodeError
          end
      | Raise e => Raise e
      end
  end.

End Limits.

End Json.

(** Literals for examples: JSON text written with ['] for the double
    quote, as code points and as octets. *)
Definition jlit (s : string) : str :=
  map (fun c => if N.eqb c 39 then 34%N else c) (lit s).
Definition bjlit (s : string) : bytes := map Utf8.byte_of_N (jlit s).

(* ================================================================= *)
(** ** [datetime.strptime(s, '%Y-%m-%d')]

    CPython ([_strptime]) turns the format into the regular expression
    [(\d\d\d\d)-(1[0-2]|0[1-9]|[1-9])-(3[01]|[12]\d|0[1-9]|[1-9]| [1-9])],
    matches it at the start of the string, refuses unconverted data after
    the match, and builds the date, which checks the year and the day of
    the month. The alternatives are tried in order; for the month a later
    alternative can never succeed where an earlier one matched.

    [\d] and [int] know every Unicode decimal digit: [nd] is that table
    for the code points above ASCII. *)

Module Datetime.

Section Strptime.

Variable nd : char -> option N.

Definition digit_value (c : char) : option Z :=
  if Utf8.between 48 57 c then Some (Z.of_N c - 48)
  else if N.ltb c 128 then None
  else option_map Z.of_N (nd c).

Definition ascii_in (lo hi : N) (c : char) : option Z :=
  if Utf8.between lo hi c then Some (Z.of_N c - 48) else None.

Definition blank (c : char) : option Z :=
  if N.eqb c 32 then Some 0 else None.

(** A field of the expression: it reads a number off the start of the
    string and leaves the rest, or does not match. *)
Definition field := str -> option (Z * str).

(** One character of the class [a]. *)
Definition one (a : char -> option Z) : field :=
  fun s =>
    match s with
    | c :: r =>
        match a c with
        | Some v => Some (v, r)
        | None => None
        end
    | [] => None
    end.

(** Two characters, of the classes [a] and [b]; [int] of the two. *)
Definition two (a b : char -> option Z) : field :=
  fun s =>
    match s with
    | c1 :: c2 :: r =>
        match a c1, b c2 with
        | Some x, Some y => Some (10 * x + y, r)
        | _, _ => None
        end
    | _ => None
    end.

(** [x|y|...]: the first alternative that matches. *)
Fixpoint alternation (alts : list field) : field :=
  fun s =>
    match alts with
    | [] => None
    | f :: rest =>
        match f s with
        | Some x => Some x
        | None => alternation rest s
        end
    end.

(** [1[0-2]|0[1-9]|[1-9]] *)
Definition month_field : field :=
  alternation [two (ascii_in 49 49) (ascii_in 48 50);
               two (ascii_in 48 48) (ascii_in 49 57);
               one (ascii_in 49 57)].

(** [3[01]|[12]\d|0[1-9]|[1-9]| [1-9]] *)
Definition day_field : field :=
  alternation [two (ascii_in 51 51) (ascii_in 48 49);
               two (ascii_in 49 50) digit_value;
               two (ascii_in 48 48) (ascii_in 49 57);
               one (ascii_in 49 57);
               two blank (ascii_in 49 57)].

(** [\d\d\d\d] *)
Definition year_field : field :=
  fun s =>
    match s with
    | a :: b :: c :: d :: r =>
        match digit_value a, digit_value b, digit_value c, digit_value d with
        | Some a, Some b, Some c, Some d =>
            Some (a * 1000 + b * 100 + c * 10 + d, r)
        | _, _, _, _ => None
        end
    | _ => None
    end.

Definition is_leap (y : Z) : bool :=
  (y mod 4 =? 0) && (negb (y mod 100 =? 0) || (y mod 400 =? 0)).

Definition days_in_month (y m : Z) : Z :=
  if m =? 2 then (if is_leap y then 29 else 28)
  else if (m =? 4) || (m =? 6) || (m =? 9) || (m =? 11) then 30
  else 31.

(** The checks of the [date] constructor: [MINYEAR] is 1, [MAXYEAR] 9999. *)
Definition valid_date (y m d : Z) : bool :=
  (1 <=? y) && (y <=? 9999) && (1 <=? m) && (m <=? 12)
  && (1 <=? d) && (d <=? days_in_month y m).

(** The [(dt.year, dt.month, dt.day)] of the parsed date; [None] stands
    for [ValueError]. *)
Definition strptime (s : str) : option (Z * Z * Z) :=
  match year_field s with
  | Some (y, h1 :: s1) =>
      if N.eqb h1 45 then
        match month_field s1 with
        | Some (m, h2 :: s2) =>
            if N.eqb h2 45 then
              match day_field s2 with
              | Some (d, []) =>
                  if valid_date y m d then Some (y, m, d) else None
              | _ => None
              end
            else None
        | _ => None
        end
      else None
  | _ => None
  end.

End Strptime.

End Datetime.

(* ================================================================= *)
(** ** The world outside the program and the effect monad *)

(** A request as it is built: the arguments of
    [urllib.request.Request(url, data=, headers=, method=)]. *)
Record Request := mkRequest {
  req_method : str;
  req_url : str;
  req_data : option bytes;
  req_headers : dict
}.

(** Everything the program reads from outside. [urlopen_read] answers a
    request with the octets [response.read()] returns, or with the
    exception [urlopen] raises ([HTTPError], [URLError], or another).
    [urlparse_refuses] tells the URLs for which [urllib.parse.urlparse]
    raises [ValueError]: those whose network location it refuses
    (unbalanced brackets, a bracketed host that is no address, characters
    that normalise to delimiters; the checks differ between versions of
    the library). [recursion_budget] is the number of arrays and objects,
    one inside the other, that [json.loads] can enter where [_request]
    calls it before the interpreter raises [RecursionError]. *)
Record world := mkWorld {
  urlopen_read : Request -> Exc bytes;
  urlparse_refuses : str -> bool;
  environ_api_key : option str;      (* os.environ.get('OBSIDIAN_API_KEY') *)
  environ_api_url : option str;      (* os.environ.get('OBSIDIAN_API_URL') *)
  stdin_read : Exc str;              (* sys.stdin.read() *)
  file_read : str -> Exc str;        (* open(f, 'r', encoding='utf-8').read() *)
  unicode_decimal : char -> option N; (* digit values of non-ASCII decimals *)
  int_max_str_digits : N;            (* sys.get_int_max_str_digits() *)
  recursion_budget : nat
}.

(** A computation that may issue requests and may raise. The state is the
    list of the requests issued so far, oldest first; an exception keeps
    it. *)
Definition M (A : Type) : Type := list Request -> list Request * Exc A.

Definition ret {A} (a : A) : M A := fun log => (log, Return a).
Definition raise {A} (e : exn) : M A := fun log => (log, Raise e).
Definition lift {A} (x : Exc A) : M A := fun log => (log, x).

Definition bind {A B} (m : M A) (f : A -> M B) : M B :=
  fun log =>
    match m log with
    | (log', Return a) => f a log'
    | (log', Raise e) => (log', Raise e)
    end.

(** [try: body  except ...: handler]; the handler re-raises what none of
    its clauses matches. *)
Definition try_except {A} (body : M A) (handler : exn -> M A) : M A :=
  fun log =>
    match body log with
    | (log', Raise e) => handler e log'
    | r => r
    end.

(** [urlopen(request, ...)] and [response.read()] *)
Definition urlopen (w : world) (request : Request) : M bytes :=
  fun log => (log ++ [request], urlopen_read w request).

Declare Scope py_scope.
Delimit Scope py_scope with py.
Notation "x <- m ;; k" := (bind m (fun x => k))
  (at level 61, m at next level, right associativity) : py_scope.
Notation "m ;;; k" := (bind m (fun _ => k))
  (at level 61, right associativity) : py_scope.
Local Open Scope py_scope.

(** A run from the empty log: the requests issued and the outcome. *)
Definition run {A} (m : M A) : list Request * Exc A := m [].

(* ----------------------------------------------------------------- *)
(** *** Operations on values that can raise *)

(** [d[k]] *)
Definition getitem (d : dict) (k : str) : Exc value :=
  of_option KeyError (dict_lookup d k).

(** [x.get(k, default)]: only a dict has the method. *)
Definition py_get (x : value) (k : str) (default : value) : Exc value :=
  match x with
  | VDict d => Return (dict_get d k default)
  | _ => Raise AttributeError
  end.

(** [len(x)] *)
Definition py_len (x : value) : Exc Z :=
  match x with
  | VStr s => Return (len s)
  | VList l => Return (len l)
  | VDict d => Return (len d)
  | _ => Raise TypeError
  end.

(** [x[:n]]: defined on sequences. On a dict the slice is looked up as a
    key, which fails (with [TypeError] or [KeyError], by version). *)
Definition py_slice_to (n : Z) (x : value) : Exc value :=
  match x with
  | VStr s => Return (VStr (slice_to n s))
  | VList l => Return (VList (slice_to n l))
  | _ => Raise TypeError
  end.

(** [x + s] for a str [s] *)
Definition py_add_str (x : value) (s : str) : Exc value :=
  match x with
  | VStr a => Return (VStr (a ++ s))
  | _ => Raise TypeError
  end.

(** The items [for m in x] visits. *)
Definition py_iter (x : value) : Exc (list value) :=
  match x with
  | VList l => Return l
  | VStr s => Return (map (fun c => VStr [c]) s)
  | VDict d => Return (map (fun kv => VStr (fst kv)) d)
  | _ => Raise TypeError
  end.

(** A list comprehension [[f(m) for m in l]], left to right. *)
Fixpoint comprehension {A B} (f : A -> Exc B) (l : list A) : Exc (list B) :=
  match l with
  | [] => Return []
  | a :: l' =>
      match f a with
      | Raise e => Raise e
      | Return b =>
          match comprehension f l' with
          | Raise e => Raise e
          | Return bs => Return (b :: bs)
          end
      end
  end.

Definition opt_truthy (o : option str) : bool :=
  match o with
  | Some s => nonempty s
  | None => false
  end.

Definition opt_value (o : option str) : value :=
  match o with
  | Some s => VStr s
  | None => VNone
  end.

(** Truth of an optional int: [None] and [0] are false. *)
Definition opt_int_truthy (o : option Z) : bool :=
  match o with
  | Some z => negb (z =? 0)
  | None => false
  end.

(* ================================================================= *)
(** ** [class VaultClient] *)

(** The attributes of a client. The SSL context, which only switches
    certificate checks off, is part of how [urlopen] answers. *)
Record VaultClient := mkClient {
  base_url : str;
  api_key : str
}.

(** [VaultClient.__init__] *)
Definition VaultClient_init (url key : str) : VaultClient :=
  {| base_url := rstrip 47%N url; api_key := key |}.

(** The three envelopes [_request] builds. *)
Definition success (data : value) : dict :=
  [(lit "ok", VBool true); (lit "data", data)].

Definition failure_code (error : value) (code : Z) : dict :=
  [(lit "ok", VBool false); (lit "error", error); (lit "code", VInt code)].

Definition failure (error : str) : dict :=
  [(lit "ok", VBool false); (lit "error", VStr error)].

Definition decode_utf8 (b : bytes) : Exc str :=
  of_option UnicodeDecodeError (Utf8.decode b).

Definition encode_utf8 (s : str) : Exc bytes :=
  of_option UnicodeEncodeError (Utf8.encode s).

Section Client.

Variable w : world.
Variable self : VaultClient.

(** [json.loads(s)] in the interpreter of the world *)
Definition json_loads (s : str) : Exc value :=
  Json.loads (int_max_str_digits w) (recursion_budget w) s.

(** [urllib.request.Request(url, data=data, headers=headers,
    method=method)]. The constructor parses the URL: it raises
    [ValueError] (unknown url type) when the URL has no scheme, and lets
    through the [ValueError] of [urlparse], which it calls for the host
    of the request. Nothing else in it can fail. *)
Definition Request_init (url : str) (data : option bytes) (headers : dict)
    (method : str) : Exc Request :=
  if negb (Urllib.has_type url) then Raise ValueError
  else if urlparse_refuses w url then Raise ValueError
  else Return (mkRequest method url data headers).

(** [VaultClient._request]. The request is built before the [try]: an
    exception of the constructor leaves [_request] as it is. *)
Definition _request (method path : str) (data : option bytes)
    (headers : option dict) (content_type : option str) : M dict :=
  let url := base_url self ++ path in
  let req_headers := [(lit "Authorization", VStr (lit "Bearer " ++ api_key self))] in
  let req_headers :=
    match headers with
    | Some h => if nonempty h then dict_update req_headers h else req_headers
    | None => req_headers
    end in
  let req_headers :=
    if opt_truthy content_type
    then dict_set req_headers (lit "Content-Type") (opt_value content_type)
    else req_headers in
  request <- lift (Request_init url data req_headers method) ;;
  try_except
    (content <- urlopen w request ;;
     if nonempty content then
       try_except
         (s <- lift (decode_utf8 content) ;;
          v <- lift (json_loads s) ;;
          ret (success v))
         (fun e =>
            match e with
            | JSONDecodeError =>
                s <- lift (decode_utf8 content) ;;
                ret (success (VStr s))
            | _ => raise e
            end)
     else ret (success VNone))
    (fun e =>
       match e with
       | HTTPError code msg fp =>
           error_body <- lift (match fp with
                               | Some b => decode_utf8 b
                               | None => Return []
                               end) ;;
           try_except
             (error_data <- lift (json_loads error_body) ;;
              m <- lift (py_get error_data (lit "message")
                           (VStr (str_of_HTTPError code msg))) ;;
              ret (failure_code m code))
             (fun _ => ret (failure_code (VStr (str_of_HTTPError code msg)) code))
       | URLError reason =>
           ret (failure (lit "Connection failed: " ++ reason))
       | _ => raise e
       end).

(** [VaultClient.search] *)
Definition search (query : str) (context_length : Z) : M dict :=
  params <- lift (Urllib.urlencode_search query context_length) ;;
  _request (lit "POST") (lit "/search/simple/?" ++ params) None None None.

(** [VaultClient.get_note] *)
Definition get_note (path : str) (metadata_only : bool) : M dict :=
  encoded_path <- lift (Urllib.quote path []) ;;
  let headers := [(lit "Accept", VStr (lit "application/vnd.olrapi.note+json"))] in
  result <- _request (lit "GET") (lit "/vault/" ++ encoded_path) None
              (Some headers) None ;;
  ok <- lift (getitem result (lit "ok")) ;;
  if truthy ok && metadata_only then
    data <- lift (getitem result (lit "data")) ;;
    match data with
    | VDict d =>
        ret (dict_set result (lit "data") (VDict (dict_pop d (lit "content"))))
    | _ => ret result
    end
  else ret result.

(** [VaultClient.list_dir] *)
Definition list_dir (path : str) : M dict :=
  if nonempty path then
    q <- lift (Urllib.quote (rstrip 47%N path) []) ;;
    let encoded_path := q ++ lit "/" in
    _request (lit "GET") (lit "/vault/" ++ encoded_path) None None None
  else _request (lit "GET") (lit "/vault/") None None None.

(** [VaultClient.create_note] *)
Definition create_note (path content : str) : M dict :=
  encoded_path <- lift (Urllib.quote path []) ;;
  data <- lift (encode_utf8 content) ;;
  _request (lit "PUT") (lit "/vault/" ++ encoded_path) (Some data) None
    (Some (lit "text/markdown")).

(** [VaultClient.append_note] *)
Definition append_note (path content : str) : M dict :=
  encoded_path <- lift (Urllib.quote path []) ;;
  data <- lift (encode_utf8 content) ;;
  _request (lit "POST") (lit "/vault/" ++ encoded_path) (Some data) None
    (Some (lit "text/markdown")).

(** [VaultClient.patch_note] *)
Definition patch_note (path target_type : str) (target : value)
    (operation content content_type : str) : M dict :=
  encoded_path <- lift (Urllib.quote path []) ;;
  let headers := [(lit "Operation", VStr operation);
                  (lit "Target-Type", VStr target_type);
                  (lit "Target", target)] in
  data <- lift (encode_utf8 content) ;;
  _request (lit "PATCH") (lit "/vault/" ++ encoded_path) (Some data)
    (Some headers) (Some content_type).

(** The path [daily_append] computes: the date segments are there when
    year, month and day are all given and none is zero
    ([if year and month and day]). *)
Definition periodic_path (period : str) (year month day : option Z) : str :=
  match year, month, day with
  | Some y, Some m, Some d =>
      if negb (y =? 0) && negb (m =? 0) && negb (d =? 0)
      then lit "/periodic/" ++ period ++ lit "/" ++ str_of_int y ++ lit "/"
           ++ str_of_int m ++ lit "/" ++ str_of_int d ++ lit "/"
      else lit "/periodic/" ++ period ++ lit "/"
  | _, _, _ => lit "/periodic/" ++ period ++ lit "/"
  end.

(** [VaultClient.daily_append] *)
Definition daily_append (content period : str) (year month day : option Z)
    : M dict :=
  let path := periodic_path period year month day in
  data <- lift (encode_utf8 content) ;;
  _request (lit "POST") path (Some data) None (Some (lit "text/markdown")).

(** [VaultClient.delete_note] *)
Definition delete_note (path : str) : M dict :=
  encoded_path <- lift (Urllib.quote path []) ;;
  _request (lit "DELETE") (lit "/vault/" ++ encoded_path) None None None.

End Client.

(* ================================================================= *)
(** ** [main]: the parsed command line and the dispatch *)

(** The content options shared by create, append, patch and daily. *)
Record content_args := mkContent {
  arg_content : option str;   (* --content *)
  arg_stdin : bool;           (* --stdin *)
  arg_file : option str       (* --file *)
}.

(** The namespace [parser.parse_args()] returns, by sub-command. *)
Inductive args :=
| Search (query : str) (max_results context_length : Z)
| Get (path : str) (metadata_only : bool) (max_chars : option Z)
| List_ (path : str)
| Create (path : str) (c : content_args)
| Append (path : str) (c : content_args)
| Patch (path : str) (heading frontmatter block : option str)
        (operation : str) (c : content_args)
| Daily (date : option str) (period : str) (c : content_args)
| Delete (path : str).

Definition truncation_marker : str := 10%N :: lit "...[truncated]".

Section Main.

Variable w : world.

(** [get_content], the helper local to [main] *)
Definition get_content (c : content_args) : M str :=
  if opt_truthy (arg_content c) then
    ret (match arg_content c with Some s => s | None => [] end)
  else if arg_stdin c then lift (stdin_read w)
  else if opt_truthy (arg_file c) then
    lift (file_read w (match arg_file c with Some f => f | None => [] end))
  else ret [].

(** The entry built for one search hit. *)
Definition search_entry (item : value) : Exc value :=
  match py_get item (lit "filename") (VStr []) with
  | Raise e => Raise e
  | Return path =>
  match py_get item (lit "score") (VInt 0) with
  | Raise e => Raise e
  | Return score =>
      let entry := [(lit "path", path); (lit "score", score)] in
      match py_get item (lit "matches") (VList []) with
      | Raise e => Raise e
      | Return matches =>
          if truthy matches then
            match py_slice_to 3 matches with
            | Raise e => Raise e
            | Return first =>
            match py_iter first with
            | Raise e => Raise e
            | Return ms =>
            match comprehension
                    (fun m =>
                       match py_get m (lit "context") (VStr []) with
                       | Raise e => Raise e
                       | Return c => py_slice_to 200 c
                       end) ms with
            | Raise e => Raise e
            | Return snippets =>
                Return (VDict (dict_set entry (lit "snippets") (VList snippets)))
            end end end
          else Return (VDict entry)
      end
  end end.

(** The [search] branch after the request. *)
Definition shape_search (max_results : Z) (result : dict) : M dict :=
  ok <- lift (getitem result (lit "ok")) ;;
  if truthy ok then
    data <- lift (getitem result (lit "data")) ;;
    match data with
    | VList l =>
        let result := dict_set result (lit "data") (VList (slice_to max_results l)) in
        simplified <- lift (comprehension search_entry (slice_to max_results l)) ;;
        ret (dict_set result (lit "data") (VList simplified))
    | _ => ret result
    end
  else ret result.

(** The [get] branch after the request. *)
Definition shape_get (max_chars : option Z) (result : dict) : M dict :=
  ok <- lift (getitem result (lit "ok")) ;;
  if truthy ok && opt_int_truthy max_chars then
    let limit := match max_chars with Some n => n | None => 0 end in
    data <- lift (getitem result (lit "data")) ;;
    match data with
    | VDict d =>
        let content := dict_get d (lit "content") (VStr []) in
        n <- lift (py_len content) ;;
        if limit <? n then
          head <- lift (py_slice_to limit content) ;;
          new <- lift (py_add_str head truncation_marker) ;;
          ret (dict_set result (lit "data")
                 (VDict (dict_set d (lit "content") new)))
        else ret result
    | _ => ret result
    end
  else ret result.

(** [if result['ok']: result['data'] = ack] *)
Definition acknowledge (ack : dict) (result : dict) : M dict :=
  ok <- lift (getitem result (lit "ok")) ;;
  if truthy ok then ret (dict_set result (lit "data") (VDict ack))
  else ret result.

(** The command dispatch of [main], from [# Execute command] to the
    value of [result] that is printed. *)
Definition execute (client : VaultClient) (a : args) : M dict :=
  match a with
  | Search query max_results context_length =>
      result <- search w client query context_length ;;
      shape_search max_results result
  | Get path metadata_only max_chars =>
      result <- get_note w client path metadata_only ;;
      shape_get max_chars result
  | List_ path => list_dir w client path
  | Create path c =>
      content <- get_content c ;;
      result <- create_note w client path content ;;
      acknowledge [(lit "created", VStr path)] result
  | Append path c =>
      content <- get_content c ;;
      result <- append_note w client path content ;;
      acknowledge [(lit "appended_to", VStr path)] result
  | Patch path heading frontmatter block operation c =>
      content <- get_content c ;;
      let '(target_type, target) :=
        if opt_truthy heading then (lit "heading", opt_value heading)
        else if opt_truthy frontmatter then (lit "frontmatter", opt_value frontmatter)
        else (lit "block", opt_value block) in
      let content_type :=
        if opt_truthy frontmatter then lit "application/json"
        else lit "text/markdown" in
      result <- patch_note w client path target_type target operation
                  content content_type ;;
      acknowledge [(lit "patched", VStr path); (lit "target", target)] result
  | Daily date period c =>
      content <- get_content c ;;
      result <-
        (if opt_truthy date then
           let d := match date with Some d => d | None => [] end in
           try_except
             (dt <- lift (of_option ValueError
                            (Datetime.strptime (unicode_decimal w) d)) ;;
              let '(year, month, day) := dt in
              daily_append w client content period
                (Some year) (Some month) (Some day))
             (fun e =>
                if is_ValueError e then
                  ret (failure (lit "Invalid date format: " ++ d
                                ++ lit ". Use YYYY-MM-DD"))
                else raise e)
         else daily_append w client content period None None None) ;;
      if nonempty result then
        acknowledge [(lit "appended_to", VStr (period ++ lit " note"))] result
      else ret result
  | Delete path =>
      result <- delete_note w client path ;;
      acknowledge [(lit "deleted", VStr path)] result
  end.

(** [main] for a parsed command: the envelope printed and the exit
    status. Without an API key no client is made. *)
Definition main (a : args) : M (dict * Z) :=
  if opt_truthy (environ_api_key w) then
    let key := match environ_api_key w with Some k => k | None => [] end in
    let url := match environ_api_url w with
               | Some u => u
               | None => lit "https://127.0.0.1:27124"
               end in
    let client := VaultClient_init url key in
    result <- execute client a ;;
    ret (result,
         if nonempty result && truthy (dict_get result (lit "ok") VNone)
         then 0 else 1)
  else
    ret (failure (lit "OBSIDIAN_API_KEY environment variable not set"), 1).

End Main.

(* ================================================================= *)
(** ** Definitions used by the statements *)

(** The request a client hands to [urlopen] for a method, a path, a
    body, the headers of the operation and a content type: the URL is the
    base URL followed by the path; the headers are [Authorization], then
    those of the operation, then [Content-Type] when one is given
    (equation [request_eq] below). *)
Definition make_request (self : VaultClient) (method path : str)
    (data : option bytes) (headers : option dict) (content_type : option str)
    : Request :=
  {| req_method := method;
     req_url := base_url self ++ path;
     req_data := data;
     req_headers :=
       let authorized :=
         dict_update
           [(lit "Authorization", VStr (lit "Bearer " ++ api_key self))]
           (match headers with Some h => h | None => [] end) in
       match content_type with
       | Some (c :: t) =>
           dict_set authorized (lit "Content-Type") (VStr (c :: t))
       | _ => authorized
       end |}.

(** [urllib.request.Request] accepts the URL: it has a scheme and
    [urlparse] does not refuse it. *)
Definition accepted (w : world) (url : str) : bool :=
  Urllib.has_type url && negb (urlparse_refuses w url).

(** Every URL made of the base URL of the client and a path that starts
    with a slash is accepted: no request of the client fails before it is
    sent. A base URL that starts with [http:] or [https:] and whose host
    [urlparse] takes is one. *)
Definition reaches (w : world) (self : VaultClient) : Prop :=
  forall path, accepted w (base_url self ++ 47%N :: path) = true.

(** The computation issues exactly one request, with this method, this
    URL and this body. *)
Definition sends {A} (m : M A) (log : list Request) (method url : str)
    (data : option bytes) : Prop :=
  exists req,
    fst (m log) = log ++ [req]
    /\ req_method req = method /\ req_url req = url /\ req_data req = data.

(** The client [main] makes from the environment. *)
Definition api_client (w : world) : VaultClient :=
  VaultClient_init
    (match environ_api_url w with
     | Some u => u
     | None => lit "https://127.0.0.1:27124"
     end)
    (match environ_api_key w with Some k => k | None => [] end).

(** The second half of [_request] as a function of the outcome of
    [urlopen]: the envelope returned or the exception let through
    (equation [request_eq] below). *)
Definition normalize (w : world) (outcome : Exc bytes) : Exc dict :=
  match outcome with
  | Return content =>
      if nonempty content then
        match Utf8.decode content with
        | None => Raise UnicodeDecodeError
        | Some s =>
            match json_loads w s with
            | Return v => Return (success v)
            | Raise JSONDecodeError => Return (success (VStr s))
            | Raise e => Raise e
            end
        end
      else Return (success VNone)
  | Raise (HTTPError code msg fp) =>
      match (match fp with Some b => Utf8.decode b | None => Some [] end) with
      | None => Raise UnicodeDecodeError
      | Some body =>
          Return (failure_code
                    (match json_loads w body with
                     | Return (VDict d) =>
                         dict_get d (lit "message") (VStr (str_of_HTTPError code msg))
                     | _ => VStr (str_of_HTTPError code msg)
                     end) code)
      end
  | Raise (URLError reason) =>
      Return (failure (lit "Connection failed: " ++ reason))
  | Raise e => Raise e
  end.

(** The exceptions [json.loads] raises. *)
Definition json_error (e : exn) : Prop :=
  match e with
  | JSONDecodeError | ValueError | RecursionError => True
  | _ => False
  end.

(** [json.loads] answers the text: it returns a value or refuses the text
    as not JSON; it does not give up on it for its size. *)
Definition loads_answers (w : world) (s : str) : Prop :=
  match json_loads w s with
  | Return _ | Raise JSONDecodeError => True
  | Raise _ => False
  end.

(** The envelope invariant: exactly one of the keys [data] and [error] is
    present, and [ok] is the boolean telling that it is [data]. *)
Definition envelope_inv (r : dict) : bool :=
  xorb (dict_has r (lit "data")) (dict_has r (lit "error"))
  && match dict_lookup r (lit "ok") with
     | Some (VBool b) => Bool.eqb b (dict_has r (lit "data"))
     | _ => false
     end.

(** A match object of the data model: a record whose [context], when it
    has one, is text. *)
Definition is_match_object (m : value) : bool :=
  match m with
  | VDict d =>
      match dict_get d (lit "context") (VStr []) with
      | VStr _ => true
      | _ => false
      end
  | _ => false
  end.

(** A search hit of the data model: a record whose [matches], when it
    has them, are a list of match objects. *)
Definition is_search_hit (item : value) : bool :=
  match item with
  | VDict it =>
      match dict_get it (lit "matches") (VList []) with
      | VList ms => forallb is_match_object ms
      | _ => false
      end
  | _ => false
  end.

(** The text of a snippet: the first 200 characters of a match context. *)
Definition snippet_of (m : value) : value :=
  match m with
  | VDict d =>
      match dict_get d (lit "context") (VStr []) with
      | VStr c => VStr (firstn 200 c)
      | x => x
      end
  | x => x
  end.

(** The entry the shaped search result holds for a hit. *)
Definition shaped_entry (item : value) : value :=
  match item with
  | VDict it =>
      let base := [(lit "path", dict_get it (lit "filename") (VStr []));
                   (lit "score", dict_get it (lit "score") (VInt 0))] in
      match dict_get it (lit "matches") (VList []) with
      | VList (m :: ms) =>
          VDict (base ++ [(lit "snippets",
                           VList (map snippet_of (firstn 3 (m :: ms))))])
      | _ => VDict base
      end
  | x => x
  end.

Definition is_short_text (n : nat) (v : value) : bool :=
  match v with
  | VStr s => Nat.leb (List.length s) n
  | _ => false
  end.

(** As the spec words it: a strictly valid YYYY-MM-DD calendar date is
    four digits, a hyphen, two digits, a hyphen and two digits that name
    a day of the calendar. *)
Definition strict_ymd (s : str) : bool :=
  match s with
  | [y1; y2; y3; y4; h1; m1; m2; h2; d1; d2] =>
      forallb Json.is_digit [y1; y2; y3; y4; m1; m2; d1; d2]
      && N.eqb h1 45 && N.eqb h2 45
      && Datetime.valid_date
           (Z.of_N ((y1 - 48) * 1000 + (y2 - 48) * 100 + (y3 - 48) * 10 + (y4 - 48)))
           (Z.of_N ((m1 - 48) * 10 + (m2 - 48)))
           (Z.of_N ((d1 - 48) * 10 + (d2 - 48)))
  | _ => false
  end.

(** The last component of a path: what follows its last slash, trailing
    slashes apart. *)
Fixpoint last_component (s : str) (acc : str) : str :=
  match s with
  | [] => acc
  | c :: s' => if N.eqb c 47 then last_component s' [] else last_component s' (acc ++ [c])
  end.

Definition trailing_component (path : str) : str :=
  last_component (rstrip 47%N path) [].

(** What precedes the last component: the path up to its last slash,
    that slash included, trailing slashes apart. *)
Fixpoint upto_last_slash (s done cur : str) : str :=
  match s with
  | [] => done
  | c :: s' =>
      if N.eqb c 47 then upto_last_slash s' (done ++ cur ++ [c]) []
      else upto_last_slash s' done (cur ++ [c])
  end.

Definition leading_components (path : str) : str :=
  upto_last_slash (rstrip 47%N path) [] [].

(** What the shaped result must hold for a hit: a record with [path] and
    [score] taken from the hit (or their defaults), no other field than
    these and [snippets], and [snippets] exactly when the hit has matches:
    then at most three of them, each at most 200 characters, the starts of
    the contexts of the first matches. *)
Definition entry_for (item entry : value) : Prop :=
  exists it e,
    item = VDict it /\ entry = VDict e
    /\ dict_lookup e (lit "path") = Some (dict_get it (lit "filename") (VStr []))
    /\ dict_lookup e (lit "score") = Some (dict_get it (lit "score") (VInt 0))
    /\ (forall k, dict_has e k = true ->
                  k = lit "path" \/ k = lit "score" \/ k = lit "snippets")
    /\ match dict_get it (lit "matches") (VList []) with
       | VList [] => dict_has e (lit "snippets") = false
       | VList ms =>
           exists snippets,
             dict_lookup e (lit "snippets") = Some (VList snippets)
             /\ (List.length snippets <= 3)%nat
             /\ forallb (is_short_text 200) snippets = true
             /\ snippets = map snippet_of (firstn 3 ms)
       | _ => True
       end.

(** The envelopes the program builds: [success], [failure_code] and
    [failure]. *)
Inductive envelope_shape : dict -> Prop :=
| shape_success (data : value) : envelope_shape (success data)
| shape_failure_code (error : value) (code : Z) :
    envelope_shape (failure_code error code)
| shape_failure (error : str) : envelope_shape (failure error).

(** A computation whose returned value, when it returns one, is such an
    envelope. *)
Definition returns_envelope (m : M dict) : Prop :=
  forall log log' r, m log = (log', Return r) -> envelope_shape r.

(** The parameters of a command are usable: its strings are text (they
    have a UTF-8 encoding), its content can be read, and its date, when it
    has one, is empty or one [strptime] accepts. *)
Definition usable (w : world) (a : args) : Prop :=
  let text s := Utf8.encode s <> None in
  let content c := exists s, snd (get_content w c []) = Return s /\ text s in
  match a with
  | Search query _ _ => text query
  | Get path _ _ | List_ path | Delete path => text path
  | Create path c | Append path c => text path /\ content c
  | Patch path _ _ _ _ c => text path /\ content c
  | Daily date _ c =>
      content c
      /\ match date with
         | Some d => d = [] \/ Datetime.strptime (unicode_decimal w) d <> None
         | None => True
         end
  end.

(** A computation that issues no request. *)
Definition silent {A} (m : M A) : Prop := forall log, fst (m log) = log.

(** A computation that issues at most one request, and only one that
    satisfies [P]. *)
Definition issues (P : Request -> Prop) {A} (m : M A) : Prop :=
  forall log,
    fst (m log) = log \/ exists req, P req /\ fst (m log) = log ++ [req].

(** The requests a client makes: built by [make_request] for a path that
    starts with a slash, with no extra headers, the [Accept] header of
    [get_note] or the three headers of [patch_note], and with no content
    type or one of the two the program knows. *)
Inductive client_request (self : VaultClient) : Request -> Prop :=
| client_request_intro (method path : str) (data : option bytes)
    (headers : option dict) (content_type : option str) :
    (headers = None
     \/ headers = Some [(lit "Accept", VStr (lit "application/vnd.olrapi.note+json"))]
     \/ exists operation target_type target,
          headers = Some [(lit "Operation", VStr operation);
                          (lit "Target-Type", VStr target_type);
                          (lit "Target", target)]) ->
    (content_type = None
     \/ content_type = Some (lit "text/markdown")
     \/ content_type = Some (lit "application/json")) ->
    client_request self
      (make_request self method (47%N :: path) data headers content_type).

(** The record that stands for the payload after a successful create,
    append, patch, periodic-append or delete. *)
Definition acknowledgment (a : args) : option dict :=
  match a with
  | Create path _ => Some [(lit "created", VStr path)]
  | Append path _ => Some [(lit "appended_to", VStr path)]
  | Patch path heading frontmatter block _ _ =>
      Some [(lit "patched", VStr path);
            (lit "target",
             if opt_truthy heading then opt_value heading
             else if opt_truthy frontmatter then opt_value frontmatter
             else opt_value block)]
  | Daily _ period _ => Some [(lit "appended_to", VStr (period ++ lit " note"))]
  | Delete path => Some [(lit "deleted", VStr path)]
  | Search _ _ _ | Get _ _ _ | List_ _ => None
  end.

(** A periodic-append that parses a date: its request is made inside the
    [try] that catches [ValueError]. *)
Definition dated (a : args) : option str :=
  match a with
  | Daily (Some d) _ _ => if nonempty d then Some d else None
  | _ => None
  end.

(** The characters a quoted query value is made of: the always-safe
    ones, the percent sign and the plus sign. *)
Definition query_char (c : N) : bool :=
  Urllib.always_safe c || N.eqb c 37 || N.eqb c 43.

(** The number a run of ASCII digits writes, and the year, month and day
    written at their places in a YYYY-MM-DD string. *)
Definition digits_value (l : list N) : Z :=
  fold_left (fun acc c => 10 * acc + (Z.of_N c - 48)) l 0.

Definition year_of (s : str) : Z := digits_value (firstn 4 s).
Definition month_of (s : str) : Z := digits_value (firstn 2 (skipn 5 s)).
Definition day_of (s : str) : Z := digits_value (firstn 2 (skipn 8 s)).

(* ----------------------------------------------------------------- *)
(** *** Worlds and clients for the examples *)

Definition no_input : Exc str := Raise OSError.

(** A server that answers every request with the same outcome; the API
    key is set, nothing can be read from stdin or files. *)
Definition constant_world (outcome : Exc bytes) : world :=
  {| urlopen_read := fun _ => outcome;
     urlparse_refuses := fun _ => false;
     environ_api_key := Some (lit "secret");
     environ_api_url := None;
     stdin_read := no_input;
     file_read := fun _ => no_input;
     unicode_decimal := fun _ => None;
     int_max_str_digits := 4300;
     recursion_budget := 1000 |}.

Definition local_client : VaultClient :=
  VaultClient_init (lit "https://127.0.0.1:27124/") (lit "secret").

Definition inline (s : str) : content_args :=
  {| arg_content := Some s; arg_stdin := false; arg_file := None |}.

(** A hit with five matches of 300 characters each, and a bare one. *)
Definition long_hit : value :=
  VDict [(lit "filename", VStr (lit "notes/a.md"));
         (lit "score", VFloat (Ffin true 25 (-2)));
         (lit "matches",
          VList (repeat (VDict [(lit "context", VStr (repeat 120%N 300))]) 5))].

Definition bare_hit : value := VDict [].

(* ================================================================= *)
(** ** The library models on concrete inputs *)

Example str_of_int_2024 : str_of_int 2024 = lit "2024".
Proof. reflexivity. Qed.

Example rstrip_ex : rstrip 47%N (lit "a/b//") = lit "a/b".
Proof. reflexivity. Qed.

Example utf8_encode_ex :
  Utf8.encode [233; 8364; 128512]%N
  = Some [xc3; xa9; xe2; x82; xac; xf0; x9f; x98; x80].
Proof. reflexivity. Qed.

Example utf8_decode_ex :
  Utf8.decode [xc3; xa9; xe2; x82; xac; xf0; x9f; x98; x80]
  = Some [233; 8364; 128512]%N.
Proof. reflexivity. Qed.

Example utf8_decode_ff : Utf8.decode [xff] = None.
Proof. reflexivity. Qed.

Example quote_ex :
  Urllib.quote (lit "Daily Notes/2024 plan.md") [] =
  Return (lit "Daily%20Notes%2F2024%20plan.md").
Proof. reflexivity. Qed.

Example quote_nonascii :
  Urllib.quote [99; 97; 102; 233]%N [] = Return (lit "caf%C3%A9").
Proof. reflexivity. Qed.

Example urlencode_ex :
  Urllib.urlencode_search (lit "a b&c") 100 =
  Return (lit "query=a+b%26c&contextLength=100").
Proof. reflexivity. Qed.

Example json_loads_note :
  Json.loads 4300 1000 (jlit "{'content':'hello','tags':['x']}")
  = Return (VDict [(lit "content", VStr (lit "hello"));
                   (lit "tags", VList [VStr (lit "x")])]).
Proof. reflexivity. Qed.

Example json_loads_hits :
  Json.loads 4300 1000
    (jlit " [ {'filename': 'a.md', 'score': -0.25, 'matches': []} , 12, null ] ")
  = Return (VList [VDict [(lit "filename", VStr (lit "a.md"));
                          (lit "score", VFloat (Ffin true 25 (-2)));
                          (lit "matches", VList [])];
                   VInt 12; VNone]).
Proof. reflexivity. Qed.

Example json_loads_escape :
  Json.loads 4300 1000 (jlit "'a\n\u00e9\ud83d\ude00\ud800x'")
  = Return (VStr [97; 10; 233; 128512; 55296; 120]%N).
Proof. reflexivity. Qed.

Example json_loads_repeated_key :
  Json.loads 4300 1000 (jlit "{'a':1,'b':2,'a':3}")
  = Return (VDict [(lit "a", VInt 3); (lit "b", VInt 2)]).
Proof. reflexivity. Qed.

Example json_loads_rejects :
  map (Json.loads 4300 1000)
    [lit "Not Found"; lit ""; jlit "{'a':1,}"; lit "[1] x"; lit "01"; lit "1."]
  = repeat (Raise JSONDecodeError) 6.
Proof. reflexivity. Qed.

(** The limits of the interpreter: an integer literal of 4301 digits is
    refused with [ValueError] where the limit is 4300 and read where there
    is none; a fraction of that length is a float and is read; arrays
    nested deeper than the interpreter follows raise [RecursionError]. *)
Example json_loads_limits :
  Json.loads 4300 1000 (repeat 49%N 4301) = Raise ValueError
  /\ (exists v, Json.loads 0 1000 (repeat 49%N 4301) = Return (VInt v))
  /\ (exists f, Json.loads 4300 1000 (lit "0." ++ repeat 49%N 4301)
               = Return (VFloat f))
  /\ Json.loads 4300 1000 (repeat 49%N 700) = Return (VInt ((10 ^ 700 - 1) / 9))
  /\ Json.loads 4300 2 (lit "[[[]]]") = Raise RecursionError
  /\ Json.loads 4300 3 (lit "[[[]]]") = Return (VList [VList [VList []]])
  /\ Json.loads 4300 1 (jlit "{'a': {}") = Raise RecursionError.
Proof.
  split; [vm_compute; reflexivity|].
  split; [eexists; vm_compute; reflexivity|].
  split; [eexists; vm_compute; reflexivity|].
  split; [vm_compute; reflexivity|].
  repeat split.
Qed.

Example strptime_ex :
  map (Datetime.strptime (fun _ => None))
    [lit "2024-03-05"; lit "2024-3-5"; lit "2024-12-31"; lit "2024-02-29";
     lit "2024-13-40"; lit "2023-02-29"; lit "2024-03-05 "; lit "24-03-05";
     lit "0000-01-01"; lit "2024-1-40"; lit "2024-03- 5"; lit ""]
  = [Some (2024, 3, 5); Some (2024, 3, 5); Some (2024, 12, 31);
     Some (2024, 2, 29); None; None; None; None; None; None;
     Some (2024, 3, 5); None].
Proof. reflexivity. Qed.

Example strict_ymd_ex :
  map strict_ymd [lit "2024-03-05"; lit "2024-3-5"; lit "2024-13-40"; lit ""]
  = [true; false; false; false].
Proof. reflexivity. Qed.

Example trailing_component_ex :
  map trailing_component [lit "a/b c/"; lit "notes"; lit "/"; lit "x//y//"]
  = [lit "b c"; lit "notes"; lit ""; lit "y"].
Proof. reflexivity. Qed.

(* ================================================================= *)
(** ** Basic facts *)

Lemma str_eqb_refl (a : str) : str_eqb a a = true.
Proof.
  induction a as [|x a IH]; simpl; [reflexivity|].
  now rewrite N.eqb_refl, IH.
Qed.

Lemma str_eqb_eq (a b : str) : str_eqb a b = true <-> a = b.
Proof.
  split.
  - revert b; induction a as [|x a IH]; intros [|y b] H; simpl in H;
      try discriminate; [reflexivity|].
    apply andb_true_iff in H as [Hx Hab].
    apply N.eqb_eq in Hx. apply IH in Hab. now subst.
  - intros ->. apply str_eqb_refl.
Qed.

Lemma str_eqb_neq (a b : str) : a <> b -> str_eqb a b = false.
Proof.
  intros H. destruct (str_eqb a b) eqn:E; [|reflexivity].
  apply str_eqb_eq in E. contradiction.
Qed.

Section DictFacts.

Context {V : Type}.
Implicit Types (d : list (str * V)) (k : str).

Lemma dict_has_lookup d k : dict_has d k = true <-> dict_lookup d k <> None.
Proof.
  induction d as [|[k' v] d IH]; simpl.
  - split; [discriminate | congruence].
  - destruct (str_eqb k' k); simpl; [split; [discriminate | reflexivity] | exact IH].
Qed.

Lemma dict_lookup_pop_same d k : dict_lookup (dict_pop d k) k = None.
Proof.
  induction d as [|[k' v] d IH]; simpl; [reflexivity|].
  destruct (str_eqb k' k) eqn:E; simpl; [exact IH|].
  now rewrite E.
Qed.

Lemma dict_lookup_pop_other d k k' :
  k' <> k -> dict_lookup (dict_pop d k) k' = dict_lookup d k'.
Proof.
  intros Hne. induction d as [|[k0 v] d IH]; simpl; [reflexivity|].
  destruct (str_eqb k0 k) eqn:E; simpl.
  - apply str_eqb_eq in E; subst k0.
    rewrite (str_eqb_neq k k') by congruence. exact IH.
  - now rewrite IH.
Qed.

Lemma dict_pop_filter d k :
  dict_pop d k = filter (fun kv => negb (str_eqb (fst kv) k)) d.
Proof.
  induction d as [|[k' v] d IH]; simpl; [reflexivity|].
  destruct (str_eqb k' k); simpl; now rewrite IH.
Qed.

Lemma dict_lookup_set_same d k v : dict_lookup (dict_set d k v) k = Some v.
Proof.
  induction d as [|[k' v'] d IH]; simpl.
  - now rewrite str_eqb_refl.
  - destruct (str_eqb k' k) eqn:E; simpl; now rewrite E.
Qed.

Lemma dict_lookup_set_other d k k' v :
  k' <> k -> dict_lookup (dict_set d k v) k' = dict_lookup d k'.
Proof.
  intros Hne. induction d as [|[k0 v0] d IH]; simpl.
  - now rewrite (str_eqb_neq k k') by congruence.
  - destruct (str_eqb k0 k) eqn:E; simpl.
    + apply str_eqb_eq in E; subst k0.
      now rewrite (str_eqb_neq k k') by congruence.
    + now rewrite IH.
Qed.

Lemma dict_set_set d k v v' : dict_set (dict_set d k v) k v' = dict_set d k v'.
Proof.
  induction d as [|[k0 v0] d IH]; simpl.
  - now rewrite str_eqb_refl.
  - destruct (str_eqb k0 k) eqn:E; simpl; rewrite E; [reflexivity|].
    now rewrite IH.
Qed.

End DictFacts.

Lemma slice_to_nonneg {A} (n : Z) (l : list A) :
  0 <= n -> slice_to n l = firstn (Z.to_nat n) l.
Proof.
  intros H. unfold slice_to.
  destruct (n <? 0) eqn:E; [apply Z.ltb_lt in E; lia | reflexivity].
Qed.

Lemma number_raises m s e r : Json.number m s = Some (Raise e, r) -> e = ValueError.
Proof.
  unfold Json.number.
  destruct (match s with 45%N :: t => (true, t) | _ => (false, s) end) as [neg s1].
  destruct (Json.int_part s1) as [[[i k] s2]|]; [|discriminate].
  destruct (Json.frac_part s2) as [[[f n] s3]|].
  - destruct (Json.exp_part s3) as [[e' s4]|]; discriminate.
  - destruct (Json.exp_part s2) as [[e' s3]|]; [discriminate|].
    destruct (Json.too_many_digits m k); [|discriminate].
    intros H. now injection H as <- _.
Qed.

Ltac raised :=
  let H := fresh in
  intros H; first [discriminate H | injection H as <-; exact I].

Lemma scan_raises m fuel :
  forall depth s e,
    (Json.scan_once m fuel depth s = Raise e -> json_error e)
    /\ (forall acc, Json.array m fuel depth s acc = Raise e -> json_error e)
    /\ (forall acc, Json.object m fuel depth s acc = Raise e -> json_error e).
Proof.
  induction fuel as [|fuel IH]; intros depth s e.
  - split; [|split]; [|intros acc|intros acc]; simpl; raised.
  - split; [|split].
    + cbn [Json.scan_once]. destruct s as [|c r]; [raised|].
      destruct (N.eqb c 34).
      { destruct (Json.scanstring _ r []) as [[x r']|]; raised. }
      destruct (N.eqb c 123).
      { destruct depth as [|depth]; [raised|].
        destruct (Json.skip_ws r) as [|c' r']; [raised|].
        destruct (N.eqb c' 125); [raised | apply IH]. }
      destruct (N.eqb c 91).
      { destruct depth as [|depth]; [raised|].
        destruct (Json.skip_ws r) as [|c' r']; [raised|].
        destruct (N.eqb c' 93); [raised | apply IH]. }
      destruct (Json.keyword (c :: r)) as [res|]; [raised|].
      destruct (Json.number m (c :: r)) as [[[v|e'] r']|] eqn:En.
      * raised.
      * apply number_raises in En. subst e'. raised.
      * destruct (Json.constant (c :: r)); raised.
    + intros acc. cbn [Json.array].
      destruct (Json.scan_once m fuel depth s) as [[v r]|e'] eqn:E.
      * destruct (Json.skip_ws r) as [|c r']; [raised|].
        destruct (N.eqb c 93); [raised|].
        destruct (N.eqb c 44); [apply IH | raised].
      * intros H. injection H as <-. now apply (IH depth s e') in E.
    + intros acc. cbn [Json.object].
      destruct s as [|q r]; [raised|].
      destruct (N.eqb q 34); [|raised].
      destruct (Json.scanstring _ r []) as [[k r1]|]; [|raised].
      destruct (Json.skip_ws r1) as [|colon r2]; [raised|].
      destruct (N.eqb colon 58); [|raised].
      destruct (Json.scan_once m fuel depth (Json.skip_ws r2)) as [[v r3]|e'] eqn:E.
      * destruct (Json.skip_ws r3) as [|c r']; [raised|].
        destruct (N.eqb c 125); [raised|].
        destruct (N.eqb c 44); [apply IH | raised].
      * intros H. injection H as <-. now apply (IH depth _ e') in E.
Qed.

(** [json.loads] raises nothing but its three errors. *)
Lemma loads_raises m depth s e : Json.loads m depth s = Raise e -> json_error e.
Proof.
  unfold Json.loads. intros H.
  assert (H' : match Json.scan_once m (2 * List.length s + 4) depth (Json.skip_ws s) with
               | Return (v, r) =>
                   match Json.skip_ws r with
                   | [] => Return v
                   | _ => Raise JSONDecodeError
                   end
               | Raise e => Raise e
               end = Raise e \/ e = JSONDecodeError).
  { destruct s as [|c s']; [left; exact H|].
    destruct (N.eq_dec c 65279) as [->|Hc].
    - right. now injection H as <-.
    - left. destruct c as [|p]; [exact H|].
      repeat (destruct p as [p|p|]; try exact H); congruence. }
  destruct H' as [H'| ->]; [|exact I].
  destruct (Json.scan_once _ _ _ _) as [[v r]|e'] eqn:E.
  - destruct (Json.skip_ws r); [discriminate|]. injection H' as <-. exact I.
  - injection H' as <-. now apply scan_raises in E.
Qed.

(** The constructor of a request accepts exactly the accepted URLs. *)
Lemma request_init_eq (w : world) (url : str) data hs method :
  Request_init w url data hs method
  = if accepted w url then Return (mkRequest method url data hs)
    else Raise ValueError.
Proof.
  unfold Request_init, accepted.
  destruct (Urllib.has_type url); [|reflexivity].
  now destruct (urlparse_refuses w url).
Qed.

(** [_request] issues exactly one request, the one [make_request]
    describes, and returns what [normalize] makes of its outcome; when the
    constructor refuses the URL it issues none and raises [ValueError]. *)
Lemma request_eq (w : world) (self : VaultClient) method path data headers
    content_type (log : list Request) :
  _request w self method path data headers content_type log
  = if accepted w (base_url self ++ path)
    then (log ++ [make_request self method path data headers content_type],
          normalize w (urlopen_read w
                         (make_request self method path data headers
                            content_type)))
    else (log, Raise ValueError).
Proof.
  unfold _request. cbv zeta. unfold bind at 1. unfold lift at 1.
  rewrite request_init_eq.
  destruct (accepted w (base_url self ++ path)); [|reflexivity].
  match goal with |- context [urlopen w ?r] =>
    replace r with (make_request self method path data headers content_type)
      by (unfold make_request; f_equal;
          destruct headers as [[|kv h]|], content_type as [[|c t]|]; reflexivity)
  end.
  unfold try_except, bind, urlopen, lift, ret, raise, normalize.
  destruct (urlopen_read w _) as [content | e].
  - destruct (nonempty content); [|reflexivity].
    unfold decode_utf8.
    destruct (Utf8.decode content) as [s|]; simpl; [|reflexivity].
    destruct (json_loads w s) as [v|e] eqn:E; [reflexivity|].
    apply loads_raises in E. destruct e; try contradiction; reflexivity.
  - destruct e as [code msg fp| reason| | | | | | | | |]; try reflexivity.
    unfold decode_utf8.
    destruct (match fp with Some b => Utf8.decode b | None => Some [] end)
      as [body|] eqn:E.
    + assert (Hb : match fp with
                   | Some b => of_option UnicodeDecodeError (Utf8.decode b)
                   | None => Return []
                   end = @Return str body).
      { destruct fp as [b|]; [rewrite E; reflexivity|].
        injection E as <-. reflexivity. }
      rewrite Hb.
      destruct (json_loads w body) as [v|e]; simpl; [|reflexivity].
      destruct v; reflexivity.
    + destruct fp as [b|]; [|discriminate].
      rewrite E. reflexivity.
Qed.

(** The same for a URL that is accepted. *)
Lemma request_eq_accepted (w : world) (self : VaultClient) method path data
    headers content_type (log : list Request) :
  accepted w (base_url self ++ path) = true ->
  _request w self method path data headers content_type log
  = (log ++ [make_request self method path data headers content_type],
     normalize w (urlopen_read w
                    (make_request self method path data headers content_type))).
Proof. intros H. now rewrite request_eq, H. Qed.

Lemma rstrip_space_cons (x : N) (s : str) :
  is_space x = false -> rstrip_space (x :: s) = x :: rstrip_space s.
Proof. intros H. simpl. rewrite H. now destruct (rstrip_space s). Qed.

Lemma lstrip_space_cons (x : N) (s : str) :
  is_space x = false -> lstrip_space (x :: s) = x :: s.
Proof. intros H. simpl. now rewrite H. Qed.

Lemma splittag_cons (c : N) (r : str) :
  N.eqb c 35 = false -> Urllib.splittag (c :: r) = c :: Urllib.splittag r.
Proof.
  intros H. unfold Urllib.splittag. simpl.
  destruct (Urllib.before_last_hash r); [reflexivity|]. now rewrite H.
Qed.

(** A URL that starts with [http:] or [https:] has a type, whatever
    follows. *)
Lemma has_type_http (r : str) : Urllib.has_type (lit "http:" ++ r) = true.
Proof.
  change (lit "http:" ++ r) with (104 :: 116 :: 116 :: 112 :: 58 :: r)%N.
  unfold Urllib.has_type, Urllib.unwrap, strip.
  rewrite !rstrip_space_cons, lstrip_space_cons by reflexivity.
  cbv beta iota zeta.
  now rewrite !splittag_cons by reflexivity.
Qed.

Lemma has_type_https (r : str) : Urllib.has_type (lit "https:" ++ r) = true.
Proof.
  change (lit "https:" ++ r) with (104 :: 116 :: 116 :: 112 :: 115 :: 58 :: r)%N.
  unfold Urllib.has_type, Urllib.unwrap, strip.
  rewrite !rstrip_space_cons, lstrip_space_cons by reflexivity.
  cbv beta iota zeta.
  now rewrite !splittag_cons by reflexivity.
Qed.

(** Where [urlparse] refuses nothing, a client whose base URL starts with
    [http:] or [https:] reaches the server with every request. *)
Lemma http_reaches (w : world) (self : VaultClient) (r : str) :
  (forall url, urlparse_refuses w url = false) ->
  base_url self = lit "http:" ++ r \/ base_url self = lit "https:" ++ r ->
  reaches w self.
Proof.
  intros Hw Hb path. unfold accepted. rewrite Hw, andb_true_r.
  destruct Hb as [-> | ->]; rewrite <- app_assoc;
    [apply has_type_http | apply has_type_https].
Qed.

Lemma local_reaches (o : Exc bytes) : reaches (constant_world o) local_client.
Proof.
  apply (http_reaches _ _ (lit "//127.0.0.1:27124")); [reflexivity|].
  right. reflexivity.
Qed.

Example has_type_ex :
  map Urllib.has_type
    [lit "https://127.0.0.1:27124/vault/"; lit "/vault/"; lit "127.0.0.1:27124/vault/";
     lit "localhost/vault/a:b"; lit " <URL:http://x/> "; lit "URL:x/vault/";
     lit "://x"; lit "a#b://x/vault/"]
  = [true; false; true; false; true; false; false; false].
Proof. reflexivity. Qed.

(* ================================================================= *)
(** ** The request executor *)

(** C2, as amended. For every response with a success status whose body
    is empty, or decodes as UTF-8 to a text that [json.loads] answers (it
    returns a value or raises [JSONDecodeError]), [_request] returns the
    success envelope; the payload is the JSON value of the body when the
    body is valid JSON, otherwise the decoded text of the body, and [None]
    when the body is empty. *)
Theorem request_success (w : world) (self : VaultClient) method path data
    headers content_type (content : bytes) (s : str) (log : list Request) :
  accepted w (base_url self ++ path) = true ->
  urlopen_read w (make_request self method path data headers content_type)
    = Return content ->
  Utf8.decode content = Some s ->
  loads_answers w s ->
  _request w self method path data headers content_type log
  = (log ++ [make_request self method path data headers content_type],
     Return (success
               (if nonempty content then
                  match json_loads w s with
                  | Return v => v
                  | Raise _ => VStr s
                  end
                else VNone))).
Proof.
  intros Hacc Hresp Hdec Hans. rewrite (request_eq_accepted _ _ _ _ _ _ _ _ Hacc).
  rewrite Hresp. simpl.
  destruct (nonempty content); [|reflexivity].
  rewrite Hdec. unfold loads_answers in Hans.
  destruct (json_loads w s) as [v|e]; [reflexivity|].
  destruct e; try contradiction. reflexivity.
Qed.

Lemma request_success_witness :
  accepted (constant_world (Return (bjlit "{'tags':['x']}")))
    (base_url local_client ++ lit "/vault/n.md") = true
  /\ urlopen_read (constant_world (Return (bjlit "{'tags':['x']}")))
       (make_request local_client (lit "GET") (lit "/vault/n.md") None None None)
     = Return (bjlit "{'tags':['x']}")
  /\ Utf8.decode (bjlit "{'tags':['x']}") = Some (jlit "{'tags':['x']}")
  /\ loads_answers (constant_world (Return (bjlit "{'tags':['x']}")))
       (jlit "{'tags':['x']}")
  /\ _request (constant_world (Return (bjlit "{'tags':['x']}"))) local_client
       (lit "GET") (lit "/vault/n.md") None None None []
     = ([mkRequest (lit "GET") (lit "https://127.0.0.1:27124/vault/n.md") None
           [(lit "Authorization", VStr (lit "Bearer secret"))]],
        Return (success (VDict [(lit "tags", VList [VStr (lit "x")])]))).
Proof.
  split; [reflexivity|]. split; [reflexivity|]. split; [reflexivity|].
  split; [exact I|].
  apply (request_success (constant_world (Return (bjlit "{'tags':['x']}")))
           local_client (lit "GET") (lit "/vault/n.md") None None None
           (bjlit "{'tags':['x']}") (jlit "{'tags':['x']}") []).
  - reflexivity.
  - reflexivity.
  - reflexivity.
  - exact I.
Defined.

(** C2, counterexample. A success response whose body is the single
    octet FF is not UTF-8: [_request] raises [UnicodeDecodeError] and
    returns no envelope. *)
Lemma request_success_not_utf8 :
  urlopen_read (constant_world (Return [xff]))
    (make_request local_client (lit "GET") (lit "/vault/") None None None)
    = Return [xff]
  /\ _request (constant_world (Return [xff])) local_client
       (lit "GET") (lit "/vault/") None None None []
     = ([mkRequest (lit "GET") (lit "https://127.0.0.1:27124/vault/") None
           [(lit "Authorization", VStr (lit "Bearer secret"))]],
        Raise UnicodeDecodeError).
Proof. split; reflexivity. Qed.

(** The same for a body [json.loads] gives up on: [_request] catches
    [JSONDecodeError] only, so that the [ValueError] of an integer of 4301
    digits and the [RecursionError] of 1001 nested arrays leave it, with
    no envelope. *)
Example request_success_gives_up :
  snd (_request (constant_world (Return (repeat x31 4301))) local_client
         (lit "GET") (lit "/vault/n.md") None None None [])
  = Raise ValueError
  /\ snd (_request (constant_world (Return (repeat x5b 1001))) local_client
            (lit "GET") (lit "/vault/n.md") None None None [])
     = Raise RecursionError
  /\ snd (_request (constant_world (Return (repeat x5b 1000))) local_client
            (lit "GET") (lit "/vault/n.md") None None None [])
     = Return (success (VStr (repeat 91%N 1000))).
Proof. repeat split; vm_compute; reflexivity. Qed.

(** The three cases of a decodable success body, one by one. *)
Corollary request_success_cases (w : world) (self : VaultClient) method path
    data headers content_type (content : bytes) (s : str) :
  accepted w (base_url self ++ path) = true ->
  urlopen_read w (make_request self method path data headers content_type)
    = Return content ->
  Utf8.decode content = Some s ->
  let out := snd (run (_request w self method path data headers content_type)) in
  (content = [] -> out = Return (success VNone))
  /\ (forall v, content <> [] -> json_loads w s = Return v ->
                out = Return (success v))
  /\ (content <> [] -> json_loads w s = Raise JSONDecodeError ->
      out = Return (success (VStr s))).
Proof.
  intros Hacc Hresp Hdec out. subst out. unfold run.
  rewrite (request_eq_accepted _ _ _ _ _ _ _ _ Hacc), Hresp. unfold normalize, snd.
  repeat split.
  - now intros ->.
  - intros v Hne Hv. destruct content; [contradiction|].
    rewrite Hdec, Hv. reflexivity.
  - intros Hne Hv. destruct content; [contradiction|].
    rewrite Hdec, Hv. reflexivity.
Qed.

(** An HTTP error whose body, when it has one, decodes as UTF-8:
    [_request] returns a failure envelope that holds the status code; its
    message is the [message] field of the body when the body is a JSON
    object with that field, and otherwise the status text [str(e)], also
    when [json.loads] gives up on the body. *)
Lemma request_http_error (w : world) (self : VaultClient) method path data
    headers content_type (code : Z) (msg : str) (fp : option bytes)
    (body : str) (log : list Request) :
  accepted w (base_url self ++ path) = true ->
  urlopen_read w (make_request self method path data headers content_type)
    = Raise (HTTPError code msg fp) ->
  match fp with Some b => Utf8.decode b | None => Some [] end = Some body ->
  exists r,
    _request w self method path data headers content_type log
    = (log ++ [make_request self method path data headers content_type],
       Return r)
    /\ r = failure_code
             (match json_loads w body with
              | Return (VDict d) =>
                  dict_get d (lit "message") (VStr (str_of_HTTPError code msg))
              | _ => VStr (str_of_HTTPError code msg)
              end) code
    /\ dict_lookup r (lit "code") = Some (VInt code)
    /\ dict_lookup r (lit "ok") = Some (VBool false).
Proof.
  intros Hacc Hresp Hdec. eexists. split; [|split; [reflexivity|]].
  - rewrite (request_eq_accepted _ _ _ _ _ _ _ _ Hacc), Hresp. simpl.
    rewrite Hdec. reflexivity.
  - split; reflexivity.
Qed.

Example request_http_error_message :
  _request
    (constant_world
       (Raise (HTTPError 404 (lit "Not Found")
                 (Some (bjlit "{'message':'File does not exist','errorCode':40400}")))))
    local_client (lit "DELETE") (lit "/vault/x") None None None []
  = ([mkRequest (lit "DELETE") (lit "https://127.0.0.1:27124/vault/x") None
        [(lit "Authorization", VStr (lit "Bearer secret"))]],
     Return (failure_code (VStr (lit "File does not exist")) 404)).
Proof. reflexivity. Qed.

(** C3, the failing input. An HTTP error whose body is the single octet
    FF: the body is decoded on the line above the handler's own [try], so
    [_request] raises [UnicodeDecodeError]; no failure envelope, no status
    code, where the claim has the envelope with the status text and the
    code 500. *)
Lemma request_http_error_not_utf8 :
  urlopen_read
    (constant_world (Raise (HTTPError 500 (lit "Internal Server Error") (Some [xff]))))
    (make_request local_client (lit "GET") (lit "/vault/") None None None)
  = Raise (HTTPError 500 (lit "Internal Server Error") (Some [xff]))
  /\ _request
       (constant_world (Raise (HTTPError 500 (lit "Internal Server Error") (Some [xff]))))
       local_client (lit "GET") (lit "/vault/") None None None []
     = ([mkRequest (lit "GET") (lit "https://127.0.0.1:27124/vault/") None
           [(lit "Authorization", VStr (lit "Bearer secret"))]],
        Raise UnicodeDecodeError).
Proof. split; reflexivity. Qed.

(** The status text stands in whenever no message can be extracted: there
    is no body, the body is not JSON, is JSON but no object, has no
    [message], or is one [json.loads] gives up on. The sibling cases of
    the one above. *)
Example request_http_error_fallbacks :
  map (fun body =>
         snd (run (_request
                     (constant_world (Raise (HTTPError 404 (lit "Not Found") body)))
                     local_client (lit "GET") (lit "/vault/x") None None None)))
      [None; Some (blit "Not Found"); Some (blit "[1]"); Some (bjlit "{'error':1}");
       Some (repeat x31 4301)]
  = repeat (Return (failure_code (VStr (lit "HTTP Error 404: Not Found")) 404)) 5.
Proof. vm_compute. reflexivity. Qed.

(* ================================================================= *)
(** ** get-note: metadata only, truncation *)

Lemma firstn_app_exact {A} (n : nat) (l m : list A) :
  List.length l = n -> firstn n (l ++ m) = l.
Proof.
  intros <-. rewrite firstn_app, Nat.sub_diag, firstn_all. simpl.
  now rewrite app_nil_r.
Qed.

Lemma dict_get_set_same {V} (d : list (str * V)) k v default :
  dict_get (dict_set d k v) k default = v.
Proof. unfold dict_get. now rewrite dict_lookup_set_same. Qed.

(** [shape_get] on a success envelope whose payload is a record with a
    text content (or none), for a limit that is not zero. *)
Lemma shape_get_text (d : dict) (c : str) (n : Z) (log : list Request) :
  n <> 0 ->
  dict_get d (lit "content") (VStr []) = VStr c ->
  shape_get (Some n) (success (VDict d)) log
  = (log,
     Return (if n <? len c
             then success (VDict (dict_set d (lit "content")
                                    (VStr (slice_to n c ++ truncation_marker))))
             else success (VDict d))).
Proof.
  intros Hn Hc. unfold shape_get, bind, lift, ret. simpl.
  destruct (n =? 0) eqn:E; [apply Z.eqb_eq in E; contradiction|]. simpl.
  rewrite Hc. simpl. destruct (n <? len c); reflexivity.
Qed.

(** C4, as amended. For every content string and every limit of at least
    one character: content not longer than the limit is returned
    unaltered; longer content becomes its first [limit] characters,
    exactly that many, followed by the truncation marker; and truncating
    the result again changes nothing. *)
Theorem get_truncation (d : dict) (c : str) (n : Z) (log : list Request) :
  0 < n ->
  dict_get d (lit "content") (VStr []) = VStr c ->
  (len c <= n ->
   shape_get (Some n) (success (VDict d)) log = (log, Return (success (VDict d))))
  /\ (n < len c ->
      List.length (firstn (Z.to_nat n) c) = Z.to_nat n
      /\ shape_get (Some n) (success (VDict d)) log
         = (log,
            Return (success
                      (VDict (dict_set d (lit "content")
                                (VStr (firstn (Z.to_nat n) c ++ truncation_marker)))))))
  /\ (forall r, shape_get (Some n) (success (VDict d)) log = (log, Return r) ->
                shape_get (Some n) r log = (log, Return r)).
Proof.
  intros Hn Hc.
  assert (Hlen : n < len c -> List.length (firstn (Z.to_nat n) c) = Z.to_nat n).
  { intros Hlt. apply firstn_length_le. unfold len in Hlt. lia. }
  pose proof (shape_get_text d c n log ltac:(lia) Hc) as Hs.
  rewrite slice_to_nonneg in Hs by lia.
  split; [|split].
  - intros Hle. rewrite Hs.
    destruct (n <? len c) eqn:E; [apply Z.ltb_lt in E; lia | reflexivity].
  - intros Hlt. split; [now apply Hlen|]. rewrite Hs.
    destruct (n <? len c) eqn:E; [reflexivity | apply Z.ltb_ge in E; lia].
  - intros r Hr. rewrite Hs in Hr. injection Hr as <-.
    destruct (n <? len c) eqn:E.
    + apply Z.ltb_lt in E.
      rewrite (shape_get_text _ (firstn (Z.to_nat n) c ++ truncation_marker) n log)
        by (try lia; apply dict_get_set_same).
      rewrite slice_to_nonneg by lia.
      rewrite firstn_app_exact by now apply Hlen.
      rewrite dict_set_set.
      replace (n <? len (firstn (Z.to_nat n) c ++ truncation_marker)) with true;
        [reflexivity|].
      symmetry. apply Z.ltb_lt. unfold len. rewrite length_app, Hlen by exact E.
      simpl. lia.
    + rewrite (shape_get_text d c n log) by (try lia; exact Hc).
      now rewrite E.
Qed.

Lemma get_truncation_witness :
  0 < 3
  /\ dict_get [(lit "content", VStr (lit "hello")); (lit "tags", VList [])]
       (lit "content") (VStr []) = VStr (lit "hello")
  /\ (len (lit "hello") <= 3 ->
      shape_get (Some 3)
        (success (VDict [(lit "content", VStr (lit "hello")); (lit "tags", VList [])]))
        []
      = ([], Return (success (VDict [(lit "content", VStr (lit "hello"));
                                     (lit "tags", VList [])]))))
  /\ (3 < len (lit "hello") ->
      List.length (firstn (Z.to_nat 3) (lit "hello")) = Z.to_nat 3
      /\ shape_get (Some 3)
           (success (VDict [(lit "content", VStr (lit "hello")); (lit "tags", VList [])]))
           []
         = ([], Return (success
                          (VDict (dict_set [(lit "content", VStr (lit "hello"));
                                            (lit "tags", VList [])]
                                    (lit "content")
                                    (VStr (firstn (Z.to_nat 3) (lit "hello")
                                           ++ truncation_marker)))))))
  /\ (forall r,
        shape_get (Some 3)
          (success (VDict [(lit "content", VStr (lit "hello")); (lit "tags", VList [])]))
          [] = ([], Return r) ->
        shape_get (Some 3) r [] = ([], Return r)).
Proof.
  split; [lia|]. split; [reflexivity|].
  exact (get_truncation
           [(lit "content", VStr (lit "hello")); (lit "tags", VList [])]
           (lit "hello") 3 [] ltac:(lia) eq_refl).
Defined.

(** C4, counterexample. With the limit 0 the content [abc], longer than
    the limit, comes back unaltered instead of as zero characters and the
    marker. *)
Lemma get_truncation_limit_zero :
  0 < len (lit "abc")
  /\ shape_get (Some 0) (success (VDict [(lit "content", VStr (lit "abc"))])) []
     = ([], Return (success (VDict [(lit "content", VStr (lit "abc"))])))
  /\ success (VDict [(lit "content", VStr (lit "abc"))])
     <> success (VDict [(lit "content",
                         VStr (firstn 0 (lit "abc") ++ truncation_marker))]).
Proof. split; [reflexivity|]. split; [reflexivity | discriminate]. Qed.

(** A negative limit is a slice bound counted from the end: the content
    loses its last characters and gets the marker, whatever its length. *)
Example get_truncation_negative_limit :
  shape_get (Some (-1)) (success (VDict [(lit "content", VStr (lit "abc"))])) []
  = ([], Return (success (VDict [(lit "content",
                                  VStr (lit "ab" ++ truncation_marker))]))).
Proof. reflexivity. Qed.

(** C10. With a limit of 0 nothing is truncated: a success envelope
    leaves the [get] branch as it entered it, whatever the length of its
    content, and the whole command behaves as with no limit at all. *)
Theorem get_limit_zero (w : world) (client : VaultClient) (path : str)
    (metadata_only : bool) (data : value) (log : list Request) :
  shape_get (Some 0) (success data) log = (log, Return (success data))
  /\ (forall r, shape_get (Some 0) r log = shape_get None r log)
  /\ execute w client (Get path metadata_only (Some 0)) log
     = execute w client (Get path metadata_only None) log
  /\ main w (Get path metadata_only (Some 0)) log
     = main w (Get path metadata_only None) log.
Proof.
  assert (H : forall r l, shape_get (Some 0) r l = shape_get None r l).
  { intros r l. unfold shape_get, bind, lift.
    destruct (getitem r (lit "ok")) as [ok|e]; [|reflexivity].
    simpl. now rewrite andb_false_r. }
  assert (He : forall c l, execute w c (Get path metadata_only (Some 0)) l
                           = execute w c (Get path metadata_only None) l).
  { intros c l. unfold execute, bind.
    destruct (get_note w c path metadata_only l) as [l' [r|e]]; [apply H | reflexivity]. }
  split; [reflexivity|]. split; [intros r; apply H|]. split; [apply He|].
  unfold main, bind. destruct (opt_truthy (environ_api_key w)); [|reflexivity].
  now rewrite He.
Qed.

Lemma quote_encoded (path : str) (bs : bytes) (safe : list N) :
  Utf8.encode path = Some bs ->
  Urllib.quote path safe = Return (Urllib.quote_from_bytes safe bs).
Proof. intros H. unfold Urllib.quote. now rewrite H. Qed.

Lemma loads_nil m depth : Json.loads m depth [] = Raise JSONDecodeError.
Proof. reflexivity. Qed.

(** C7. A successful get-note with the metadata-only flag whose decoded
    payload is a record returns that record without its [content] field:
    the field is gone, every other field keeps its value, and the fields
    that stay keep their order. (The invocation is successful: its request
    was built, and answered with the JSON text of a record.) *)
Theorem get_note_metadata_only (w : world) (self : VaultClient) (path : str)
    (bs content : bytes) (s : str) (d : dict) (log : list Request) :
  Utf8.encode path = Some bs ->
  accepted w (base_url self ++ lit "/vault/" ++ Urllib.quote_from_bytes [] bs)
    = true ->
  urlopen_read w
    (make_request self (lit "GET")
       (lit "/vault/" ++ Urllib.quote_from_bytes [] bs) None
       (Some [(lit "Accept", VStr (lit "application/vnd.olrapi.note+json"))])
       None)
    = Return content ->
  Utf8.decode content = Some s ->
  json_loads w s = Return (VDict d) ->
  get_note w self path true log
  = (log ++ [make_request self (lit "GET")
               (lit "/vault/" ++ Urllib.quote_from_bytes [] bs) None
               (Some [(lit "Accept", VStr (lit "application/vnd.olrapi.note+json"))])
               None],
     Return (success (VDict (dict_pop d (lit "content")))))
  /\ dict_lookup (dict_pop d (lit "content")) (lit "content") = None
  /\ (forall k, k <> lit "content" ->
        dict_lookup (dict_pop d (lit "content")) k = dict_lookup d k)
  /\ dict_pop d (lit "content")
     = filter (fun kv => negb (str_eqb (fst kv) (lit "content"))) d.
Proof.
  intros Hpath Hacc Hresp Hdec Hjson.
  split; [|split; [apply dict_lookup_pop_same|
           split; [intros k Hk; now apply dict_lookup_pop_other
                  | apply dict_pop_filter]]].
  unfold get_note, bind, lift.
  rewrite (quote_encoded _ _ _ Hpath), (request_eq_accepted _ _ _ _ _ _ _ _ Hacc).
  rewrite Hresp. unfold normalize.
  destruct content as [|b content].
  - simpl in Hdec. injection Hdec as <-. unfold json_loads in Hjson.
    rewrite loads_nil in Hjson. discriminate.
  - unfold nonempty. rewrite Hdec, Hjson. reflexivity.
Qed.

Lemma get_note_metadata_only_witness :
  Utf8.encode (lit "a/b.md") = Some (blit "a/b.md")
  /\ accepted (constant_world (Return (bjlit "{'content':'hello','tags':['x']}")))
       (base_url local_client ++ lit "/vault/"
        ++ Urllib.quote_from_bytes [] (blit "a/b.md")) = true
  /\ urlopen_read
       (constant_world (Return (bjlit "{'content':'hello','tags':['x']}")))
       (make_request local_client (lit "GET")
          (lit "/vault/" ++ Urllib.quote_from_bytes [] (blit "a/b.md")) None
          (Some [(lit "Accept", VStr (lit "application/vnd.olrapi.note+json"))])
          None)
     = Return (bjlit "{'content':'hello','tags':['x']}")
  /\ Utf8.decode (bjlit "{'content':'hello','tags':['x']}")
     = Some (jlit "{'content':'hello','tags':['x']}")
  /\ json_loads (constant_world (Return (bjlit "{'content':'hello','tags':['x']}")))
       (jlit "{'content':'hello','tags':['x']}")
     = Return (VDict [(lit "content", VStr (lit "hello"));
                      (lit "tags", VList [VStr (lit "x")])])
  /\ get_note (constant_world (Return (bjlit "{'content':'hello','tags':['x']}")))
       local_client (lit "a/b.md") true []
     = ([make_request local_client (lit "GET") (lit "/vault/a%2Fb.md") None
           (Some [(lit "Accept", VStr (lit "application/vnd.olrapi.note+json"))])
           None],
        Return (success (VDict [(lit "tags", VList [VStr (lit "x")])]))).
Proof.
  split; [reflexivity|]. split; [reflexivity|]. split; [reflexivity|].
  split; [reflexivity|]. split; [reflexivity|].
  exact (proj1 (get_note_metadata_only
                  (constant_world (Return (bjlit "{'content':'hello','tags':['x']}")))
                  local_client (lit "a/b.md") (blit "a/b.md")
                  (bjlit "{'content':'hello','tags':['x']}")
                  (jlit "{'content':'hello','tags':['x']}")
                  [(lit "content", VStr (lit "hello"));
                   (lit "tags", VList [VStr (lit "x")])]
                  [] eq_refl eq_refl eq_refl eq_refl eq_refl)).
Defined.

(** Without the flag the record comes back whole. *)
Example get_note_with_content :
  snd (run (get_note (constant_world (Return (bjlit "{'content':'hello','tags':['x']}")))
              local_client (lit "a/b.md") false))
  = Return (success (VDict [(lit "content", VStr (lit "hello"));
                            (lit "tags", VList [VStr (lit "x")])])).
Proof. reflexivity. Qed.

(* ================================================================= *)
(** ** Search shaping *)

Lemma comprehension_map {A B} (f : A -> Exc B) (g : A -> B) (l : list A) :
  (forall a, In a l -> f a = Return (g a)) ->
  comprehension f l = Return (map g l).
Proof.
  induction l as [|a l IH]; intros H; simpl; [reflexivity|].
  rewrite (H a (or_introl eq_refl)), IH; [reflexivity|].
  intros b Hb. apply H. now right.
Qed.

Lemma snippet_of_match (m : value) :
  is_match_object m = true ->
  match py_get m (lit "context") (VStr []) with
  | Raise e => Raise e
  | Return c => py_slice_to 200 c
  end = Return (snippet_of m).
Proof.
  destruct m as [| | | | | |d]; try discriminate.
  unfold is_match_object, snippet_of, py_get.
  destruct (dict_get d (lit "context") (VStr [])); try discriminate.
  reflexivity.
Qed.

Lemma snippet_short (m : value) :
  is_match_object m = true -> is_short_text 200 (snippet_of m) = true.
Proof.
  destruct m as [| | | | | |d]; try discriminate.
  unfold is_match_object, snippet_of.
  destruct (dict_get d (lit "context") (VStr [])); try discriminate.
  intros _. unfold is_short_text. apply Nat.leb_le.
  rewrite length_firstn. apply Nat.le_min_l.
Qed.

Lemma forallb_firstn {A} (p : A -> bool) (n : nat) (l : list A) :
  forallb p l = true -> forallb p (firstn n l) = true.
Proof.
  revert n; induction l as [|a l IH]; intros [|n] H; simpl in *; try reflexivity.
  apply andb_true_iff in H as [Ha Hl]. now rewrite Ha, IH.
Qed.

(** On a search hit [search_entry] raises nothing and builds
    [shaped_entry]. *)
Lemma search_entry_hit (item : value) :
  is_search_hit item = true -> search_entry item = Return (shaped_entry item).
Proof.
  destruct item as [| | | | | |it]; try discriminate.
  unfold is_search_hit, search_entry, shaped_entry. simpl py_get. cbv iota.
  destruct (dict_get it (lit "matches") (VList [])) as [| | | | |ms|];
    try discriminate.
  intros Hms. destruct ms as [|m ms]; [reflexivity|].
  change (truthy (VList (m :: ms))) with true. cbv iota.
  change (py_slice_to 3 (VList (m :: ms)))
    with (Return (VList (firstn 3 (m :: ms)))).
  cbv beta iota.
  change (py_iter (VList (firstn 3 (m :: ms))))
    with (Return (firstn 3 (m :: ms))).
  cbv beta iota.
  rewrite (comprehension_map _ snippet_of); [reflexivity|].
  intros a Ha. apply snippet_of_match.
  apply (forallb_firstn _ 3) in Hms.
  rewrite forallb_forall in Hms. now apply Hms.
Qed.

Lemma shaped_entry_for (item : value) :
  is_search_hit item = true -> entry_for item (shaped_entry item).
Proof.
  destruct item as [| | | | | |it]; try discriminate.
  unfold is_search_hit, shaped_entry, entry_for.
  destruct (dict_get it (lit "matches") (VList [])) as [| | | | |ms|] eqn:E;
    try discriminate.
  intros Hms. exists it. destruct ms as [|m ms].
  - eexists. split; [reflexivity|]. split; [reflexivity|].
    split; [reflexivity|]. split; [reflexivity|]. split.
    + intros k Hk. simpl in Hk.
      apply orb_true_iff in Hk as [Hk|Hk]; [left; symmetry; now apply str_eqb_eq|].
      apply orb_true_iff in Hk as [Hk|Hk]; [|discriminate].
      right; left; symmetry; now apply str_eqb_eq.
    + rewrite E. reflexivity.
  - eexists. split; [reflexivity|]. split; [reflexivity|].
    split; [reflexivity|]. split; [reflexivity|]. split.
    + intros k Hk. simpl in Hk.
      apply orb_true_iff in Hk as [Hk|Hk]; [left; symmetry; now apply str_eqb_eq|].
      apply orb_true_iff in Hk as [Hk|Hk];
        [right; left; symmetry; now apply str_eqb_eq|].
      apply orb_true_iff in Hk as [Hk|Hk]; [|discriminate].
      right; right; symmetry; now apply str_eqb_eq.
    + rewrite E. eexists. split; [reflexivity|].
      split; [rewrite length_map, length_firstn; lia|].
      split; [|reflexivity].
      apply forallb_forall. intros x Hx. apply in_map_iff in Hx as [y [<- Hy]].
      apply snippet_short.
      apply (forallb_firstn _ 3) in Hms.
      rewrite forallb_forall in Hms. now apply Hms.
Qed.

(** C5. For every list of search hits and every maximum count (a count is
    not negative), the shaped result holds the entries of the first [max]
    hits, in order: at most [max] of them, exactly [max] when there are at
    least that many hits; each entry has [path] (from [filename], default
    the empty string), [score] (default 0) and, only when the hit has
    matches, [snippets]: at most 3, each at most 200 characters, the starts
    of the contexts of the first matches. *)
Theorem search_shaping (hits : list value) (max_results : Z)
    (log : list Request) :
  0 <= max_results ->
  forallb is_search_hit hits = true ->
  exists entries,
    shape_search max_results (success (VList hits)) log
    = (log, Return (success (VList entries)))
    /\ List.length entries = Nat.min (Z.to_nat max_results) (List.length hits)
    /\ len entries <= max_results
    /\ (max_results <= len hits -> len entries = max_results)
    /\ Forall2 entry_for (firstn (Z.to_nat max_results) hits) entries.
Proof.
  intros Hmax Hhits.
  exists (map shaped_entry (firstn (Z.to_nat max_results) hits)).
  assert (Hfirst : forallb is_search_hit (firstn (Z.to_nat max_results) hits) = true)
    by now apply forallb_firstn.
  assert (Hlen : List.length (map shaped_entry (firstn (Z.to_nat max_results) hits))
                 = Nat.min (Z.to_nat max_results) (List.length hits))
    by now rewrite length_map, length_firstn.
  split; [|split; [exact Hlen|split; [|split]]].
  - unfold shape_search, bind, lift, ret. simpl.
    rewrite slice_to_nonneg by exact Hmax.
    rewrite (comprehension_map _ shaped_entry); [reflexivity|].
    intros a Ha. apply search_entry_hit.
    rewrite forallb_forall in Hfirst. now apply Hfirst.
  - unfold len. rewrite Hlen. lia.
  - unfold len. rewrite Hlen. lia.
  - rewrite forallb_forall in Hfirst. clear Hlen.
    induction (firstn (Z.to_nat max_results) hits) as [|a l IH]; simpl;
      constructor.
    + apply shaped_entry_for, Hfirst. now left.
    + apply IH. intros x Hx. apply Hfirst. now right.
Qed.

Lemma search_shaping_witness :
  0 <= 10
  /\ forallb is_search_hit (repeat long_hit 50) = true
  /\ exists entries,
       shape_search 10 (success (VList (repeat long_hit 50))) []
       = ([], Return (success (VList entries)))
       /\ List.length entries = Nat.min (Z.to_nat 10) (List.length (repeat long_hit 50))
       /\ len entries <= 10
       /\ (10 <= len (repeat long_hit 50) -> len entries = 10)
       /\ Forall2 entry_for (firstn (Z.to_nat 10) (repeat long_hit 50)) entries.
Proof.
  split; [lia|]. split; [reflexivity|].
  exact (search_shaping (repeat long_hit 50) 10 [] ltac:(lia) eq_refl).
Defined.

(** Fifty hits and a maximum of ten: ten entries, three snippets of 200
    characters each. *)
Example search_shaping_50_10 :
  shape_search 10 (success (VList (repeat long_hit 50))) []
  = ([], Return (success (VList (repeat
       (VDict [(lit "path", VStr (lit "notes/a.md"));
               (lit "score", VFloat (Ffin true 25 (-2)));
               (lit "snippets", VList (repeat (VStr (repeat 120%N 200)) 3))])
       10)))).
Proof. vm_compute. reflexivity. Qed.

(** A hit without fields gets the defaults and no [snippets]. *)
Example search_shaping_bare :
  shape_search 10 (success (VList [bare_hit])) []
  = ([], Return (success (VList [VDict [(lit "path", VStr []);
                                        (lit "score", VInt 0)]]))).
Proof. reflexivity. Qed.

(** Outside the data model: an item that is no record makes the shaping
    raise, and a negative maximum is a slice bound counted from the end. *)
Example search_shaping_untyped :
  snd (shape_search 10 (success (VList [VInt 1])) []) = Raise AttributeError
  /\ snd (shape_search (-1) (success (VList [bare_hit; bare_hit; bare_hit])) [])
     = Return (success (VList (repeat (VDict [(lit "path", VStr []);
                                              (lit "score", VInt 0)]) 2))).
Proof. split; reflexivity. Qed.

(* ================================================================= *)
(** ** The envelope invariant *)

Lemma bind_inv {A B} (m : M A) (f : A -> M B) log log' (b : B) :
  bind m f log = (log', Return b) ->
  exists a log1, m log = (log1, Return a) /\ f a log1 = (log', Return b).
Proof.
  unfold bind. destruct (m log) as [log1 [a|e]]; intros H; [|discriminate].
  now exists a, log1.
Qed.

Lemma lift_inv {A} (x : Exc A) log log' (a : A) :
  lift x log = (log', Return a) -> x = Return a /\ log' = log.
Proof. unfold lift. intros H. injection H as <- ->. now split. Qed.

Lemma try_except_inv {A} (body : M A) (handler : exn -> M A) log log' (a : A) :
  try_except body handler log = (log', Return a) ->
  body log = (log', Return a)
  \/ exists e log1, body log = (log1, Raise e) /\ handler e log1 = (log', Return a).
Proof.
  unfold try_except. destruct (body log) as [log1 [x|e]]; intros H.
  - left. exact H.
  - right. now exists e, log1.
Qed.

Lemma shape_inv (r : dict) : envelope_shape r -> envelope_inv r = true.
Proof. intros []; reflexivity. Qed.

Lemma normalize_shape (w : world) (o : Exc bytes) (r : dict) :
  normalize w o = Return r -> envelope_shape r.
Proof.
  unfold normalize. intros H.
  destruct o as [content|e].
  - destruct (nonempty content).
    + destruct (Utf8.decode content) as [s|]; [|discriminate].
      destruct (json_loads w s) as [v|[]]; try discriminate;
        injection H as <-; constructor.
    + injection H as <-. constructor.
  - destruct e as [code msg fp| reason| | | | | | | | |]; try discriminate.
    + destruct (match fp with Some b => Utf8.decode b | None => Some [] end);
        [|discriminate].
      injection H as <-. constructor.
    + injection H as <-. constructor.
Qed.

Lemma request_shape (w : world) (self : VaultClient) method path data headers
    content_type :
  returns_envelope (_request w self method path data headers content_type).
Proof.
  intros log log' r H. rewrite request_eq in H.
  destruct (accepted w _); [|discriminate].
  injection H as _ H. now apply normalize_shape in H.
Qed.

Lemma bind_lift_shape {A} (x : Exc A) (f : A -> M dict) :
  (forall a, returns_envelope (f a)) -> returns_envelope (bind (lift x) f).
Proof.
  intros Hf log log' r H. apply bind_inv in H as (a & log1 & _ & H).
  now apply Hf in H.
Qed.

Lemma acknowledge_shape (ack r : dict) :
  envelope_shape r -> returns_envelope (acknowledge ack r).
Proof.
  intros Hr log log' r' H. destruct Hr; injection H as _ <-; constructor.
Qed.

Lemma shape_get_shape (max_chars : option Z) (r : dict) :
  envelope_shape r -> returns_envelope (shape_get max_chars r).
Proof.
  intros Hr log log' r' H. destruct Hr;
    [|injection H as _ <-; constructor | injection H as _ <-; constructor].
  unfold shape_get, bind, lift, ret in H. simpl in H.
  destruct (opt_int_truthy max_chars); [|injection H as _ <-; constructor].
  destruct data as [| | | | | |d]; try (injection H as _ <-; constructor).
  destruct (py_len (dict_get d (lit "content") (VStr []))) as [n|e];
    [|discriminate].
  destruct (_ <? n); [|injection H as _ <-; constructor].
  destruct (py_slice_to _ _) as [head|e]; [|discriminate].
  destruct (py_add_str head truncation_marker) as [new|e]; [|discriminate].
  injection H as _ <-. constructor.
Qed.

Lemma shape_search_shape (max_results : Z) (r : dict) :
  envelope_shape r -> returns_envelope (shape_search max_results r).
Proof.
  intros Hr log log' r' H. destruct Hr;
    [|injection H as _ <-; constructor | injection H as _ <-; constructor].
  unfold shape_search, bind, lift, ret in H. simpl in H.
  destruct data as [| | | | |l|]; try (injection H as _ <-; constructor).
  destruct (comprehension search_entry (slice_to max_results l)) as [x|e];
    [|discriminate].
  injection H as _ <-. constructor.
Qed.

Lemma get_note_shape (w : world) (self : VaultClient) path metadata_only :
  returns_envelope (get_note w self path metadata_only).
Proof.
  apply bind_lift_shape. intros q log log' r H.
  apply bind_inv in H as (r0 & log1 & H0 & H).
  apply request_shape in H0.
  destruct H0; try (injection H as _ <-; constructor).
  unfold bind, lift, ret in H. simpl in H.
  destruct metadata_only; [|injection H as _ <-; constructor].
  destruct data; injection H as _ <-; constructor.
Qed.

Lemma get_content_log (w : world) (c : content_args) log log' (s : str) :
  get_content w c log = (log', Return s) -> log' = log.
Proof.
  unfold get_content, ret, lift.
  destruct (opt_truthy (arg_content c)); [congruence|].
  destruct (arg_stdin c); [congruence|].
  destruct (opt_truthy (arg_file c)); congruence.
Qed.

Lemma daily_append_shape (w : world) (self : VaultClient) content period y m d :
  returns_envelope (daily_append w self content period y m d).
Proof.
  apply bind_lift_shape. intros data. apply request_shape.
Qed.

Lemma execute_shape (w : world) (client : VaultClient) (a : args) :
  returns_envelope (execute w client a).
Proof.
  intros log log' r H. destruct a; simpl in H.
  - apply bind_inv in H as (r0 & log1 & H0 & H).
    apply bind_inv in H0 as (params & log0 & _ & H0).
    apply request_shape in H0. now apply shape_search_shape in H.
  - apply bind_inv in H as (r0 & log1 & H0 & H).
    apply get_note_shape in H0. now apply shape_get_shape in H.
  - unfold list_dir in H. destruct (nonempty path).
    + apply bind_inv in H as (q & log0 & _ & H). now apply request_shape in H.
    + now apply request_shape in H.
  - apply bind_inv in H as (content & log0 & _ & H).
    apply bind_inv in H as (r0 & log1 & H0 & H).
    apply bind_inv in H0 as (q & log2 & _ & H0).
    apply bind_inv in H0 as (data & log3 & _ & H0).
    apply request_shape in H0. now apply acknowledge_shape in H.
  - apply bind_inv in H as (content & log0 & _ & H).
    apply bind_inv in H as (r0 & log1 & H0 & H).
    apply bind_inv in H0 as (q & log2 & _ & H0).
    apply bind_inv in H0 as (data & log3 & _ & H0).
    apply request_shape in H0. now apply acknowledge_shape in H.
  - apply bind_inv in H as (content & log0 & _ & H).
    destruct (if opt_truthy heading then _ else _) as [target_type target].
    apply bind_inv in H as (r0 & log1 & H0 & H).
    apply bind_inv in H0 as (q & log2 & _ & H0).
    apply bind_inv in H0 as (data & log3 & _ & H0).
    apply request_shape in H0. now apply acknowledge_shape in H.
  - apply bind_inv in H as (content & log0 & _ & H).
    apply bind_inv in H as (r0 & log1 & H0 & H).
    assert (Hr0 : envelope_shape r0).
    { destruct (opt_truthy date).
      - apply try_except_inv in H0 as [H0|(e & log2 & _ & H0)].
        + apply bind_inv in H0 as ([[y m] d] & log2 & _ & H0).
          now apply daily_append_shape in H0.
        + destruct (is_ValueError e); [|discriminate].
          injection H0 as _ <-. constructor.
      - now apply daily_append_shape in H0. }
    destruct Hr0; now apply acknowledge_shape in H; try constructor.
  - apply bind_inv in H as (r0 & log1 & H0 & H).
    apply bind_inv in H0 as (q & log2 & _ & H0).
    apply request_shape in H0. now apply acknowledge_shape in H.
Qed.

(** C1. Whatever the command and whatever happens to its request (a
    response, an HTTP error, a connection failure, a date refused before
    any request, a missing API key), the envelope [main] returns has
    exactly one of the keys [data] and [error], and its [ok] is the
    boolean that is true exactly when the key is [data]. *)
Theorem envelope_invariant (w : world) (a : args) (log log' : list Request)
    (r : dict) (status : Z) :
  main w a log = (log', Return (r, status)) ->
  envelope_inv r = true.
Proof.
  unfold main. destruct (opt_truthy (environ_api_key w)).
  - intros H. apply bind_inv in H as (r0 & log1 & H0 & H).
    injection H as _ <- _. apply execute_shape in H0. now apply shape_inv.
  - intros H. injection H as _ <- _. reflexivity.
Qed.

Lemma envelope_invariant_witness :
  main (constant_world (Raise (URLError (lit "[Errno 111] Connection refused"))))
    (List_ (lit "")) []
  = ([make_request (VaultClient_init (lit "https://127.0.0.1:27124") (lit "secret"))
        (lit "GET") (lit "/vault/") None None None],
     Return (failure (lit "Connection failed: [Errno 111] Connection refused"), 1))
  /\ envelope_inv (failure (lit "Connection failed: [Errno 111] Connection refused"))
     = true.
Proof.
  split; [reflexivity|].
  exact (envelope_invariant
           (constant_world (Raise (URLError (lit "[Errno 111] Connection refused"))))
           (List_ (lit "")) [] _ _ 1 eq_refl).
Defined.

(** The four kinds of path on one command each: a response, an HTTP
    error, a connection failure, a date refused locally. Each returns an
    envelope, and the exit status follows [ok]. *)
Example main_on_each_path :
  snd (run (main (constant_world (Return [])) (Delete (lit "old.md"))))
  = Return (success (VDict [(lit "deleted", VStr (lit "old.md"))]), 0)
  /\ snd (run (main (constant_world
                       (Raise (HTTPError 404 (lit "Not Found")
                                 (Some (bjlit "{'message':'File does not exist'}")))))
                 (Delete (lit "old.md"))))
     = Return (failure_code (VStr (lit "File does not exist")) 404, 1)
  /\ snd (run (main (constant_world (Raise (URLError (lit "timed out"))))
                 (Delete (lit "old.md"))))
     = Return (failure (lit "Connection failed: timed out"), 1)
  /\ run (main (constant_world (Return []))
            (Daily (Some (lit "2024-13-40")) (lit "daily") (inline (lit "x"))))
     = ([], Return (failure (lit "Invalid date format: 2024-13-40. Use YYYY-MM-DD"), 1)).
Proof. repeat split. Qed.

(* ================================================================= *)
(** ** Paths in request URLs *)

Lemma hex_digit_not_slash (n : N) : Urllib.hex_digit n <> 47%N.
Proof. unfold Urllib.hex_digit. destruct (N.ltb n 10); lia. Qed.

Lemma quote_byte_no_slash (b : byte) : ~ In 47%N (Urllib.quote_byte [] b).
Proof.
  unfold Urllib.quote_byte. simpl existsb. rewrite orb_false_r.
  destruct (Urllib.always_safe (Byte.to_N b)) eqn:E; simpl.
  - intros [H|[]]. rewrite H in E. discriminate.
  - intros [H|[H|[H|[]]]]; try discriminate;
      now apply hex_digit_not_slash in H.
Qed.

(** No slash survives [quote] with an empty safe set. *)
Lemma quote_from_bytes_no_slash (bs : bytes) :
  ~ In 47%N (Urllib.quote_from_bytes [] bs).
Proof.
  unfold Urllib.quote_from_bytes. intros H.
  apply in_flat_map in H as (b & _ & H). now apply quote_byte_no_slash in H.
Qed.

Lemma encode_app (a b : str) :
  Utf8.encode (a ++ b)
  = match Utf8.encode a, Utf8.encode b with
    | Some x, Some y => Some (x ++ y)
    | _, _ => None
    end.
Proof.
  induction a as [|c a IH]; simpl.
  - now destruct (Utf8.encode b).
  - rewrite IH. destruct (Utf8.encode_char c) as [cs|]; [|reflexivity].
    destruct (Utf8.encode a) as [x|]; [|reflexivity].
    destruct (Utf8.encode b) as [y|]; [|reflexivity].
    now rewrite app_assoc.
Qed.

Lemma encode_app_inv (a b : str) (bs : bytes) :
  Utf8.encode (a ++ b) = Some bs ->
  exists x y, Utf8.encode a = Some x /\ Utf8.encode b = Some y /\ bs = x ++ y.
Proof.
  rewrite encode_app.
  destruct (Utf8.encode a) as [x|]; [|discriminate].
  destruct (Utf8.encode b) as [y|]; [|discriminate].
  intros H. injection H as <-. now exists x, y.
Qed.

(** [rstrip] keeps a prefix: what it drops is a run of the character. *)
Lemma rstrip_prefix (c : char) (s : str) :
  exists k, s = rstrip c s ++ repeat c k.
Proof.
  induction s as [|x s [k IH]]; simpl.
  - now exists 0%nat.
  - destruct (rstrip c s) as [|y t] eqn:E.
    + destruct (N.eqb x c) eqn:Ex.
      * apply N.eqb_eq in Ex; subst x. exists (S k). simpl. now rewrite IH at 1.
      * exists k. simpl. now rewrite IH at 1.
    + exists k. simpl. now rewrite IH at 1.
Qed.

Lemma last_component_suffix (s acc : str) :
  exists pre, acc ++ s = pre ++ last_component s acc.
Proof.
  revert acc; induction s as [|c s IH]; intros acc; simpl.
  - exists []. now rewrite app_nil_r.
  - destruct (N.eqb c 47).
    + destruct (IH []) as [pre H]. exists (acc ++ c :: pre).
      simpl in H. rewrite <- app_assoc. simpl. now rewrite <- H.
    + destruct (IH (acc ++ [c])) as [pre H]. exists pre.
      rewrite <- H, <- app_assoc. reflexivity.
Qed.

Lemma quote_slash (a b : str) (x y : bytes) :
  Utf8.encode a = Some x -> Utf8.encode b = Some y ->
  Urllib.quote (a ++ 47%N :: b) []
  = Return (Urllib.quote_from_bytes [] x ++ lit "%2F" ++ Urllib.quote_from_bytes [] y).
Proof.
  intros Ha Hb. unfold Urllib.quote.
  rewrite encode_app, Ha. simpl. rewrite Hb. simpl.
  unfold Urllib.quote_from_bytes. rewrite flat_map_app. reflexivity.
Qed.

Lemma encode_utf8_encoded (s : str) (bs : bytes) :
  Utf8.encode s = Some bs -> encode_utf8 s = Return bs.
Proof. intros H. unfold encode_utf8. now rewrite H. Qed.

Lemma get_note_issues (w : world) (self : VaultClient) path bs metadata_only log :
  Utf8.encode path = Some bs ->
  accepted w (base_url self ++ lit "/vault/" ++ Urllib.quote_from_bytes [] bs)
  = true ->
  fst (get_note w self path metadata_only log)
  = log ++ [make_request self (lit "GET")
              (lit "/vault/" ++ Urllib.quote_from_bytes [] bs) None
              (Some [(lit "Accept", VStr (lit "application/vnd.olrapi.note+json"))])
              None].
Proof.
  intros Hp Hacc. unfold get_note, bind, lift.
  rewrite (quote_encoded _ _ _ Hp), (request_eq_accepted _ _ _ _ _ _ _ _ Hacc).
  destruct (normalize _ _) as [r|e]; [|reflexivity].
  destruct (getitem r (lit "ok")) as [ok|e]; [|reflexivity].
  destruct (truthy ok && metadata_only); [|reflexivity].
  destruct (getitem r (lit "data")) as [dv|e]; [|reflexivity].
  destruct dv; reflexivity.
Qed.

(** The last component holds no slash, what precedes it is empty or ends
    with one, and the two make the path. *)
Lemma last_component_no_slash (s acc : str) :
  ~ In 47%N acc -> ~ In 47%N (last_component s acc).
Proof.
  revert acc; induction s as [|c s IH]; intros acc Hacc; simpl; [exact Hacc|].
  destruct (N.eqb c 47) eqn:E.
  - apply IH. intros [].
  - apply IH. intros H. apply in_app_or in H as [H|[H|[]]]; [contradiction|].
    subst c. discriminate.
Qed.

Lemma upto_last_slash_split (s done cur : str) :
  done ++ cur ++ s = upto_last_slash s done cur ++ last_component s cur.
Proof.
  revert done cur; induction s as [|c s IH]; intros done cur; simpl.
  - now rewrite app_nil_r.
  - destruct (N.eqb c 47).
    + rewrite <- IH. simpl. now rewrite <- !app_assoc.
    + rewrite <- IH. now rewrite <- !app_assoc.
Qed.

Lemma upto_last_slash_ends (s done cur : str) :
  (done = [] \/ exists p, done = p ++ [47%N]) ->
  upto_last_slash s done cur = []
  \/ exists p, upto_last_slash s done cur = p ++ [47%N].
Proof.
  revert done cur; induction s as [|c s IH]; intros done cur H; simpl; [exact H|].
  destruct (N.eqb c 47) eqn:E.
  - apply IH. right. apply N.eqb_eq in E. subst c.
    exists (done ++ cur). now rewrite <- app_assoc.
  - now apply IH.
Qed.

Lemma components (path : str) :
  rstrip 47%N path = leading_components path ++ trailing_component path
  /\ ~ In 47%N (trailing_component path)
  /\ (leading_components path = []
      \/ exists p, leading_components path = p ++ [47%N]).
Proof.
  split; [|split].
  - exact (upto_last_slash_split (rstrip 47%N path) [] []).
  - apply last_component_no_slash. intros [].
  - apply upto_last_slash_ends. now left.
Qed.

Lemma sends_request (w : world) (self : VaultClient) method path data headers
    content_type (log : list Request) :
  accepted w (base_url self ++ path) = true ->
  sends (_request w self method path data headers content_type) log
    method (base_url self ++ path) data.
Proof.
  intros Hacc. eexists. rewrite (request_eq_accepted _ _ _ _ _ _ _ _ Hacc).
  split; [reflexivity|]. now repeat split.
Qed.

(** C6. For every note reference (a text: every code point a Unicode
    scalar value, so that it has a UTF-8 encoding) and every client that
    reaches its server, each of the five document operations sends one
    request whose URL is the base URL, [/vault/] and the percent-encoding
    of the whole reference, which is one segment: it holds no slash, every
    slash of the reference having become [%2F]. Listing a non-empty path
    sends one GET whose URL is the base URL, [/vault/], the
    percent-encoding of the path without its trailing slashes (the
    encoding of what precedes the trailing component, then the encoding of
    the trailing component, with no slash in either) and a slash. Listing
    the root sends one GET to the base URL and the fixed [/vault/]. *)
Theorem path_encoding (w : world) (self : VaultClient) (path content : str)
    (bs data : bytes) (metadata_only : bool) (target_type : str)
    (target : value) (operation content_type : str) (log : list Request) :
  reaches w self ->
  Utf8.encode path = Some bs ->
  Utf8.encode content = Some data ->
  let document :=
    base_url self ++ lit "/vault/" ++ Urllib.quote_from_bytes [] bs in
  ~ In 47%N (Urllib.quote_from_bytes [] bs)
  /\ (forall a b, path = a ++ 47%N :: b ->
        exists qa qb,
          Urllib.quote a [] = Return qa /\ Urllib.quote b [] = Return qb
          /\ Urllib.quote_from_bytes [] bs = qa ++ lit "%2F" ++ qb)
  /\ sends (get_note w self path metadata_only) log (lit "GET") document None
  /\ sends (create_note w self path content) log (lit "PUT") document (Some data)
  /\ sends (append_note w self path content) log (lit "POST") document (Some data)
  /\ sends (patch_note w self path target_type target operation content
              content_type) log (lit "PATCH") document (Some data)
  /\ sends (delete_note w self path) log (lit "DELETE") document None
  /\ (path <> [] ->
      exists bl bt,
        Utf8.encode (leading_components path) = Some bl
        /\ Utf8.encode (trailing_component path) = Some bt
        /\ rstrip 47%N path = leading_components path ++ trailing_component path
        /\ ~ In 47%N (trailing_component path)
        /\ (leading_components path = []
            \/ exists p, leading_components path = p ++ [47%N])
        /\ sends (list_dir w self path) log (lit "GET")
             (base_url self ++ lit "/vault/" ++ Urllib.quote_from_bytes [] bl
              ++ Urllib.quote_from_bytes [] bt ++ lit "/") None
        /\ ~ In 47%N (Urllib.quote_from_bytes [] bl ++ Urllib.quote_from_bytes [] bt))
  /\ sends (list_dir w self []) log (lit "GET") (base_url self ++ lit "/vault/") None.
Proof.
  intros Hreach Hp Hc document.
  assert (Hdoc : accepted w document = true)
    by apply (Hreach (lit "vault/" ++ Urllib.quote_from_bytes [] bs)).
  split; [apply quote_from_bytes_no_slash|].
  split.
  { intros a b ->. apply encode_app_inv in Hp as (x & y & Ha & Hy & ->).
    change (47%N :: b) with ([47%N] ++ b) in Hy.
    apply encode_app_inv in Hy as (s & z & Hs & Hb & ->).
    injection Hs as <-.
    exists (Urllib.quote_from_bytes [] x), (Urllib.quote_from_bytes [] z).
    split; [now apply quote_encoded|]. split; [now apply quote_encoded|].
    unfold Urllib.quote_from_bytes. rewrite flat_map_app. reflexivity. }
  split.
  { eexists. rewrite (get_note_issues _ _ _ _ _ _ Hp Hdoc).
    split; [reflexivity|]. now repeat split. }
  split.
  { unfold create_note, bind, lift.
    rewrite (quote_encoded _ _ _ Hp), (encode_utf8_encoded _ _ Hc).
    now apply sends_request. }
  split.
  { unfold append_note, bind, lift.
    rewrite (quote_encoded _ _ _ Hp), (encode_utf8_encoded _ _ Hc).
    now apply sends_request. }
  split.
  { unfold patch_note, bind, lift.
    rewrite (quote_encoded _ _ _ Hp), (encode_utf8_encoded _ _ Hc).
    now apply sends_request. }
  split.
  { unfold delete_note, bind, lift.
    rewrite (quote_encoded _ _ _ Hp). now apply sends_request. }
  split.
  - intros Hne.
    destruct (rstrip_prefix 47%N path) as [k Hk].
    rewrite Hk in Hp. apply encode_app_inv in Hp as (bs' & y & Hs & _ & _).
    destruct (components path) as (Hsplit & Hnos & Hends).
    pose proof Hs as Hs'. rewrite Hsplit in Hs'.
    apply encode_app_inv in Hs' as (bl & bt & Hbl & Hbt & ->).
    exists bl, bt.
    split; [exact Hbl|]. split; [exact Hbt|]. split; [exact Hsplit|].
    split; [exact Hnos|]. split; [exact Hends|].
    assert (Hq : Urllib.quote_from_bytes [] (bl ++ bt)
                 = Urllib.quote_from_bytes [] bl ++ Urllib.quote_from_bytes [] bt)
      by (unfold Urllib.quote_from_bytes; now rewrite flat_map_app).
    split.
    + unfold list_dir.
      destruct path as [|c path]; [contradiction|].
      change (nonempty (c :: path)) with true. cbv iota.
      unfold bind, lift.
      rewrite (quote_encoded _ _ _ Hs). cbv beta iota zeta.
      rewrite Hq, <- app_assoc.
      apply sends_request.
      apply (Hreach (lit "vault/" ++ Urllib.quote_from_bytes [] bl
                     ++ Urllib.quote_from_bytes [] bt ++ lit "/")).
    + rewrite <- Hq. apply quote_from_bytes_no_slash.
  - change (list_dir w self []) with
      (_request w self (lit "GET") (lit "/vault/") None None None).
    apply sends_request. apply (Hreach (lit "vault/")).
Qed.

Lemma path_encoding_witness :
  reaches (constant_world (Return [])) local_client
  /\ Utf8.encode (lit "Daily Notes/2024 plan.md")
     = Some (blit "Daily Notes/2024 plan.md")
  /\ Utf8.encode (lit "hi") = Some (blit "hi")
  /\ sends (delete_note (constant_world (Return [])) local_client
              (lit "Daily Notes/2024 plan.md")) []
       (lit "DELETE")
       (lit "https://127.0.0.1:27124/vault/Daily%20Notes%2F2024%20plan.md") None
  /\ sends (list_dir (constant_world (Return [])) local_client
              (lit "Daily Notes/2024 plan.md")) []
       (lit "GET")
       (lit "https://127.0.0.1:27124/vault/Daily%20Notes%2F2024%20plan.md/") None.
Proof.
  split; [apply local_reaches|]. split; [reflexivity|]. split; [reflexivity|].
  pose proof (path_encoding (constant_world (Return [])) local_client
                (lit "Daily Notes/2024 plan.md") (lit "hi")
                (blit "Daily Notes/2024 plan.md") (blit "hi")
                false (lit "heading") (VStr (lit "Tasks")) (lit "append")
                (lit "text/markdown") [] (local_reaches (Return []))
                eq_refl eq_refl) as H.
  cbv zeta in H.
  destruct H as (_ & _ & _ & _ & _ & _ & Hdel & Hlist & _).
  split; [exact Hdel|].
  destruct (Hlist ltac:(discriminate)) as (bl & bt & Hbl & Hbt & _ & _ & _ & Hs & _).
  injection Hbl as <-. injection Hbt as <-. exact Hs.
Defined.

(** The URLs of the listings and of a document, side by side. *)
Example list_dir_urls :
  map (fun p => map req_url (fst (run (list_dir (constant_world (Return []))
                                         local_client p))))
      [lit ""; lit "Daily Notes"; lit "a/b c/"; lit "/"]
  = [[lit "https://127.0.0.1:27124/vault/"];
     [lit "https://127.0.0.1:27124/vault/Daily%20Notes/"];
     [lit "https://127.0.0.1:27124/vault/a%2Fb%20c/"];
     [lit "https://127.0.0.1:27124/vault//"]]
  /\ map req_url (fst (run (get_note (constant_world (Return [])) local_client
                              (lit "a/b c/") false)))
     = [lit "https://127.0.0.1:27124/vault/a%2Fb%20c%2F"].
Proof. split; reflexivity. Qed.

(* ================================================================= *)
(** ** Periodic notes: the date and the path *)

Lemma nonempty_true {A} (l : list A) : l <> [] -> nonempty l = true.
Proof. destruct l; [contradiction | reflexivity]. Qed.

(** C8, as amended. For every periodic-append with a non-empty date
    string that [strptime] with [%Y-%m-%d] refuses (as it does
    [2024-13-40]), the result is the failure envelope that names the date
    and the expected format, and no request is issued; [main] exits with
    status 1 without a request. *)
Theorem invalid_date_no_request (w : world) (client : VaultClient)
    (date period : str) (c : content_args) (content : str)
    (log : list Request) :
  date <> [] ->
  Datetime.strptime (unicode_decimal w) date = None ->
  get_content w c log = (log, Return content) ->
  execute w client (Daily (Some date) period c) log
  = (log, Return (failure (lit "Invalid date format: " ++ date
                           ++ lit ". Use YYYY-MM-DD")))
  /\ exists message,
       main w (Daily (Some date) period c) log
       = (log, Return (failure message, 1)).
Proof.
  intros Hne Hparse Hcontent.
  assert (He : forall cl, execute w cl (Daily (Some date) period c) log
               = (log, Return (failure (lit "Invalid date format: " ++ date
                                        ++ lit ". Use YYYY-MM-DD")))).
  { intros cl. unfold execute, bind. rewrite Hcontent.
    unfold opt_truthy. rewrite (nonempty_true _ Hne).
    unfold try_except, bind, lift. rewrite Hparse. reflexivity. }
  split; [apply He|].
  unfold main, bind. destruct (opt_truthy (environ_api_key w)).
  - rewrite He. eexists. reflexivity.
  - eexists. reflexivity.
Qed.

Lemma invalid_date_no_request_witness :
  lit "2024-13-40" <> []
  /\ Datetime.strptime (unicode_decimal (constant_world (Return [])))
       (lit "2024-13-40") = None
  /\ get_content (constant_world (Return [])) (inline (lit "- [ ] water plants")) []
     = ([], Return (lit "- [ ] water plants"))
  /\ execute (constant_world (Return [])) local_client
       (Daily (Some (lit "2024-13-40")) (lit "daily")
          (inline (lit "- [ ] water plants"))) []
     = ([], Return (failure (lit "Invalid date format: 2024-13-40. Use YYYY-MM-DD"))).
Proof.
  split; [discriminate|]. split; [reflexivity|]. split; [reflexivity|].
  exact (proj1 (invalid_date_no_request (constant_world (Return [])) local_client
                  (lit "2024-13-40") (lit "daily")
                  (inline (lit "- [ ] water plants")) (lit "- [ ] water plants")
                  [] ltac:(discriminate) eq_refl eq_refl)).
Defined.

(** C8, counterexample. [2024-3-5] is not in the form YYYY-MM-DD (its
    month and day have one digit), yet [strptime] accepts it: the request
    is issued and the result is a success envelope. *)
Lemma lenient_date_is_requested :
  strict_ymd (lit "2024-3-5") = false
  /\ execute (constant_world (Return [])) local_client
       (Daily (Some (lit "2024-3-5")) (lit "daily") (inline (lit "hi"))) []
     = ([make_request local_client (lit "POST") (lit "/periodic/daily/2024/3/5/")
           (Some (blit "hi")) None (Some (lit "text/markdown"))],
        Return (success (VDict [(lit "appended_to", VStr (lit "daily note"))]))).
Proof. split; reflexivity. Qed.

(** An empty date string counts as no date: the request goes to the
    current period. *)
Example empty_date_is_no_date :
  execute (constant_world (Return [])) local_client
    (Daily (Some []) (lit "daily") (inline (lit "hi"))) []
  = ([make_request local_client (lit "POST") (lit "/periodic/daily/")
        (Some (blit "hi")) None (Some (lit "text/markdown"))],
     Return (success (VDict [(lit "appended_to", VStr (lit "daily note"))]))).
Proof. reflexivity. Qed.

(** The request is made inside the [try] that guards the date: a
    [ValueError] raised after it was sent (here a response body that is
    not UTF-8) is reported as an invalid date. *)
Example late_value_error_blames_date :
  execute (constant_world (Return [xff])) local_client
    (Daily (Some (lit "2024-03-05")) (lit "daily") (inline (lit "hi"))) []
  = ([make_request local_client (lit "POST") (lit "/periodic/daily/2024/3/5/")
        (Some (blit "hi")) None (Some (lit "text/markdown"))],
     Return (failure (lit "Invalid date format: 2024-03-05. Use YYYY-MM-DD"))).
Proof. reflexivity. Qed.

Lemma strptime_valid nd (s : str) (y m d : Z) :
  Datetime.strptime nd s = Some (y, m, d) ->
  Datetime.valid_date y m d = true.
Proof.
  unfold Datetime.strptime.
  destruct (Datetime.year_field nd s) as [[y0 [|h r]]|]; try discriminate.
  destruct (N.eqb h 45); [|discriminate].
  destruct (Datetime.month_field r) as [[m0 [|h2 r2]]|]; try discriminate.
  destruct (N.eqb h2 45); [|discriminate].
  destruct (Datetime.day_field nd r2) as [[d0 [|h3 r3]]|]; try discriminate.
  destruct (Datetime.valid_date y0 m0 d0) eqn:V; [|discriminate].
  intros H. injection H as <- <- <-. exact V.
Qed.

Lemma periodic_path_slash (period : str) (y m d : option Z) :
  exists p, periodic_path period y m d = 47%N :: p.
Proof.
  unfold periodic_path.
  destruct y as [y|], m as [m|], d as [d|]; try (eexists; reflexivity).
  destruct (negb (y =? 0) && negb (m =? 0) && negb (d =? 0));
    eexists; reflexivity.
Qed.

Lemma daily_append_eq (w : world) (self : VaultClient) content data period
    y m d log :
  reaches w self ->
  Utf8.encode content = Some data ->
  daily_append w self content period y m d log
  = (log ++ [make_request self (lit "POST") (periodic_path period y m d)
               (Some data) None (Some (lit "text/markdown"))],
     normalize w
       (urlopen_read w
          (make_request self (lit "POST") (periodic_path period y m d)
             (Some data) None (Some (lit "text/markdown"))))).
Proof.
  intros Hreach Hc. unfold daily_append, bind, lift.
  rewrite (encode_utf8_encoded _ _ Hc). cbv beta iota zeta.
  apply request_eq_accepted.
  destruct (periodic_path_slash period y m d) as [p ->]. apply Hreach.
Qed.

Lemma acknowledge_log (ack r : dict) log : fst (acknowledge ack r log) = log.
Proof.
  unfold acknowledge, bind, lift, ret.
  destruct (getitem r (lit "ok")) as [ok|e]; [|reflexivity].
  destruct (truthy ok); reflexivity.
Qed.

(** The requests of a periodic-append whose content is read and encoded:
    one POST to [periodic_path], with the date segments exactly when a
    date was parsed. *)
Lemma daily_issues (w : world) (client : VaultClient) (c : content_args)
    (content : str) (data : bytes) (date : option str) (period : str)
    (log : list Request) :
  reaches w client ->
  get_content w c log = (log, Return content) ->
  Utf8.encode content = Some data ->
  forall ymd : option (Z * Z * Z),
    match date with
    | Some s => Datetime.strptime (unicode_decimal w) s
    | None => None
    end = ymd ->
    (ymd = None -> opt_truthy date = false) ->
    fst (execute w client (Daily date period c) log)
    = log ++ [make_request client (lit "POST")
                (match ymd with
                 | Some (y, m, d) => periodic_path period (Some y) (Some m) (Some d)
                 | None => periodic_path period None None None
                 end)
                (Some data) None (Some (lit "text/markdown"))].
Proof.
  intros Hreach Hcontent Hc ymd Hymd Hnone.
  unfold execute, bind. rewrite Hcontent.
  destruct ymd as [[[y m] d]|].
  - destruct date as [s|]; [|discriminate].
    assert (Hs : opt_truthy (Some s) = true).
    { destruct s; [discriminate | reflexivity]. }
    rewrite Hs. unfold try_except, bind, lift. rewrite Hymd.
    cbv beta iota zeta. unfold of_option.
    rewrite (daily_append_eq _ _ _ _ _ _ _ _ _ Hreach Hc).
    destruct (normalize _ _) as [r|e].
    + destruct (nonempty r); [apply acknowledge_log | reflexivity].
    + destruct (is_ValueError e); reflexivity.
  - rewrite (Hnone eq_refl).
    rewrite (daily_append_eq _ _ _ _ _ _ _ _ _ Hreach Hc).
    destruct (normalize _ _) as [r|e]; [|reflexivity].
    destruct (nonempty r); [apply acknowledge_log | reflexivity].
Qed.

(** The request of a periodic-append, spelled out. *)
Lemma periodic_request (self : VaultClient) (path : str) (data : bytes) :
  make_request self (lit "POST") path (Some data) None (Some (lit "text/markdown"))
  = mkRequest (lit "POST") (base_url self ++ path) (Some data)
      [(lit "Authorization", VStr (lit "Bearer " ++ api_key self));
       (lit "Content-Type", VStr (lit "text/markdown"))].
Proof. reflexivity. Qed.

(** C9. For a client that reaches its server, a periodic-append (its
    content read and encoded) with period [daily] and no date issues one
    request: a POST whose URL is the base URL followed by
    [/periodic/daily/], a path without date segments; with the date
    [2024-03-05] it issues one POST to the base URL followed by
    [/periodic/daily/2024/3/5/]; and with any date [strptime] accepts and
    any period, one POST to the period's path followed by the year, the
    month and the day as segments. The body is the content and the content
    type [text/markdown]. *)
Theorem periodic_append_path (w : world) (client : VaultClient)
    (c : content_args) (content : str) (data : bytes) (log : list Request) :
  reaches w client ->
  get_content w c log = (log, Return content) ->
  Utf8.encode content = Some data ->
  fst (execute w client (Daily None (lit "daily") c) log)
  = log ++ [mkRequest (lit "POST") (base_url client ++ lit "/periodic/daily/")
              (Some data)
              [(lit "Authorization", VStr (lit "Bearer " ++ api_key client));
               (lit "Content-Type", VStr (lit "text/markdown"))]]
  /\ fst (execute w client (Daily (Some (lit "2024-03-05")) (lit "daily") c) log)
     = log ++ [mkRequest (lit "POST")
                 (base_url client ++ lit "/periodic/daily/2024/3/5/")
                 (Some data)
                 [(lit "Authorization", VStr (lit "Bearer " ++ api_key client));
                  (lit "Content-Type", VStr (lit "text/markdown"))]]
  /\ (forall date period y m d,
        Datetime.strptime (unicode_decimal w) date = Some (y, m, d) ->
        fst (execute w client (Daily (Some date) period c) log)
        = log ++ [mkRequest (lit "POST")
                    (base_url client ++ lit "/periodic/" ++ period ++ lit "/"
                     ++ str_of_int y ++ lit "/" ++ str_of_int m ++ lit "/"
                     ++ str_of_int d ++ lit "/")
                    (Some data)
                    [(lit "Authorization", VStr (lit "Bearer " ++ api_key client));
                     (lit "Content-Type", VStr (lit "text/markdown"))]]).
Proof.
  intros Hreach Hcontent Hc. split; [|split].
  - rewrite (daily_issues w client c content data None (lit "daily") log
               Hreach Hcontent Hc None eq_refl (fun _ => eq_refl)).
    now rewrite periodic_request.
  - rewrite (daily_issues w client c content data (Some (lit "2024-03-05"))
               (lit "daily") log Hreach Hcontent Hc (Some (2024, 3, 5)) eq_refl
               ltac:(discriminate)).
    now rewrite periodic_request.
  - intros date period y m d Hparse.
    rewrite (daily_issues w client c content data (Some date) period log
               Hreach Hcontent Hc (Some (y, m, d)) Hparse ltac:(discriminate)).
    rewrite periodic_request.
    apply strptime_valid in Hparse. unfold Datetime.valid_date in Hparse.
    repeat (apply andb_true_iff in Hparse as [Hparse ?]).
    unfold periodic_path.
    replace (y =? 0) with false by (symmetry; apply Z.eqb_neq; lia).
    replace (m =? 0) with false by (symmetry; apply Z.eqb_neq; lia).
    replace (d =? 0) with false by (symmetry; apply Z.eqb_neq; lia).
    reflexivity.
Qed.

Lemma periodic_append_path_witness :
  reaches (constant_world (Return [])) local_client
  /\ get_content (constant_world (Return [])) (inline (lit "- [ ] water plants")) []
     = ([], Return (lit "- [ ] water plants"))
  /\ Utf8.encode (lit "- [ ] water plants") = Some (blit "- [ ] water plants")
  /\ fst (execute (constant_world (Return [])) local_client
            (Daily None (lit "daily") (inline (lit "- [ ] water plants"))) [])
     = [mkRequest (lit "POST") (lit "https://127.0.0.1:27124/periodic/daily/")
          (Some (blit "- [ ] water plants"))
          [(lit "Authorization", VStr (lit "Bearer secret"));
           (lit "Content-Type", VStr (lit "text/markdown"))]]
  /\ fst (execute (constant_world (Return [])) local_client
            (Daily (Some (lit "2024-03-05")) (lit "daily")
               (inline (lit "- [ ] water plants"))) [])
     = [mkRequest (lit "POST")
          (lit "https://127.0.0.1:27124/periodic/daily/2024/3/5/")
          (Some (blit "- [ ] water plants"))
          [(lit "Authorization", VStr (lit "Bearer secret"));
           (lit "Content-Type", VStr (lit "text/markdown"))]].
Proof.
  split; [apply local_reaches|]. split; [reflexivity|]. split; [reflexivity|].
  pose proof (periodic_append_path (constant_world (Return [])) local_client
                (inline (lit "- [ ] water plants")) (lit "- [ ] water plants")
                (blit "- [ ] water plants") [] (local_reaches (Return []))
                eq_refl eq_refl) as [H1 [H2 _]].
  split; [exact H1 | exact H2].
Defined.

Ltac bool_facts :=
  repeat match goal with
  | H : _ && _ = true |- _ => apply andb_true_iff in H as [? ?]
  | H : Utf8.between _ _ _ = true |- _ => unfold Utf8.between in H
  | H : Utf8.between _ _ _ = false |- _ => unfold Utf8.between in H
  | H : _ && _ = false |- _ => apply andb_false_iff in H
  | H : N.leb _ _ = true |- _ => apply N.leb_le in H
  | H : N.leb _ _ = false |- _ => apply N.leb_gt in H
  | H : N.eqb _ _ = true |- _ => apply N.eqb_eq in H
  | H : Z.leb _ _ = true |- _ => apply Z.leb_le in H
  | H : Json.is_digit _ = true |- _ => unfold Json.is_digit in H
  end.

Lemma digit_value_ascii nd c :
  Json.is_digit c = true -> Datetime.digit_value nd c = Some (Z.of_N c - 48).
Proof.
  intros H. unfold Datetime.digit_value. unfold Json.is_digit in H. now rewrite H.
Qed.

Lemma ascii_in_true lo hi c :
  (lo <= c)%N -> (c <= hi)%N -> Datetime.ascii_in lo hi c = Some (Z.of_N c - 48).
Proof.
  intros H1 H2. unfold Datetime.ascii_in, Utf8.between.
  apply N.leb_le in H1, H2. now rewrite H1, H2.
Qed.

Lemma ascii_in_false lo hi c :
  (c < lo \/ hi < c)%N -> Datetime.ascii_in lo hi c = None.
Proof.
  intros H. unfold Datetime.ascii_in, Utf8.between.
  destruct H as [H|H]; apply N.leb_gt in H; rewrite H; [reflexivity|].
  now rewrite andb_false_r.
Qed.

(** Every strictly valid YYYY-MM-DD date is one [strptime] accepts: the
    dates [strptime] refuses are among those the spec calls invalid. *)
Lemma strict_ymd_accepted (nd : char -> option N) (s : str) :
  strict_ymd s = true ->
  exists y m d, Datetime.strptime nd s = Some (y, m, d).
Proof.
  intros H.
  destruct s as [|y1 [|y2 [|y3 [|y4 [|h1 [|m1 [|m2 [|h2 [|d1 [|d2 [|x s]]]]]]]]]]];
    try discriminate.
  unfold strict_ymd in H. simpl forallb in H.
  bool_facts.
  subst h1 h2.
  unfold Datetime.strptime, Datetime.year_field.
  rewrite !digit_value_ascii by (unfold Json.is_digit, Utf8.between;
     apply andb_true_iff; split; now apply N.leb_le).
  cbv beta iota. rewrite N.eqb_refl.
  unfold Datetime.valid_date in *. bool_facts.
  assert (Hm : exists v, Datetime.month_field (m1 :: m2 :: 45%N :: d1 :: d2 :: [])
             = Some (v, 45%N :: d1 :: d2 :: [])
             /\ v = Z.of_N ((m1 - 48) * 10 + (m2 - 48))).
  { unfold Datetime.month_field, Datetime.alternation, Datetime.two, Datetime.one.
    destruct (N.eq_dec m1 49) as [->|Hn1].
    - rewrite (ascii_in_true 49 49 49), (ascii_in_true 48 50 m2) by lia.
      eexists; split; [reflexivity|lia].
    - rewrite (ascii_in_false 49 49 m1) by lia.
      assert (m1 = 48%N) as -> by lia.
      rewrite (ascii_in_true 48 48 48), (ascii_in_true 49 57 m2) by lia.
      eexists; split; [reflexivity|lia]. }
  destruct Hm as (v & -> & ->).
  rewrite N.eqb_refl.
  assert (Hd : exists v, Datetime.day_field nd (d1 :: d2 :: []) = Some (v, [])
             /\ v = Z.of_N ((d1 - 48) * 10 + (d2 - 48))).
  { unfold Datetime.day_field, Datetime.alternation, Datetime.two, Datetime.one.
    destruct (N.eq_dec d1 51) as [->|Hn3].
    - assert (d2 <= 49)%N.
      { unfold Datetime.days_in_month in *.
        repeat match goal with
        | H : context [if ?b then _ else _] |- _ => destruct b
        end; lia. }
      rewrite (ascii_in_true 51 51 51), (ascii_in_true 48 49 d2) by lia.
      eexists; split; [reflexivity|lia].
    - rewrite (ascii_in_false 51 51 d1) by lia.
      destruct (N.eq_dec d1 48) as [->|Hn0].
      + rewrite (ascii_in_false 49 50 48) by lia.
        rewrite (ascii_in_true 48 48 48), (ascii_in_true 49 57 d2) by lia.
        eexists; split; [reflexivity|lia].
      + assert (d1 = 49 \/ d1 = 50)%N as Hd1.
        { unfold Datetime.days_in_month in *.
          repeat match goal with
          | H : context [if ?b then _ else _] |- _ => destruct b
          end; lia. }
        rewrite (ascii_in_true 49 50 d1) by lia.
        rewrite digit_value_ascii by (unfold Json.is_digit, Utf8.between;
          apply andb_true_iff; split; now apply N.leb_le).
        eexists; split; [reflexivity|lia]. }
  destruct Hd as (v & -> & ->).
  replace ((Z.of_N y1 - 48) * 1000 + (Z.of_N y2 - 48) * 100
           + (Z.of_N y3 - 48) * 10 + (Z.of_N y4 - 48))
    with (Z.of_N ((y1 - 48) * 1000 + (y2 - 48) * 100 + (y3 - 48) * 10 + (y4 - 48)))
    by lia.
  do 3 eexists.
  repeat match goal with
  | H : (_ <= _)%Z |- _ => apply Z.leb_le in H; rewrite H; clear H
  end.
  reflexivity.
Qed.

Corollary refused_not_strict (nd : char -> option N) (s : str) :
  Datetime.strptime nd s = None -> strict_ymd s = false.
Proof.
  intros H. destruct (strict_ymd s) eqn:E; [|reflexivity].
  destruct (strict_ymd_accepted nd s E) as (y & m & d & H'). congruence.
Qed.

(** The whole [get] command with the metadata-only flag: a limit that is
    absent or not negative leaves the stripped record alone, since an
    absent [content] counts as the empty string. *)
Lemma execute_get_metadata_only (w : world) (client : VaultClient) (path : str)
    (max_chars : option Z) (d : dict) (log log' : list Request) :
  match max_chars with Some n => 0 <= n | None => True end ->
  get_note w client path true log
  = (log', Return (success (VDict (dict_pop d (lit "content"))))) ->
  execute w client (Get path true max_chars) log
  = (log', Return (success (VDict (dict_pop d (lit "content"))))).
Proof.
  intros Hn Hget. unfold execute, bind. rewrite Hget.
  destruct max_chars as [n|]; [|reflexivity].
  destruct (Z.eq_dec n 0) as [->|Hn0]; [reflexivity|].
  rewrite (shape_get_text _ [] n log' Hn0).
  - replace (n <? len (@nil N)) with false; [reflexivity|].
    symmetry. apply Z.ltb_ge. unfold len. simpl. lia.
  - unfold dict_get. now rewrite dict_lookup_pop_same.
Qed.

(** With a negative limit the empty default is "truncated": the stripped
    record gets a [content] that is the marker alone. *)
Example execute_get_metadata_only_negative :
  snd (run (execute (constant_world (Return (bjlit "{'content':'hello','tags':['x']}")))
              local_client (Get (lit "a.md") true (Some (-1)))))
  = Return (success (VDict [(lit "tags", VList [VStr (lit "x")]);
                            (lit "content", VStr truncation_marker)])).
Proof. reflexivity. Qed.

(* ================================================================= *)
(** ** Whole commands on raw responses *)

(** [search], from the body the server sends to the envelope printed:
    two hits kept out of three, the third hit's fields never read. *)
Example main_search_end_to_end :
  run (main (constant_world
               (Return (bjlit "[{'filename':'a.md','score':1.5,'matches':[{'match':{'start':0,'end':2},'context':'to do'}]},{'filename':'b.md'},7]")))
         (Search (lit "to do") 2 100))
  = ([make_request (VaultClient_init (lit "https://127.0.0.1:27124") (lit "secret"))
        (lit "POST") (lit "/search/simple/?query=to+do&contextLength=100")
        None None None],
     Return (success
               (VList [VDict [(lit "path", VStr (lit "a.md"));
                              (lit "score", VFloat (Ffin false 15 (-1)));
                              (lit "snippets", VList [VStr (lit "to do")])];
                       VDict [(lit "path", VStr (lit "b.md"));
                              (lit "score", VInt 0)]]),
             0)).
Proof. reflexivity. Qed.

(** [get] with a limit of four characters. *)
Example main_get_end_to_end :
  run (main (constant_world (Return (bjlit "{'content':'hello','path':'a.md'}")))
         (Get (lit "a.md") false (Some 4)))
  = ([make_request (VaultClient_init (lit "https://127.0.0.1:27124") (lit "secret"))
        (lit "GET") (lit "/vault/a.md") None
        (Some [(lit "Accept", VStr (lit "application/vnd.olrapi.note+json"))])
        None],
     Return (success
               (VDict [(lit "content", VStr (lit "hell" ++ truncation_marker));
                       (lit "path", VStr (lit "a.md"))]),
             0)).
Proof. reflexivity. Qed.

(** [patch] of a frontmatter field: JSON content type, the three headers,
    and the acknowledgment in place of the server's body. *)
Example main_patch_end_to_end :
  run (main (constant_world (Return (blit "ignored")))
         (Patch (lit "a.md") None (Some (lit "status")) None (lit "replace")
            (inline (jlit "'done'"))))
  = ([mkRequest (lit "PATCH") (lit "https://127.0.0.1:27124/vault/a.md")
        (Some (bjlit "'done'"))
        [(lit "Authorization", VStr (lit "Bearer secret"));
         (lit "Operation", VStr (lit "replace"));
         (lit "Target-Type", VStr (lit "frontmatter"));
         (lit "Target", VStr (lit "status"));
         (lit "Content-Type", VStr (lit "application/json"))]],
     Return (success (VDict [(lit "patched", VStr (lit "a.md"));
                             (lit "target", VStr (lit "status"))]),
             0)).
Proof. reflexivity. Qed.

(** Without an API key nothing is requested. *)
Example main_without_key :
  run (main {| urlopen_read := fun _ => Return [];
               urlparse_refuses := fun _ => false;
               environ_api_key := None;
               environ_api_url := None;
               stdin_read := no_input;
               file_read := fun _ => no_input;
               unicode_decimal := fun _ => None;
               int_max_str_digits := 4300;
               recursion_budget := 1000 |}
         (List_ (lit "")))
  = ([], Return (failure (lit "OBSIDIAN_API_KEY environment variable not set"), 1)).
Proof. reflexivity. Qed.

(* ================================================================= *)
(** ** Every command returns an envelope *)

Lemma encode_lit (s : string) : Utf8.encode (lit s) <> None.
Proof.
  unfold lit. induction (list_byte_of_string s) as [|b l IH]; simpl; [discriminate|].
  destruct (Utf8.encode (map Byte.to_N l)); [|contradiction].
  unfold Utf8.encode_char.
  pose proof (Byte.to_N_bounded b).
  destruct (N.ltb (Byte.to_N b) 128); [discriminate|].
  destruct (N.ltb (Byte.to_N b) 2048) eqn:E; [discriminate|].
  apply N.ltb_ge in E. lia.
Qed.

Lemma get_content_pure w c log :
  get_content w c log = (log, snd (get_content w c [])).
Proof.
  unfold get_content, ret, lift.
  destruct (opt_truthy (arg_content c)); [reflexivity|].
  destruct (arg_stdin c); [reflexivity|].
  destruct (opt_truthy (arg_file c)); reflexivity.
Qed.

(** A failure envelope made by [_request] passes through the shaping of
    every command, and the exit status is 1. *)
Lemma failure_passes_execute (w : world) (cl : VaultClient) (a : args)
    (r : dict) (log : list Request) :
  reaches w cl ->
  usable w a ->
  (forall req, normalize w (urlopen_read w req) = Return r) ->
  dict_lookup r (lit "ok") = Some (VBool false) ->
  snd (execute w cl a log) = Return r.
Proof.
  intros Hreach Hu Hn Hok.
  assert (Hne : nonempty r = true) by (destruct r; [discriminate|reflexivity]).
  assert (Hg : getitem r (lit "ok") = Return (VBool false))
    by (unfold getitem; now rewrite Hok).
  assert (Hack : forall ack l, acknowledge ack r l = (l, Return r)).
  { intros. unfold acknowledge, bind, lift. now rewrite Hg. }
  assert (Hreq : forall m p d h ct l,
            (exists q, p = 47%N :: q) ->
            _request w cl m p d h ct l
            = (l ++ [make_request cl m p d h ct], Return r)).
  { intros m p d h ct l [q ->]. now rewrite request_eq, Hreach, Hn. }
  destruct a; simpl in Hu |- *.
  - unfold bind, search, lift, Urllib.urlencode_search, Urllib.quote_plus, Urllib.quote.
    destruct (Utf8.encode query); [|contradiction].
    pose proof (encode_lit (NilZero.string_of_int (Z.to_int context_length))) as Hc.
    unfold str_of_int.
    destruct (Utf8.encode (lit _)); [|contradiction].
    unfold bind. rewrite Hreq by (eexists; reflexivity). unfold shape_search, bind, lift. now rewrite Hg.
  - unfold bind, get_note, lift, Urllib.quote.
    destruct (Utf8.encode path); [|contradiction].
    unfold bind. rewrite Hreq, Hg by (eexists; reflexivity). simpl.
    unfold shape_get, bind, lift. now rewrite Hg.
  - unfold list_dir. destruct (nonempty path) eqn:Ep.
    + unfold bind, lift, Urllib.quote.
      destruct (rstrip_prefix 47%N path) as [k Hk].
      destruct (Utf8.encode path) as [bs|] eqn:E; [|contradiction].
      rewrite Hk in E. apply encode_app_inv in E as (x & y & -> & _ & _).
      cbv beta iota zeta. now rewrite Hreq by (eexists; reflexivity).
    + now rewrite Hreq by (eexists; reflexivity).
  - destruct Hu as [Hp (s & Hs & Ht)].
    unfold bind. rewrite get_content_pure, Hs.
    unfold create_note, bind, lift, Urllib.quote, encode_utf8.
    destruct (Utf8.encode path); [|contradiction].
    destruct (Utf8.encode s); [|contradiction].
    simpl. rewrite Hreq by (eexists; reflexivity). apply (f_equal snd (Hack _ _)).
  - destruct Hu as [Hp (s & Hs & Ht)].
    unfold bind. rewrite get_content_pure, Hs.
    unfold append_note, bind, lift, Urllib.quote, encode_utf8.
    destruct (Utf8.encode path); [|contradiction].
    destruct (Utf8.encode s); [|contradiction].
    simpl. rewrite Hreq by (eexists; reflexivity). apply (f_equal snd (Hack _ _)).
  - destruct Hu as [Hp (s & Hs & Ht)].
    unfold bind. rewrite get_content_pure, Hs.
    destruct (if opt_truthy heading then _ else _) as [tt tg].
    unfold patch_note, bind, lift, Urllib.quote, encode_utf8.
    destruct (Utf8.encode path); [|contradiction].
    destruct (Utf8.encode s); [|contradiction].
    simpl. rewrite Hreq by (eexists; reflexivity). apply (f_equal snd (Hack _ _)).
  - destruct Hu as [(s & Hs & Ht) Hd].
    unfold bind. rewrite get_content_pure, Hs.
    assert (Hda : forall y m d l, exists l',
              daily_append w cl s period y m d l = (l', Return r)).
    { intros. unfold daily_append, bind, lift, encode_utf8.
      destruct (Utf8.encode s); [|contradiction]. simpl.
      rewrite Hreq by apply periodic_path_slash. eexists. reflexivity. }
    destruct (opt_truthy date) eqn:Ed.
    + destruct date as [d|]; [|discriminate].
      destruct Hd as [->|Hd]; [discriminate|].
      unfold try_except, bind, lift.
      destruct (Datetime.strptime (unicode_decimal w) d) as [[[y m] dd]|];
        [|contradiction].
      simpl.
      match goal with |- context [daily_append w cl s period ?a ?b ?c log] =>
        destruct (Hda a b c log) as [l' ->] end.
      rewrite Hne. apply (f_equal snd (Hack _ _)).
    + match goal with |- context [daily_append w cl s period ?a ?b ?c log] =>
        destruct (Hda a b c log) as [l' ->] end.
      rewrite Hne. apply (f_equal snd (Hack _ _)).
  - unfold bind, delete_note, lift, Urllib.quote.
    destruct (Utf8.encode path); [|contradiction].
    unfold bind. rewrite Hreq by (eexists; reflexivity). apply (f_equal snd (Hack _ _)).
Qed.

Lemma failure_passes (w : world) (a : args) (r : dict) (log : list Request) :
  opt_truthy (environ_api_key w) = true ->
  reaches w (api_client w) ->
  usable w a ->
  (forall req, normalize w (urlopen_read w req) = Return r) ->
  dict_lookup r (lit "ok") = Some (VBool false) ->
  snd (main w a log) = Return (r, 1).
Proof.
  intros Hkey Hreach Hu Hn Hok.
  assert (Hne : nonempty r = true) by (destruct r; [discriminate|reflexivity]).
  pose proof (failure_passes_execute w (api_client w) a r log Hreach Hu Hn Hok)
    as He.
  unfold main. rewrite Hkey. unfold bind at 1.
  change (VaultClient_init _ _) with (api_client w).
  destruct (execute w (api_client w) a log) as [l' x]; simpl in He; subst x.
  unfold ret; simpl; unfold dict_get; rewrite Hok, Hne; reflexivity.
Qed.

(** On a success response without a body every command returns a success
    envelope, and the exit status is 0. *)
Lemma empty_response_returns (w : world) (a : args) (log : list Request) :
  opt_truthy (environ_api_key w) = true ->
  reaches w (api_client w) ->
  usable w a ->
  (forall req, urlopen_read w req = Return []) ->
  exists data, snd (main w a log) = Return (success data, 0).
Proof.
  intros Hkey Hreach Hu Hn.
  assert (Hack : forall ack l,
            acknowledge ack (success VNone) l = (l, Return (success (VDict ack))))
    by reflexivity.
  unfold main. rewrite Hkey. unfold bind at 1.
  change (VaultClient_init _ _) with (api_client w).
  set (cl := api_client w) in *.
  assert (Hreq : forall m p d h ct l,
            (exists q, p = 47%N :: q) ->
            _request w cl m p d h ct l
            = (l ++ [make_request cl m p d h ct], Return (success VNone))).
  { intros m p d h ct l [q ->]. now rewrite request_eq, Hreach, Hn. }
  assert (He : exists data, snd (execute w cl a log) = Return (success data)); [|
    destruct He as [data He]; exists data;
    destruct (execute w cl a log) as [l' x]; simpl in He; subst x; reflexivity].
  destruct a; simpl in Hu |- *.
  - exists VNone.
    unfold bind, search, lift, Urllib.urlencode_search, Urllib.quote_plus, Urllib.quote.
    destruct (Utf8.encode query); [|contradiction].
    pose proof (encode_lit (NilZero.string_of_int (Z.to_int context_length))) as Hc.
    unfold str_of_int.
    destruct (Utf8.encode (lit _)); [|contradiction].
    unfold bind. rewrite Hreq by (eexists; reflexivity). reflexivity.
  - exists VNone. unfold bind, get_note, lift, Urllib.quote.
    destruct (Utf8.encode path); [|contradiction].
    unfold bind. rewrite Hreq by (eexists; reflexivity). simpl.
    destruct metadata_only; simpl; unfold shape_get, bind, lift; simpl;
      destruct (opt_int_truthy max_chars); reflexivity.
  - exists VNone. unfold list_dir. destruct (nonempty path) eqn:Ep.
    + unfold bind, lift, Urllib.quote.
      destruct (rstrip_prefix 47%N path) as [k Hk].
      destruct (Utf8.encode path) as [bs|] eqn:E; [|contradiction].
      rewrite Hk in E. apply encode_app_inv in E as (x & y & -> & _ & _).
      cbv beta iota zeta. now rewrite Hreq by (eexists; reflexivity).
    + now rewrite Hreq by (eexists; reflexivity).
  - destruct Hu as [Hp (s & Hs & Ht)]. eexists.
    unfold bind. rewrite get_content_pure, Hs.
    unfold create_note, bind, lift, Urllib.quote, encode_utf8.
    destruct (Utf8.encode path); [|contradiction].
    destruct (Utf8.encode s); [|contradiction].
    simpl. rewrite Hreq by (eexists; reflexivity). apply (f_equal snd (Hack _ _)).
  - destruct Hu as [Hp (s & Hs & Ht)]. eexists.
    unfold bind. rewrite get_content_pure, Hs.
    unfold append_note, bind, lift, Urllib.quote, encode_utf8.
    destruct (Utf8.encode path); [|contradiction].
    destruct (Utf8.encode s); [|contradiction].
    simpl. rewrite Hreq by (eexists; reflexivity). apply (f_equal snd (Hack _ _)).
  - destruct Hu as [Hp (s & Hs & Ht)].
    destruct (if opt_truthy heading then (lit "heading", opt_value heading)
              else if opt_truthy frontmatter
                   then (lit "frontmatter", opt_value frontmatter)
                   else (lit "block", opt_value block)) as [tt tg].
    eexists.
    unfold bind. rewrite get_content_pure, Hs.
    unfold patch_note, bind, lift, Urllib.quote, encode_utf8.
    destruct (Utf8.encode path); [|contradiction].
    destruct (Utf8.encode s); [|contradiction].
    simpl. rewrite Hreq by (eexists; reflexivity). apply (f_equal snd (Hack _ _)).
  - destruct Hu as [(s & Hs & Ht) Hd]. eexists.
    unfold bind. rewrite get_content_pure, Hs.
    assert (Hda : forall y m d l, exists l',
              daily_append w cl s period y m d l = (l', Return (success VNone))).
    { intros. unfold daily_append, bind, lift, encode_utf8.
      destruct (Utf8.encode s); [|contradiction]. simpl.
      rewrite Hreq by apply periodic_path_slash. eexists. reflexivity. }
    destruct (opt_truthy date) eqn:Ed.
    + destruct date as [d|]; [|discriminate].
      destruct Hd as [->|Hd]; [discriminate|].
      unfold try_except, bind, lift.
      destruct (Datetime.strptime (unicode_decimal w) d) as [[[y m] dd]|];
        [|contradiction].
      simpl.
      match goal with |- context [daily_append w cl s period ?a ?b ?c log] =>
        destruct (Hda a b c log) as [l' ->] end.
      reflexivity.
    + match goal with |- context [daily_append w cl s period ?a ?b ?c log] =>
        destruct (Hda a b c log) as [l' ->] end.
      reflexivity.
  - eexists. unfold bind, delete_note, lift, Urllib.quote.
    destruct (Utf8.encode path); [|contradiction].
    unfold bind. rewrite Hreq by (eexists; reflexivity). reflexivity.
Qed.

(** X4. On a connection failure ([URLError]) every command with usable
    parameters, of a client whose requests are built, returns the failure
    envelope that names the reason, with no status code, and the exit
    status is 1: no shaping touches it. *)
Corollary connection_failure_returns (w : world) (a : args) (reason : str)
    (log : list Request) :
  opt_truthy (environ_api_key w) = true ->
  reaches w (api_client w) ->
  usable w a ->
  (forall req, urlopen_read w req = Raise (URLError reason)) ->
  snd (main w a log)
  = Return (failure (lit "Connection failed: " ++ reason), 1).
Proof.
  intros Hkey Hreach Hu Hn. apply failure_passes; try assumption; [|reflexivity].
  intros req. now rewrite Hn.
Qed.

(** X5. On an HTTP error whose body, if any, is text, every command with
    usable parameters, of a client whose requests are built, returns the
    failure envelope with the status code, and the exit status is 1: no
    shaping touches it. *)
Corollary http_error_returns (w : world) (a : args) (code : Z) (msg : str)
    (fp : option bytes) (body : str) (log : list Request) :
  opt_truthy (environ_api_key w) = true ->
  reaches w (api_client w) ->
  usable w a ->
  (forall req, urlopen_read w req = Raise (HTTPError code msg fp)) ->
  match fp with Some b => Utf8.decode b | None => Some [] end = Some body ->
  exists message,
    snd (main w a log) = Return (failure_code message code, 1).
Proof.
  intros Hkey Hreach Hu Hn Hb. eexists.
  apply failure_passes; try assumption; [|reflexivity].
  intros req. rewrite Hn. simpl. rewrite Hb. reflexivity.
Qed.

(* ================================================================= *)
(** ** The requests of a command *)

Lemma silent_ret {A} (a : A) : silent (ret a).
Proof. intros log. reflexivity. Qed.

Lemma silent_lift {A} (x : Exc A) : silent (lift x).
Proof. intros log. reflexivity. Qed.

Lemma silent_raise {A} (e : exn) : silent (@raise A e).
Proof. intros log. reflexivity. Qed.

Lemma silent_bind {A B} (m : M A) (f : A -> M B) :
  silent m -> (forall a, silent (f a)) -> silent (bind m f).
Proof.
  intros Hm Hf log. unfold bind. specialize (Hm log).
  destruct (m log) as [l [a|e]]; simpl in Hm; subst l; [apply Hf | reflexivity].
Qed.

Lemma silent_get_content (w : world) (c : content_args) :
  silent (get_content w c).
Proof.
  unfold get_content.
  destruct (opt_truthy (arg_content c)); [apply silent_ret|].
  destruct (arg_stdin c); [apply silent_lift|].
  destruct (opt_truthy (arg_file c)); [apply silent_lift | apply silent_ret].
Qed.

Lemma silent_acknowledge (ack r : dict) : silent (acknowledge ack r).
Proof.
  apply silent_bind; [apply silent_lift|].
  intros ok. destruct (truthy ok); apply silent_ret.
Qed.

Lemma silent_shape_get (max_chars : option Z) (r : dict) :
  silent (shape_get max_chars r).
Proof.
  apply silent_bind; [apply silent_lift|]. intros ok.
  destruct (truthy ok && opt_int_truthy max_chars); [|apply silent_ret].
  apply silent_bind; [apply silent_lift|]. intros data.
  destruct data; try apply silent_ret.
  apply silent_bind; [apply silent_lift|]. intros n.
  destruct (_ <? n); [|apply silent_ret].
  apply silent_bind; [apply silent_lift|]. intros head.
  apply silent_bind; [apply silent_lift|]. intros new. apply silent_ret.
Qed.

Lemma silent_shape_search (max_results : Z) (r : dict) :
  silent (shape_search max_results r).
Proof.
  apply silent_bind; [apply silent_lift|]. intros ok.
  destruct (truthy ok); [|apply silent_ret].
  apply silent_bind; [apply silent_lift|]. intros data.
  destruct data; try apply silent_ret.
  apply silent_bind; [apply silent_lift|]. intros x. apply silent_ret.
Qed.

Lemma issues_silent (P : Request -> Prop) {A} (m : M A) :
  silent m -> issues P m.
Proof. intros H log. left. apply H. Qed.

Lemma issues_bind_l (P : Request -> Prop) {A B} (m : M A) (f : A -> M B) :
  silent m -> (forall a, issues P (f a)) -> issues P (bind m f).
Proof.
  intros Hm Hf log. unfold bind. specialize (Hm log).
  destruct (m log) as [l [a|e]]; simpl in Hm; subst l; [apply Hf | now left].
Qed.

Lemma issues_bind_r (P : Request -> Prop) {A B} (m : M A) (f : A -> M B) :
  issues P m -> (forall a, silent (f a)) -> issues P (bind m f).
Proof.
  intros Hm Hf log. unfold bind. specialize (Hm log).
  destruct (m log) as [l [a|e]]; simpl in Hm; [|exact Hm].
  rewrite (Hf a l). exact Hm.
Qed.

Lemma issues_try (P : Request -> Prop) {A} (body : M A) (handler : exn -> M A) :
  issues P body -> (forall e, silent (handler e)) ->
  issues P (try_except body handler).
Proof.
  intros Hb Hh log. unfold try_except. specialize (Hb log).
  destruct (body log) as [l [a|e]]; simpl in Hb; [exact Hb|].
  rewrite (Hh e l). exact Hb.
Qed.

Lemma issues_request (P : Request -> Prop) (w : world) (self : VaultClient)
    method path data headers content_type :
  P (make_request self method path data headers content_type) ->
  issues P (_request w self method path data headers content_type).
Proof.
  intros HP log. rewrite request_eq.
  destruct (accepted w _); [|now left].
  right. eexists. split; [exact HP | reflexivity].
Qed.

Lemma issues_daily_append (w : world) (self : VaultClient) content period y m d :
  issues (client_request self) (daily_append w self content period y m d).
Proof.
  apply issues_bind_l; [apply silent_lift|]. intros data.
  apply issues_request.
  assert (Hp : exists p, periodic_path period y m d = 47%N :: p).
  { unfold periodic_path.
    destruct y as [y|], m as [m|], d as [d|]; try (eexists; reflexivity).
    destruct (negb (y =? 0) && negb (m =? 0) && negb (d =? 0));
      eexists; reflexivity. }
  destruct Hp as [p ->]. constructor; auto.
Qed.

(** Every command issues at most one request, and that one is a
    [client_request] of its client. *)
Lemma execute_issues (w : world) (client : VaultClient) (a : args) :
  issues (client_request client) (execute w client a).
Proof.
  destruct a; unfold execute.
  - apply issues_bind_r; [|intros; apply silent_shape_search].
    apply issues_bind_l; [apply silent_lift|]. intros params.
    apply issues_request.
    apply (client_request_intro client (lit "POST")
             (lit "search/simple/?" ++ params) None None None); auto.
  - apply issues_bind_r; [|intros; apply silent_shape_get].
    apply issues_bind_l; [apply silent_lift|]. intros q.
    apply issues_bind_r.
    + apply issues_request.
      apply (client_request_intro client (lit "GET") (lit "vault/" ++ q) None
               (Some [(lit "Accept", VStr (lit "application/vnd.olrapi.note+json"))])
               None); auto.
    + intros r. apply silent_bind; [apply silent_lift|]. intros ok.
      destruct (truthy ok && metadata_only); [|apply silent_ret].
      apply silent_bind; [apply silent_lift|]. intros data.
      destruct data; apply silent_ret.
  - unfold list_dir. destruct (nonempty path).
    + apply issues_bind_l; [apply silent_lift|]. intros q. apply issues_request.
      apply (client_request_intro client (lit "GET")
               (lit "vault/" ++ q ++ lit "/") None None None); auto.
    + apply issues_request.
      apply (client_request_intro client (lit "GET") (lit "vault/") None None None);
        auto.
  - apply issues_bind_l; [apply silent_get_content|]. intros content.
    apply issues_bind_r; [|intros; apply silent_acknowledge].
    apply issues_bind_l; [apply silent_lift|]. intros q.
    apply issues_bind_l; [apply silent_lift|]. intros data.
    apply issues_request.
    apply (client_request_intro client (lit "PUT") (lit "vault/" ++ q) (Some data)
             None (Some (lit "text/markdown"))); auto.
  - apply issues_bind_l; [apply silent_get_content|]. intros content.
    apply issues_bind_r; [|intros; apply silent_acknowledge].
    apply issues_bind_l; [apply silent_lift|]. intros q.
    apply issues_bind_l; [apply silent_lift|]. intros data.
    apply issues_request.
    apply (client_request_intro client (lit "POST") (lit "vault/" ++ q) (Some data)
             None (Some (lit "text/markdown"))); auto.
  - apply issues_bind_l; [apply silent_get_content|]. intros content.
    destruct (if opt_truthy heading then _ else _) as [target_type target].
    apply issues_bind_r; [|intros; apply silent_acknowledge].
    apply issues_bind_l; [apply silent_lift|]. intros q.
    apply issues_bind_l; [apply silent_lift|]. intros data.
    apply issues_request.
    apply (client_request_intro client (lit "PATCH") (lit "vault/" ++ q) (Some data)
             (Some [(lit "Operation", VStr operation);
                    (lit "Target-Type", VStr target_type);
                    (lit "Target", target)])).
    + right. right. now exists operation, target_type, target.
    + destruct (opt_truthy frontmatter); auto.
  - apply issues_bind_l; [apply silent_get_content|]. intros content.
    apply issues_bind_r.
    + destruct (opt_truthy date); [|apply issues_daily_append].
      apply issues_try.
      * apply issues_bind_l; [apply silent_lift|]. intros [[y m] d].
        apply issues_daily_append.
      * intros e. destruct (is_ValueError e); [apply silent_ret | apply silent_raise].
    + intros r. destruct (nonempty r); [apply silent_acknowledge | apply silent_ret].
  - apply issues_bind_r; [|intros; apply silent_acknowledge].
    apply issues_bind_l; [apply silent_lift|]. intros q.
    apply issues_request.
    apply (client_request_intro client (lit "DELETE") (lit "vault/" ++ q) None
             None None); auto.
Qed.

(** X1. One run of [main] issues at most one request, whatever the
    command and whatever the server answers, also when it ends in an
    exception; without an API key (unset or empty) it issues none. *)
Theorem main_at_most_one_request (w : world) (a : args) (log : list Request) :
  (fst (main w a log) = log \/ exists req, fst (main w a log) = log ++ [req])
  /\ (opt_truthy (environ_api_key w) = false -> fst (main w a log) = log).
Proof.
  split.
  - unfold main. destruct (opt_truthy (environ_api_key w)); [|now left].
    match goal with |- context [execute w ?cl a] =>
      pose proof (issues_bind_r _ (execute w cl a)
                    (fun result =>
                       ret (result,
                            if nonempty result
                               && truthy (dict_get result (lit "ok") VNone)
                            then 0 else 1))
                    (execute_issues w cl a) (fun r => silent_ret _) log) as H
    end.
    destruct H as [H|(req & _ & H)]; [now left | right; now exists req].
  - intros Hkey. unfold main. now rewrite Hkey.
Qed.

(** X2. Every request [main] issues carries the API key of the
    environment as [Authorization: Bearer <key>] (no header of an
    operation replaces it), and its URL is the base URL without its
    trailing slashes followed by a path that starts with a slash. *)
Theorem requests_carry_the_key (w : world) (a : args) (req : Request) :
  In req (fst (main w a [])) ->
  exists key path,
    environ_api_key w = Some key
    /\ dict_lookup (req_headers req) (lit "Authorization")
       = Some (VStr (lit "Bearer " ++ key))
    /\ req_url req
       = rstrip 47%N (match environ_api_url w with
                      | Some u => u
                      | None => lit "https://127.0.0.1:27124"
                      end) ++ 47%N :: path.
Proof.
  unfold main. destruct (environ_api_key w) as [key|] eqn:Ek;
    [|intros []].
  destruct (opt_truthy (Some key)); [|intros []].
  intros Hin.
  match type of Hin with context [execute w ?cl a] =>
    pose proof (issues_bind_r _ (execute w cl a)
                  (fun result =>
                     ret (result,
                          if nonempty result
                             && truthy (dict_get result (lit "ok") VNone)
                          then 0 else 1))
                  (execute_issues w cl a) (fun r => silent_ret _) []) as H
  end.
  destruct H as [H|(req' & Hreq & H)]; rewrite H in Hin; [destruct Hin|].
  destruct Hin as [<-|[]].
  destruct Hreq as [method path data headers content_type Hh Hc].
  exists key, path. split; [reflexivity|]. split; [|reflexivity].
  destruct Hh as [->|[->|(op & tt & tg & ->)]];
    destruct Hc as [->|[->| ->]]; reflexivity.
Qed.

Lemma requests_carry_the_key_witness :
  In (mkRequest (lit "DELETE") (lit "https://127.0.0.1:27124/vault/old.md") None
        [(lit "Authorization", VStr (lit "Bearer secret"))])
     (fst (main (constant_world (Return [])) (Delete (lit "old.md")) []))
  /\ exists key path,
       environ_api_key (constant_world (Return [])) = Some key
       /\ dict_lookup
            (req_headers
               (mkRequest (lit "DELETE") (lit "https://127.0.0.1:27124/vault/old.md")
                  None [(lit "Authorization", VStr (lit "Bearer secret"))]))
            (lit "Authorization")
          = Some (VStr (lit "Bearer " ++ key))
       /\ req_url
            (mkRequest (lit "DELETE") (lit "https://127.0.0.1:27124/vault/old.md")
               None [(lit "Authorization", VStr (lit "Bearer secret"))])
          = rstrip 47%N
              (match environ_api_url (constant_world (Return [])) with
               | Some u => u
               | None => lit "https://127.0.0.1:27124"
               end) ++ 47%N :: path.
Proof.
  split; [left; reflexivity|].
  exact (requests_carry_the_key (constant_world (Return [])) (Delete (lit "old.md"))
           _ (or_introl eq_refl)).
Defined.

(** X3. The envelope [main] returns has exactly the keys [ok, data], or
    [ok, error, code], or [ok, error], in this order; [code] is an int and
    is there only with [error]; and the exit status is 0 exactly when
    [ok] is true. *)
Theorem main_envelope_keys (w : world) (a : args) (log log' : list Request)
    (r : dict) (status : Z) :
  main w a log = (log', Return (r, status)) ->
  (map fst r = [lit "ok"; lit "data"]
   /\ dict_lookup r (lit "ok") = Some (VBool true) /\ status = 0)
  \/ (map fst r = [lit "ok"; lit "error"; lit "code"]
      /\ dict_lookup r (lit "ok") = Some (VBool false)
      /\ (exists code, dict_lookup r (lit "code") = Some (VInt code))
      /\ status = 1)
  \/ (map fst r = [lit "ok"; lit "error"]
      /\ dict_lookup r (lit "ok") = Some (VBool false) /\ status = 1).
Proof.
  unfold main. destruct (opt_truthy (environ_api_key w)).
  - intros H. apply bind_inv in H as (r0 & log1 & H0 & H).
    injection H as _ <- <-. apply execute_shape in H0.
    destruct H0 as [data|error code|error].
    + left. repeat split.
    + right. left. repeat split. now exists code.
    + right. right. repeat split.
  - intros H. injection H as _ <- <-. right. right. repeat split.
Qed.

Lemma main_envelope_keys_witness :
  main (constant_world
          (Raise (HTTPError 404 (lit "Not Found")
                    (Some (bjlit "{'message':'File does not exist'}")))))
    (Delete (lit "old.md")) []
  = ([make_request (VaultClient_init (lit "https://127.0.0.1:27124") (lit "secret"))
        (lit "DELETE") (lit "/vault/old.md") None None None],
     Return (failure_code (VStr (lit "File does not exist")) 404, 1))
  /\ ((map fst (failure_code (VStr (lit "File does not exist")) 404)
       = [lit "ok"; lit "data"]
       /\ dict_lookup (failure_code (VStr (lit "File does not exist")) 404) (lit "ok")
          = Some (VBool true) /\ 1 = 0)
      \/ (map fst (failure_code (VStr (lit "File does not exist")) 404)
          = [lit "ok"; lit "error"; lit "code"]
          /\ dict_lookup (failure_code (VStr (lit "File does not exist")) 404) (lit "ok")
             = Some (VBool false)
          /\ (exists code,
                dict_lookup (failure_code (VStr (lit "File does not exist")) 404)
                  (lit "code") = Some (VInt code))
          /\ 1 = 1)
      \/ (map fst (failure_code (VStr (lit "File does not exist")) 404)
          = [lit "ok"; lit "error"]
          /\ dict_lookup (failure_code (VStr (lit "File does not exist")) 404) (lit "ok")
             = Some (VBool false) /\ 1 = 1)).
Proof.
  split; [reflexivity|].
  exact (main_envelope_keys
           (constant_world
              (Raise (HTTPError 404 (lit "Not Found")
                        (Some (bjlit "{'message':'File does not exist'}")))))
           (Delete (lit "old.md")) [] _ _ 1 eq_refl).
Defined.

Lemma connection_failure_returns_witness :
  opt_truthy (environ_api_key (constant_world (Raise (URLError (lit "timed out")))))
  = true
  /\ reaches (constant_world (Raise (URLError (lit "timed out"))))
       (api_client (constant_world (Raise (URLError (lit "timed out")))))
  /\ usable (constant_world (Raise (URLError (lit "timed out"))))
       (Search (lit "to do") 10 100)
  /\ (forall req,
        urlopen_read (constant_world (Raise (URLError (lit "timed out")))) req
        = Raise (URLError (lit "timed out")))
  /\ snd (main (constant_world (Raise (URLError (lit "timed out"))))
            (Search (lit "to do") 10 100) [])
     = Return (failure (lit "Connection failed: " ++ lit "timed out"), 1).
Proof.
  split; [reflexivity|]. split; [exact (local_reaches _)|].
  split; [discriminate|]. split; [reflexivity|].
  exact (connection_failure_returns
           (constant_world (Raise (URLError (lit "timed out"))))
           (Search (lit "to do") 10 100) (lit "timed out") []
           eq_refl (local_reaches _) ltac:(discriminate) (fun _ => eq_refl)).
Defined.

Lemma http_error_returns_witness :
  opt_truthy (environ_api_key
                (constant_world (Raise (HTTPError 405 (lit "Method Not Allowed") None))))
  = true
  /\ reaches (constant_world (Raise (HTTPError 405 (lit "Method Not Allowed") None)))
       (api_client
          (constant_world (Raise (HTTPError 405 (lit "Method Not Allowed") None))))
  /\ usable (constant_world (Raise (HTTPError 405 (lit "Method Not Allowed") None)))
       (Get (lit "a.md") true (Some 10))
  /\ (forall req,
        urlopen_read
          (constant_world (Raise (HTTPError 405 (lit "Method Not Allowed") None))) req
        = Raise (HTTPError 405 (lit "Method Not Allowed") None))
  /\ Some [] = Some (@nil N)
  /\ exists message,
       snd (main (constant_world (Raise (HTTPError 405 (lit "Method Not Allowed") None)))
              (Get (lit "a.md") true (Some 10)) [])
       = Return (failure_code message 405, 1).
Proof.
  split; [reflexivity|]. split; [exact (local_reaches _)|].
  split; [discriminate|]. split; [reflexivity|].
  split; [reflexivity|].
  exact (http_error_returns
           (constant_world (Raise (HTTPError 405 (lit "Method Not Allowed") None)))
           (Get (lit "a.md") true (Some 10)) 405 (lit "Method Not Allowed") None []
           [] eq_refl (local_reaches _) ltac:(discriminate) (fun _ => eq_refl)
           eq_refl).
Defined.

(** An exception that leaves [_request] leaves [main] as well, except in
    a periodic-append that parses a date, where a [ValueError] is taken
    for a failure of the date. *)
Lemma raise_passes (w : world) (a : args) (e : exn) (log : list Request) :
  opt_truthy (environ_api_key w) = true ->
  reaches w (api_client w) ->
  usable w a ->
  (forall req, normalize w (urlopen_read w req) = Raise e) ->
  snd (main w a log)
  = match dated a with
    | Some d =>
        if is_ValueError e
        then Return (failure (lit "Invalid date format: " ++ d
                              ++ lit ". Use YYYY-MM-DD"), 1)
        else Raise e
    | None => Raise e
    end.
Proof.
  intros Hkey Hreach Hu Hn.
  unfold main. rewrite Hkey. unfold bind at 1.
  change (VaultClient_init _ _) with (api_client w).
  set (cl := api_client w) in *.
  assert (Hreq : forall m p d h ct l,
            (exists q, p = 47%N :: q) ->
            _request w cl m p d h ct l
            = (l ++ [make_request cl m p d h ct], Raise e)).
  { intros m p d h ct l [q ->]. now rewrite request_eq, Hreach, Hn. }
  destruct a; simpl in Hu |- *.
  - unfold bind, search, lift, Urllib.urlencode_search, Urllib.quote_plus, Urllib.quote.
    destruct (Utf8.encode query); [|contradiction].
    pose proof (encode_lit (NilZero.string_of_int (Z.to_int context_length))) as Hc.
    unfold str_of_int.
    destruct (Utf8.encode (lit _)); [|contradiction].
    unfold bind. now rewrite Hreq by (eexists; reflexivity).
  - unfold bind, get_note, lift, Urllib.quote.
    destruct (Utf8.encode path); [|contradiction].
    unfold bind. now rewrite Hreq by (eexists; reflexivity).
  - unfold list_dir. destruct (nonempty path) eqn:Ep.
    + unfold bind, lift, Urllib.quote.
      destruct (rstrip_prefix 47%N path) as [k Hk].
      destruct (Utf8.encode path) as [bs|] eqn:E; [|contradiction].
      rewrite Hk in E. apply encode_app_inv in E as (x & y & -> & _ & _).
      cbv beta iota zeta. now rewrite Hreq by (eexists; reflexivity).
    + now rewrite Hreq by (eexists; reflexivity).
  - destruct Hu as [Hp (s & Hs & Ht)].
    unfold bind. rewrite get_content_pure, Hs.
    unfold create_note, bind, lift, Urllib.quote, encode_utf8.
    destruct (Utf8.encode path); [|contradiction].
    destruct (Utf8.encode s); [|contradiction].
    simpl. now rewrite Hreq by (eexists; reflexivity).
  - destruct Hu as [Hp (s & Hs & Ht)].
    unfold bind. rewrite get_content_pure, Hs.
    unfold append_note, bind, lift, Urllib.quote, encode_utf8.
    destruct (Utf8.encode path); [|contradiction].
    destruct (Utf8.encode s); [|contradiction].
    simpl. now rewrite Hreq by (eexists; reflexivity).
  - destruct Hu as [Hp (s & Hs & Ht)].
    unfold bind. rewrite get_content_pure, Hs.
    destruct (if opt_truthy heading then _ else _) as [tt tg].
    unfold patch_note, bind, lift, Urllib.quote, encode_utf8.
    destruct (Utf8.encode path); [|contradiction].
    destruct (Utf8.encode s); [|contradiction].
    simpl. now rewrite Hreq by (eexists; reflexivity).
  - destruct Hu as [(s & Hs & Ht) Hd].
    unfold bind. rewrite get_content_pure, Hs.
    assert (Hda : forall y m d l, exists l',
              daily_append w cl s period y m d l = (l', Raise e)).
    { intros. unfold daily_append, bind, lift, encode_utf8.
      destruct (Utf8.encode s); [|contradiction]. simpl.
      rewrite Hreq by apply periodic_path_slash. eexists. reflexivity. }
    destruct date as [d|].
    + unfold opt_truthy. destruct (nonempty d) eqn:Ed.
      * destruct Hd as [->|Hd]; [discriminate|].
        unfold try_except, bind, lift.
        destruct (Datetime.strptime (unicode_decimal w) d) as [[[y m] dd]|];
          [|contradiction].
        simpl.
        match goal with |- context [daily_append w cl s period ?a ?b ?c log] =>
          destruct (Hda a b c log) as [l' ->] end.
        destruct (is_ValueError e); reflexivity.
      * match goal with |- context [daily_append w cl s period ?a ?b ?c log] =>
          destruct (Hda a b c log) as [l' ->] end.
        reflexivity.
    + simpl.
      match goal with |- context [daily_append w cl s period ?a ?b ?c log] =>
        destruct (Hda a b c log) as [l' ->] end.
      reflexivity.
  - unfold bind, delete_note, lift, Urllib.quote.
    destruct (Utf8.encode path); [|contradiction].
    unfold bind. now rewrite Hreq by (eexists; reflexivity).
Qed.

(** A success envelope made by [_request] becomes the acknowledgment of
    the command, whatever payload it had. *)
Lemma success_acknowledged (w : world) (a : args) (ack : dict) (v : value)
    (log : list Request) :
  opt_truthy (environ_api_key w) = true ->
  reaches w (api_client w) ->
  usable w a ->
  (forall req, normalize w (urlopen_read w req) = Return (success v)) ->
  acknowledgment a = Some ack ->
  snd (main w a log) = Return (success (VDict ack), 0).
Proof.
  intros Hkey Hreach Hu Hn Hack.
  unfold main. rewrite Hkey. unfold bind at 1.
  change (VaultClient_init _ _) with (api_client w).
  set (cl := api_client w) in *.
  assert (Hreq : forall m p d h ct l,
            (exists q, p = 47%N :: q) ->
            _request w cl m p d h ct l
            = (l ++ [make_request cl m p d h ct], Return (success v))).
  { intros m p d h ct l [q ->]. now rewrite request_eq, Hreach, Hn. }
  destruct a; simpl in Hu, Hack |- *; try discriminate; injection Hack as <-.
  - destruct Hu as [Hp (s & Hs & Ht)].
    unfold bind. rewrite get_content_pure, Hs.
    unfold create_note, bind, lift, Urllib.quote, encode_utf8.
    destruct (Utf8.encode path); [|contradiction].
    destruct (Utf8.encode s); [|contradiction].
    simpl. now rewrite Hreq by (eexists; reflexivity).
  - destruct Hu as [Hp (s & Hs & Ht)].
    unfold bind. rewrite get_content_pure, Hs.
    unfold append_note, bind, lift, Urllib.quote, encode_utf8.
    destruct (Utf8.encode path); [|contradiction].
    destruct (Utf8.encode s); [|contradiction].
    simpl. now rewrite Hreq by (eexists; reflexivity).
  - destruct Hu as [Hp (s & Hs & Ht)].
    unfold bind. rewrite get_content_pure, Hs.
    unfold patch_note, bind, lift, Urllib.quote, encode_utf8.
    destruct (Utf8.encode path); [|contradiction].
    destruct (Utf8.encode s); [|contradiction].
    destruct (opt_truthy heading); [simpl; now rewrite Hreq by (eexists; reflexivity)|].
    destruct (opt_truthy frontmatter); simpl; now rewrite Hreq by (eexists; reflexivity).
  - destruct Hu as [(s & Hs & Ht) Hd].
    unfold bind. rewrite get_content_pure, Hs.
    assert (Hda : forall y m d l, exists l',
              daily_append w cl s period y m d l = (l', Return (success v))).
    { intros. unfold daily_append, bind, lift, encode_utf8.
      destruct (Utf8.encode s); [|contradiction]. simpl.
      rewrite Hreq by apply periodic_path_slash. eexists. reflexivity. }
    destruct (opt_truthy date) eqn:Ed.
    + destruct date as [d|]; [|discriminate].
      destruct Hd as [->|Hd]; [discriminate|].
      unfold try_except, bind, lift.
      destruct (Datetime.strptime (unicode_decimal w) d) as [[[y m] dd]|];
        [|contradiction].
      simpl.
      match goal with |- context [daily_append w cl s period ?a ?b ?c log] =>
        destruct (Hda a b c log) as [l' ->] end.
      reflexivity.
    + match goal with |- context [daily_append w cl s period ?a ?b ?c log] =>
        destruct (Hda a b c log) as [l' ->] end.
      reflexivity.
  - unfold bind, delete_note, lift, Urllib.quote.
    destruct (Utf8.encode path); [|contradiction].
    unfold bind. now rewrite Hreq by (eexists; reflexivity).
Qed.

(** X6. After a successful create, append, patch, periodic-append or
    delete the payload is the acknowledgment record of the command (the
    path, the target, the period), whatever the server sent with its
    success status: no body, a text, or any JSON value [json.loads]
    answers; and the exit status is 0. *)
Theorem acknowledged_whatever_the_payload (w : world) (a : args) (ack : dict)
    (body : bytes) (s : str) (log : list Request) :
  opt_truthy (environ_api_key w) = true ->
  reaches w (api_client w) ->
  usable w a ->
  (forall req, urlopen_read w req = Return body) ->
  Utf8.decode body = Some s ->
  loads_answers w s ->
  acknowledgment a = Some ack ->
  snd (main w a log) = Return (success (VDict ack), 0).
Proof.
  intros Hkey Hreach Hu Hresp Hdec Hans Hack.
  apply (success_acknowledged w a ack
           (if nonempty body
            then match json_loads w s with Return v => v | Raise _ => VStr s end
            else VNone)); try assumption.
  intros req. rewrite Hresp. simpl.
  destruct (nonempty body); [|reflexivity].
  rewrite Hdec. unfold loads_answers in Hans.
  destruct (json_loads w s) as [v|e]; [reflexivity|].
  destruct e; try contradiction. reflexivity.
Qed.

Lemma acknowledged_whatever_the_payload_witness :
  opt_truthy (environ_api_key (constant_world (Return (blit "<html>OK</html>")))) = true
  /\ reaches (constant_world (Return (blit "<html>OK</html>")))
       (api_client (constant_world (Return (blit "<html>OK</html>"))))
  /\ usable (constant_world (Return (blit "<html>OK</html>")))
       (Patch (lit "a.md") (Some (lit "Tasks::Today")) None None (lit "append")
          (inline (lit "- [ ] call")))
  /\ (forall req,
        urlopen_read (constant_world (Return (blit "<html>OK</html>"))) req
        = Return (blit "<html>OK</html>"))
  /\ Utf8.decode (blit "<html>OK</html>") = Some (lit "<html>OK</html>")
  /\ loads_answers (constant_world (Return (blit "<html>OK</html>")))
       (lit "<html>OK</html>")
  /\ acknowledgment
       (Patch (lit "a.md") (Some (lit "Tasks::Today")) None None (lit "append")
          (inline (lit "- [ ] call")))
     = Some [(lit "patched", VStr (lit "a.md"));
             (lit "target", VStr (lit "Tasks::Today"))]
  /\ snd (main (constant_world (Return (blit "<html>OK</html>")))
            (Patch (lit "a.md") (Some (lit "Tasks::Today")) None None (lit "append")
               (inline (lit "- [ ] call"))) [])
     = Return (success (VDict [(lit "patched", VStr (lit "a.md"));
                               (lit "target", VStr (lit "Tasks::Today"))]), 0).
Proof.
  split; [reflexivity|]. split; [exact (local_reaches _)|].
  split; [split; [discriminate | exists (lit "- [ ] call"); split;
                                   [reflexivity | discriminate]]|].
  split; [reflexivity|]. split; [reflexivity|]. split; [exact I|].
  split; [reflexivity|].
  apply (acknowledged_whatever_the_payload
           (constant_world (Return (blit "<html>OK</html>")))
           (Patch (lit "a.md") (Some (lit "Tasks::Today")) None None (lit "append")
              (inline (lit "- [ ] call")))
           [(lit "patched", VStr (lit "a.md"));
            (lit "target", VStr (lit "Tasks::Today"))]
           (blit "<html>OK</html>") (lit "<html>OK</html>") []).
  - reflexivity.
  - exact (local_reaches _).
  - split; [discriminate|]. exists (lit "- [ ] call").
    split; [reflexivity | discriminate].
  - intros req. reflexivity.
  - reflexivity.
  - exact I.
  - reflexivity.
Defined.

(** X7. A success response whose body is not UTF-8 makes every command
    with usable parameters, of a client whose requests are built, end in
    [UnicodeDecodeError], with no envelope;
    except a periodic-append with a date, whose [try] around the date
    catches the error after the request was sent and reports it as an
    invalid date. *)
Theorem undecodable_body_escapes (w : world) (a : args) (body : bytes)
    (log : list Request) :
  opt_truthy (environ_api_key w) = true ->
  reaches w (api_client w) ->
  usable w a ->
  (forall req, urlopen_read w req = Return body) ->
  body <> [] ->
  Utf8.decode body = None ->
  snd (main w a log)
  = match dated a with
    | Some d =>
        Return (failure (lit "Invalid date format: " ++ d
                         ++ lit ". Use YYYY-MM-DD"), 1)
    | None => Raise UnicodeDecodeError
    end.
Proof.
  intros Hkey Hreach Hu Hresp Hne Hdec.
  rewrite (raise_passes w a UnicodeDecodeError log Hkey Hreach Hu).
  - destruct (dated a); reflexivity.
  - intros req. rewrite Hresp. simpl.
    destruct body; [contradiction|]. simpl nonempty. cbv iota.
    now rewrite Hdec.
Qed.

Lemma undecodable_body_escapes_witness :
  opt_truthy (environ_api_key (constant_world (Return [xff]))) = true
  /\ reaches (constant_world (Return [xff])) (api_client (constant_world (Return [xff])))
  /\ usable (constant_world (Return [xff]))
       (Daily (Some (lit "2024-03-05")) (lit "daily") (inline (lit "hi")))
  /\ (forall req, urlopen_read (constant_world (Return [xff])) req = Return [xff])
  /\ [xff] <> []
  /\ Utf8.decode [xff] = None
  /\ snd (main (constant_world (Return [xff]))
            (Daily (Some (lit "2024-03-05")) (lit "daily") (inline (lit "hi"))) [])
     = Return (failure (lit "Invalid date format: " ++ lit "2024-03-05"
                        ++ lit ". Use YYYY-MM-DD"), 1).
Proof.
  split; [reflexivity|]. split; [exact (local_reaches _)|].
  split; [split; [exists (lit "hi"); split; [reflexivity | discriminate]
                 | right; discriminate]|].
  split; [reflexivity|]. split; [discriminate|]. split; [reflexivity|].
  apply (undecodable_body_escapes (constant_world (Return [xff]))
           (Daily (Some (lit "2024-03-05")) (lit "daily") (inline (lit "hi")))
           [xff] []).
  - reflexivity.
  - exact (local_reaches _).
  - split; [exists (lit "hi"); split; [reflexivity | discriminate]
           | right; discriminate].
  - intros req. reflexivity.
  - discriminate.
  - reflexivity.
Defined.

(** X8. An exception of [urlopen] that is neither [HTTPError] nor
    [URLError] is not turned into an envelope: it leaves [main], for
    every command with usable parameters of a client whose requests are
    built; except in a periodic-append with a date, where a [ValueError]
    is reported as an invalid date. *)
Theorem transport_exception_escapes (w : world) (a : args) (e : exn)
    (log : list Request) :
  opt_truthy (environ_api_key w) = true ->
  reaches w (api_client w) ->
  usable w a ->
  (forall req, urlopen_read w req = Raise e) ->
  match e with HTTPError _ _ _ | URLError _ => False | _ => True end ->
  snd (main w a log)
  = match dated a with
    | Some d =>
        if is_ValueError e
        then Return (failure (lit "Invalid date format: " ++ d
                              ++ lit ". Use YYYY-MM-DD"), 1)
        else Raise e
    | None => Raise e
    end.
Proof.
  intros Hkey Hreach Hu Hresp He.
  apply raise_passes; try assumption.
  intros req. rewrite Hresp. destruct e; try reflexivity; contradiction.
Qed.

Lemma transport_exception_escapes_witness :
  opt_truthy (environ_api_key (constant_world (Raise OSError))) = true
  /\ reaches (constant_world (Raise OSError))
       (api_client (constant_world (Raise OSError)))
  /\ usable (constant_world (Raise OSError)) (List_ (lit "Projects"))
  /\ (forall req, urlopen_read (constant_world (Raise OSError)) req = Raise OSError)
  /\ True
  /\ snd (main (constant_world (Raise OSError)) (List_ (lit "Projects")) [])
     = Raise OSError.
Proof.
  split; [reflexivity|]. split; [exact (local_reaches _)|].
  split; [discriminate|]. split; [reflexivity|].
  split; [exact I|].
  apply (transport_exception_escapes (constant_world (Raise OSError))
           (List_ (lit "Projects")) OSError []).
  - reflexivity.
  - exact (local_reaches _).
  - discriminate.
  - intros req. reflexivity.
  - exact I.
Defined.

(* ================================================================= *)
(** ** Trailing slashes *)

Lemma rstrip_repeat (c : N) (k : nat) : rstrip c (repeat c k) = [].
Proof.
  induction k as [|k IH]; simpl; [reflexivity|].
  now rewrite IH, N.eqb_refl.
Qed.

Lemma rstrip_app_repeat (c : N) (s : str) (k : nat) :
  rstrip c (s ++ repeat c k) = rstrip c s.
Proof.
  induction s as [|x s IH]; simpl; [apply rstrip_repeat|].
  now rewrite IH.
Qed.

Lemma rstrip_last (c : N) (s : str) :
  rstrip c s = [] \/ exists pre x, rstrip c s = pre ++ [x] /\ x <> c.
Proof.
  induction s as [|y s IH]; simpl; [now left|].
  destruct (rstrip c s) as [|z t] eqn:E.
  - destruct (N.eqb y c) eqn:Ey; [now left|].
    right. exists [], y. split; [reflexivity|]. now apply N.eqb_neq.
  - right. destruct IH as [IH|(pre & x & IH & Hx)]; [discriminate|].
    exists (y :: pre), x. split; [|exact Hx]. simpl. now rewrite IH.
Qed.

(** X9. The client drops every trailing slash of the base URL: the URL
    given with more slashes at its end makes the same client, what is
    dropped is slashes only, and the base a request URL starts with is
    empty or ends in a character that is no slash. *)
Theorem init_strips_trailing_slashes (url key : str) (k : nat) :
  VaultClient_init (url ++ repeat 47%N k) key = VaultClient_init url key
  /\ (exists j, url = base_url (VaultClient_init url key) ++ repeat 47%N j)
  /\ (base_url (VaultClient_init url key) = []
      \/ exists pre x,
           base_url (VaultClient_init url key) = pre ++ [x] /\ x <> 47%N).
Proof.
  unfold VaultClient_init. simpl. split; [|split].
  - now rewrite rstrip_app_repeat.
  - apply rstrip_prefix.
  - apply rstrip_last.
Qed.

(** X10. Listing a directory ignores the slashes at the end of a
    non-empty path: with or without them the same request is made and the
    same result returned. A path made of slashes only is not the root: for
    a client that reaches its server, it sends a GET to the base URL
    followed by [/vault//], where the empty path sends it to the base URL
    followed by [/vault/]. *)
Theorem list_dir_ignores_trailing_slashes (w : world) (self : VaultClient)
    (c : N) (path : str) (k : nat) (log : list Request) :
  reaches w self ->
  list_dir w self ((c :: path) ++ repeat 47%N k) log
  = list_dir w self (c :: path) log
  /\ fst (list_dir w self (repeat 47%N (S k)) log)
     = log ++ [mkRequest (lit "GET") (base_url self ++ lit "/vault//") None
                 [(lit "Authorization", VStr (lit "Bearer " ++ api_key self))]]
  /\ fst (list_dir w self [] log)
     = log ++ [mkRequest (lit "GET") (base_url self ++ lit "/vault/") None
                 [(lit "Authorization", VStr (lit "Bearer " ++ api_key self))]].
Proof.
  intros Hreach. split; [|split].
  - unfold list_dir.
    change (nonempty ((c :: path) ++ repeat 47%N k)) with true.
    change (nonempty (c :: path)) with true. cbv iota.
    now rewrite rstrip_app_repeat.
  - unfold list_dir. change (nonempty (repeat 47%N (S k))) with true. cbv iota.
    rewrite rstrip_repeat.
    change (Urllib.quote [] []) with (@Return str []).
    unfold bind, lift. cbv beta iota zeta.
    now rewrite request_eq_accepted by apply (Hreach (lit "vault//")).
  - change (list_dir w self [] log)
      with (_request w self (lit "GET") (lit "/vault/") None None None log).
    now rewrite request_eq_accepted by apply (Hreach (lit "vault/")).
Qed.

Lemma list_dir_ignores_trailing_slashes_witness :
  reaches (constant_world (Return [])) local_client
  /\ list_dir (constant_world (Return [])) local_client
       (lit "Projects" ++ repeat 47%N 2) []
     = list_dir (constant_world (Return [])) local_client (lit "Projects") []
  /\ fst (list_dir (constant_world (Return [])) local_client (repeat 47%N 3) [])
     = [mkRequest (lit "GET") (lit "https://127.0.0.1:27124/vault//") None
          [(lit "Authorization", VStr (lit "Bearer secret"))]]
  /\ fst (list_dir (constant_world (Return [])) local_client [] [])
     = [mkRequest (lit "GET") (lit "https://127.0.0.1:27124/vault/") None
          [(lit "Authorization", VStr (lit "Bearer secret"))]].
Proof.
  split; [exact (local_reaches _)|].
  exact (list_dir_ignores_trailing_slashes (constant_world (Return []))
           local_client 80%N (lit "rojects") 2 [] (local_reaches _)).
Defined.

(* ================================================================= *)
(** ** The request of a patch and of a search *)

(** X11. A patch (its content read, its strings text) of a client that
    reaches its server issues one PATCH to the note's URL with the content
    as body and exactly these headers:
    the key, [Operation], [Target-Type], [Target] and [Content-Type]. The
    target is the heading if one is given, else the frontmatter field,
    else the block; the content type is [application/json] exactly when a
    frontmatter field is given, [text/markdown] otherwise. *)
Theorem patch_request (w : world) (client : VaultClient) (path : str)
    (heading frontmatter block : option str) (operation : str)
    (c : content_args) (content : str) (data bs : bytes) (log : list Request) :
  reaches w client ->
  get_content w c log = (log, Return content) ->
  Utf8.encode content = Some data ->
  Utf8.encode path = Some bs ->
  fst (execute w client (Patch path heading frontmatter block operation c) log)
  = log ++ [mkRequest (lit "PATCH")
              (base_url client ++ lit "/vault/" ++ Urllib.quote_from_bytes [] bs)
              (Some data)
              [(lit "Authorization", VStr (lit "Bearer " ++ api_key client));
               (lit "Operation", VStr operation);
               (lit "Target-Type",
                VStr (if opt_truthy heading then lit "heading"
                      else if opt_truthy frontmatter then lit "frontmatter"
                      else lit "block"));
               (lit "Target",
                if opt_truthy heading then opt_value heading
                else if opt_truthy frontmatter then opt_value frontmatter
                else opt_value block);
               (lit "Content-Type",
                VStr (if opt_truthy frontmatter then lit "application/json"
                      else lit "text/markdown"))]].
Proof.
  intros Hreach Hcontent Hc Hp. unfold execute, bind. rewrite Hcontent.
  pose proof (Hreach (lit "vault/" ++ Urllib.quote_from_bytes [] bs)) as Hacc.
  destruct (opt_truthy heading), (opt_truthy frontmatter);
    unfold patch_note, bind, lift;
    rewrite (quote_encoded _ _ _ Hp), (encode_utf8_encoded _ _ Hc),
      (request_eq_accepted _ _ _ _ _ _ _ _ Hacc);
    (destruct (normalize _ _) as [r|e]; [apply acknowledge_log | reflexivity]).
Qed.

Lemma patch_request_witness :
  reaches (constant_world (Return [])) local_client
  /\ get_content (constant_world (Return [])) (inline (jlit "'done'")) []
     = ([], Return (jlit "'done'"))
  /\ Utf8.encode (jlit "'done'") = Some (bjlit "'done'")
  /\ Utf8.encode (lit "Projects/a.md") = Some (blit "Projects/a.md")
  /\ fst (execute (constant_world (Return [])) local_client
            (Patch (lit "Projects/a.md") None (Some (lit "status")) None
               (lit "replace") (inline (jlit "'done'"))) [])
     = [mkRequest (lit "PATCH") (lit "https://127.0.0.1:27124/vault/Projects%2Fa.md")
          (Some (bjlit "'done'"))
          [(lit "Authorization", VStr (lit "Bearer secret"));
           (lit "Operation", VStr (lit "replace"));
           (lit "Target-Type", VStr (lit "frontmatter"));
           (lit "Target", VStr (lit "status"));
           (lit "Content-Type", VStr (lit "application/json"))]].
Proof.
  split; [exact (local_reaches _)|].
  split; [reflexivity|]. split; [reflexivity|]. split; [reflexivity|].
  apply (patch_request (constant_world (Return [])) local_client
           (lit "Projects/a.md") None (Some (lit "status")) None (lit "replace")
           (inline (jlit "'done'")) (jlit "'done'") (bjlit "'done'")
           (blit "Projects/a.md") []); [exact (local_reaches _) | | | ];
    reflexivity.
Defined.

Lemma hex_digit_safe (n : N) : (n < 16)%N -> Urllib.always_safe (Urllib.hex_digit n) = true.
Proof.
  intros H. unfold Urllib.hex_digit, Urllib.always_safe, Utf8.between.
  destruct (N.ltb n 10) eqn:E.
  - apply N.ltb_lt in E.
    replace (N.leb 48 (48 + n)) with true by (symmetry; apply N.leb_le; lia).
    replace (N.leb (48 + n) 57) with true by (symmetry; apply N.leb_le; lia).
    now rewrite !orb_true_r.
  - apply N.ltb_ge in E.
    replace (N.leb 65 (55 + n)) with true by (symmetry; apply N.leb_le; lia).
    replace (N.leb (55 + n) 90) with true by (symmetry; apply N.leb_le; lia).
    reflexivity.
Qed.

(** What [quote_plus] returns is made of always-safe characters, percent
    signs and plus signs. *)
Lemma quote_plus_chars (s q : str) :
  Urllib.quote_plus s = Return q -> forallb query_char q = true.
Proof.
  unfold Urllib.quote_plus, Urllib.quote.
  destruct (Utf8.encode s) as [bs|]; [|discriminate].
  intros H. injection H as <-.
  unfold Urllib.quote_from_bytes.
  induction bs as [|b bs IH]; [reflexivity|].
  simpl flat_map. rewrite map_app, forallb_app, IH, andb_true_r.
  unfold Urllib.quote_byte.
  pose proof (Byte.to_N_bounded b) as Hb.
  destruct (Urllib.always_safe (Byte.to_N b)) eqn:Es.
  - simpl. unfold query_char.
    destruct (N.eqb (Byte.to_N b) 32) eqn:E32; [reflexivity|].
    now rewrite Es.
  - simpl existsb. rewrite orb_false_r.
    destruct (N.eqb (Byte.to_N b) 32) eqn:E32.
    + simpl. rewrite E32. reflexivity.
    + cbn [orb map forallb]. unfold query_char at 1. cbn [N.eqb].
      assert (H1 : (Byte.to_N b / 16 < 16)%N)
        by (apply N.Div0.div_lt_upper_bound; lia).
      assert (H2 : (Byte.to_N b mod 16 < 16)%N) by (apply N.mod_lt; lia).
      assert (Hh : forall n, (n < 16)%N ->
                 (if N.eqb (Urllib.hex_digit n) 32 then 43%N else Urllib.hex_digit n)
                 = Urllib.hex_digit n).
      { intros n Hn. destruct (N.eqb (Urllib.hex_digit n) 32) eqn:E; [|reflexivity].
        apply N.eqb_eq in E. unfold Urllib.hex_digit in E.
        destruct (N.ltb n 10); lia. }
      rewrite (Hh _ H1), (Hh _ H2). unfold query_char.
      rewrite (hex_digit_safe _ H1), (hex_digit_safe _ H2). reflexivity.
Qed.

(** X12. A search (its query text) of a client that reaches its server
    issues one POST, without a body, whose URL is the base URL followed by
    [/search/simple/?query=Q&contextLength=C], where [Q] and [C] are made
    of always-safe characters, [%] and [+] only: no character of the query
    can end the parameter, start another, or leave the query string. *)
Theorem search_request (w : world) (self : VaultClient) (query : str)
    (context_length : Z) (bs : bytes) (log : list Request) :
  reaches w self ->
  Utf8.encode query = Some bs ->
  exists q c,
    fst (search w self query context_length log)
    = log ++ [mkRequest (lit "POST")
                (base_url self ++ lit "/search/simple/?query=" ++ q
                 ++ lit "&contextLength=" ++ c)
                None
                [(lit "Authorization", VStr (lit "Bearer " ++ api_key self))]]
    /\ forallb query_char q = true
    /\ forallb query_char c = true
    /\ (forall x, In x [32; 35; 38; 47; 61; 63]%N -> ~ In x (q ++ c)).
Proof.
  intros Hreach Hq.
  destruct (Urllib.quote_plus query) as [q|e] eqn:Eq.
  2:{ unfold Urllib.quote_plus, Urllib.quote in Eq. rewrite Hq in Eq. discriminate. }
  destruct (Urllib.quote_plus (str_of_int context_length)) as [c|e] eqn:Ec.
  2:{ unfold Urllib.quote_plus, Urllib.quote, str_of_int in Ec.
      pose proof (encode_lit (NilZero.string_of_int (Z.to_int context_length))) as H.
      destruct (Utf8.encode (lit _)); [discriminate | contradiction]. }
  exists q, c.
  pose proof (quote_plus_chars _ _ Eq) as Hqc.
  pose proof (quote_plus_chars _ _ Ec) as Hcc.
  split; [|split; [exact Hqc | split; [exact Hcc|]]].
  - unfold search, bind, lift, Urllib.urlencode_search. rewrite Eq, Ec.
    cbv beta iota.
    rewrite request_eq_accepted; [reflexivity|].
    apply (Hreach (lit "search/simple/?" ++ lit "query=" ++ q
                   ++ lit "&contextLength=" ++ c)).
  - intros x Hx Hin.
    assert (Hall : forallb query_char (q ++ c) = true)
      by now rewrite forallb_app, Hqc, Hcc.
    rewrite forallb_forall in Hall. specialize (Hall x Hin).
    simpl in Hx.
    repeat (destruct Hx as [<-|Hx]; [discriminate|]). exact Hx.
Qed.

Lemma search_request_witness :
  reaches (constant_world (Return [])) local_client
  /\ Utf8.encode (lit "a b&c=d") = Some (blit "a b&c=d")
  /\ exists q c,
       fst (search (constant_world (Return [])) local_client (lit "a b&c=d") 100 [])
       = [mkRequest (lit "POST")
            (base_url local_client ++ lit "/search/simple/?query=" ++ q
             ++ lit "&contextLength=" ++ c)
            None
            [(lit "Authorization", VStr (lit "Bearer " ++ api_key local_client))]]
       /\ forallb query_char q = true
       /\ forallb query_char c = true
       /\ (forall x, In x [32; 35; 38; 47; 61; 63]%N -> ~ In x (q ++ c)).
Proof.
  split; [exact (local_reaches _)|]. split; [reflexivity|].
  exact (search_request (constant_world (Return [])) local_client (lit "a b&c=d")
           100 (blit "a b&c=d") [] (local_reaches _) eq_refl).
Defined.

Example search_url_ex :
  map req_url (fst (search (constant_world (Return [])) local_client
                      (lit "a b&c=d") 100 []))
  = [lit "https://127.0.0.1:27124/search/simple/?query=a+b%26c%3Dd&contextLength=100"].
Proof. reflexivity. Qed.

(* ================================================================= *)
(** ** UTF-8 and percent-encoding lose nothing *)

Lemma to_N_byte_of_N (n : N) : (n < 256)%N -> Byte.to_N (Utf8.byte_of_N n) = n.
Proof.
  intros H. unfold Utf8.byte_of_N.
  destruct (Byte.of_N n) as [b|] eqn:E.
  - now apply Byte.to_of_N.
  - apply Byte.of_N_None_iff in E. lia.
Qed.

Ltac div_lia := zify; Z.to_euclidean_division_equations; lia.

Lemma between_true (lo hi x : N) :
  (lo <= x)%N -> (x <= hi)%N -> Utf8.between lo hi x = true.
Proof.
  intros H1 H2. unfold Utf8.between.
  apply N.leb_le in H1, H2. now rewrite H1, H2.
Qed.

Lemma between_false (lo hi x : N) :
  (x < lo \/ hi < x)%N -> Utf8.between lo hi x = false.
Proof.
  intros [H|H]; unfold Utf8.between; apply N.leb_gt in H; rewrite H;
    [reflexivity | apply andb_false_r].
Qed.

Lemma decode_1 (a : N) (rest : bytes) :
  (a < 128)%N ->
  Utf8.decode (Utf8.byte_of_N a :: rest) = option_map (cons a) (Utf8.decode rest).
Proof.
  intros H. cbn [Utf8.decode]. rewrite (to_N_byte_of_N a) by lia.
  apply N.ltb_lt in H. now rewrite H.
Qed.

Lemma decode_2 (a x : N) (rest : bytes) :
  (194 <= a <= 223)%N -> (128 <= x <= 191)%N ->
  Utf8.decode (Utf8.byte_of_N a :: Utf8.byte_of_N x :: rest)
  = option_map (cons ((a - 192) * 64 + (x - 128))%N) (Utf8.decode rest).
Proof.
  intros Ha Hx. cbn [Utf8.decode].
  rewrite (to_N_byte_of_N a), (to_N_byte_of_N x) by lia.
  replace (N.ltb a 128) with false by (symmetry; apply N.ltb_ge; lia).
  unfold Utf8.cont. rewrite !between_true by lia. reflexivity.
Qed.

Lemma decode_3 (a x y : N) (rest : bytes) :
  (224 <= a <= 239)%N ->
  (if N.eqb a 224 then 160 <= x else 128 <= x)%N ->
  (if N.eqb a 237 then x <= 159 else x <= 191)%N ->
  (128 <= y <= 191)%N ->
  Utf8.decode (Utf8.byte_of_N a :: Utf8.byte_of_N x :: Utf8.byte_of_N y :: rest)
  = option_map (cons ((a - 224) * 4096 + (x - 128) * 64 + (y - 128))%N)
      (Utf8.decode rest).
Proof.
  intros Ha Hlo Hhi Hy. cbn [Utf8.decode].
  assert (Hx : (128 <= x <= 191)%N).
  { destruct (N.eqb a 224), (N.eqb a 237); lia. }
  rewrite (to_N_byte_of_N a), (to_N_byte_of_N x), (to_N_byte_of_N y) by lia.
  replace (N.ltb a 128) with false by (symmetry; apply N.ltb_ge; lia).
  rewrite (between_false 194 223 a) by lia.
  rewrite (between_true 224 239 a) by lia.
  unfold Utf8.cont. rewrite (between_true 128 191 y) by lia.
  replace (if N.eqb a 224 then Utf8.between 160 191 x
           else if N.eqb a 237 then Utf8.between 128 159 x
                else Utf8.between 128 191 x) with true; [reflexivity|].
  symmetry. destruct (N.eqb a 224) eqn:E1.
  - apply between_true; lia.
  - destruct (N.eqb a 237); apply between_true; lia.
Qed.

Lemma decode_4 (a x y z : N) (rest : bytes) :
  (240 <= a <= 244)%N ->
  (if N.eqb a 240 then 144 <= x else 128 <= x)%N ->
  (if N.eqb a 244 then x <= 143 else x <= 191)%N ->
  (128 <= y <= 191)%N -> (128 <= z <= 191)%N ->
  Utf8.decode (Utf8.byte_of_N a :: Utf8.byte_of_N x :: Utf8.byte_of_N y
               :: Utf8.byte_of_N z :: rest)
  = option_map (cons ((a - 240) * 262144 + (x - 128) * 4096
                      + (y - 128) * 64 + (z - 128))%N)
      (Utf8.decode rest).
Proof.
  intros Ha Hlo Hhi Hy Hz. cbn [Utf8.decode].
  assert (Hx : (128 <= x <= 191)%N).
  { destruct (N.eqb a 240), (N.eqb a 244); lia. }
  rewrite (to_N_byte_of_N a), (to_N_byte_of_N x), (to_N_byte_of_N y),
    (to_N_byte_of_N z) by lia.
  replace (N.ltb a 128) with false by (symmetry; apply N.ltb_ge; lia).
  rewrite (between_false 194 223 a) by lia.
  rewrite (between_false 224 239 a) by lia.
  rewrite (between_true 240 244 a) by lia.
  unfold Utf8.cont.
  rewrite (between_true 128 191 y), (between_true 128 191 z) by lia.
  replace (if N.eqb a 240 then Utf8.between 144 191 x
           else if N.eqb a 244 then Utf8.between 128 143 x
                else Utf8.between 128 191 x) with true; [reflexivity|].
  symmetry. destruct (N.eqb a 240) eqn:E1.
  - apply between_true; lia.
  - destruct (N.eqb a 244); apply between_true; lia.
Qed.

Lemma some_inj {A} (x y : A) : Some x = Some y -> y = x.
Proof. congruence. Qed.

Lemma decode_encode_char (c : N) (cs : list N) (rest : bytes) :
  Utf8.encode_char c = Some cs ->
  Utf8.decode (map Utf8.byte_of_N cs ++ rest) = option_map (cons c) (Utf8.decode rest).
Proof.
  unfold Utf8.encode_char, Utf8.is_surrogate.
  destruct (N.ltb c 128) eqn:E1.
  { intros H; apply some_inj in H; subst cs. apply N.ltb_lt in E1.
    cbn [map app]. now apply decode_1. }
  apply N.ltb_ge in E1.
  destruct (N.ltb c 2048) eqn:E2.
  { intros H; apply some_inj in H; subst cs. apply N.ltb_lt in E2.
    cbn [map app]. rewrite decode_2 by div_lia.
    replace ((192 + c / 64 - 192) * 64 + (128 + c mod 64 - 128))%N with c
      by div_lia.
    reflexivity. }
  apply N.ltb_ge in E2.
  destruct (N.ltb c 65536) eqn:E3.
  { destruct (N.leb 55296 c && N.leb c 57343) eqn:Es; [discriminate|].
    intros H; apply some_inj in H; subst cs. apply N.ltb_lt in E3.
    apply andb_false_iff in Es.
    assert (Hs : (c < 55296 \/ 57343 < c)%N).
    { destruct Es as [Es|Es]; apply N.leb_gt in Es; lia. }
    clear Es.
    cbn [map app]. rewrite decode_3.
    - replace ((224 + c / 4096 - 224) * 4096 + (128 + (c / 64) mod 64 - 128) * 64
               + (128 + c mod 64 - 128))%N with c by div_lia.
      reflexivity.
    - div_lia.
    - destruct (N.eqb (224 + c / 4096) 224) eqn:E;
        [apply N.eqb_eq in E | apply N.eqb_neq in E]; div_lia.
    - destruct (N.eqb (224 + c / 4096) 237) eqn:E;
        [apply N.eqb_eq in E | apply N.eqb_neq in E]; div_lia.
    - div_lia. }
  apply N.ltb_ge in E3.
  destruct (N.ltb c 1114112) eqn:E4; [|discriminate].
  intros H; apply some_inj in H; subst cs. apply N.ltb_lt in E4.
  cbn [map app]. rewrite decode_4.
  - replace ((240 + c / 262144 - 240) * 262144
             + (128 + (c / 4096) mod 64 - 128) * 4096
             + (128 + (c / 64) mod 64 - 128) * 64 + (128 + c mod 64 - 128))%N
      with c by div_lia.
    reflexivity.
  - div_lia.
  - destruct (N.eqb (240 + c / 262144) 240) eqn:E;
      [apply N.eqb_eq in E | apply N.eqb_neq in E]; div_lia.
  - destruct (N.eqb (240 + c / 262144) 244) eqn:E;
      [apply N.eqb_eq in E | apply N.eqb_neq in E]; div_lia.
  - div_lia.
  - div_lia.
Qed.

Lemma decode_encode (s : str) (bs : bytes) :
  Utf8.encode s = Some bs -> Utf8.decode bs = Some s.
Proof.
  revert bs; induction s as [|c s IH]; intros bs H; simpl in H.
  - now injection H as <-.
  - destruct (Utf8.encode_char c) as [cs|] eqn:Ec; [|discriminate].
    destruct (Utf8.encode s) as [rest|]; [|discriminate].
    injection H as <-. rewrite (decode_encode_char _ _ _ Ec), (IH rest eq_refl).
    reflexivity.
Qed.

Lemma to_N_inj (a b : byte) : Byte.to_N a = Byte.to_N b -> a = b.
Proof.
  intros H. pose proof (Byte.of_to_N a) as Ha. rewrite H, Byte.of_to_N in Ha.
  congruence.
Qed.

Lemma hex_digit_inj (n m : N) :
  (n < 16)%N -> (m < 16)%N -> Urllib.hex_digit n = Urllib.hex_digit m -> n = m.
Proof.
  unfold Urllib.hex_digit. intros Hn Hm.
  destruct (N.ltb n 10) eqn:E1; destruct (N.ltb m 10) eqn:E2;
    [apply N.ltb_lt in E1, E2 | apply N.ltb_lt in E1; apply N.ltb_ge in E2
    | apply N.ltb_ge in E1; apply N.ltb_lt in E2 | apply N.ltb_ge in E1, E2];
    lia.
Qed.

Lemma always_safe_not_percent (n : N) : Urllib.always_safe n = true -> n <> 37%N.
Proof. intros H ->. discriminate. Qed.

(** Percent-encoding with an empty safe set can be read back: two octet
    strings with the same encoding are the same. *)
Lemma quote_from_bytes_inj (bs bs' : bytes) :
  Urllib.quote_from_bytes [] bs = Urllib.quote_from_bytes [] bs' -> bs = bs'.
Proof.
  unfold Urllib.quote_from_bytes.
  revert bs'; induction bs as [|b bs IH]; intros [|b' bs'] H.
  - reflexivity.
  - simpl in H. unfold Urllib.quote_byte in H.
    destruct (_ || _); discriminate.
  - simpl in H. unfold Urllib.quote_byte in H.
    destruct (_ || _); discriminate.
  - simpl flat_map in H. unfold Urllib.quote_byte in H.
    simpl existsb in H. rewrite !orb_false_r in H.
    pose proof (Byte.to_N_bounded b) as Hb.
    pose proof (Byte.to_N_bounded b') as Hb'.
    destruct (Urllib.always_safe (Byte.to_N b)) eqn:Es;
      destruct (Urllib.always_safe (Byte.to_N b')) eqn:Es'.
    + injection H as Hn H. apply to_N_inj in Hn. subst b'.
      f_equal. now apply IH.
    + injection H as Hn _. now apply always_safe_not_percent in Es.
    + injection H as Hn _. symmetry in Hn. now apply always_safe_not_percent in Es'.
    + simpl in H. injection H as H1 H2 H.
      apply hex_digit_inj in H1; [|div_lia|div_lia].
      apply hex_digit_inj in H2; [|div_lia|div_lia].
      assert (Byte.to_N b = Byte.to_N b') by div_lia.
      apply to_N_inj in H0. subst b'. f_equal. now apply IH.
Qed.

(** X13. Two note references that are text and differ never share a
    request URL: from the URL of a document request the reference can be
    told again, slashes and non-ASCII characters included. *)
Theorem note_urls_are_distinct (w : world) (self : VaultClient) (p q : str)
    (bs bs' : bytes) (r1 r2 : Request) :
  Utf8.encode p = Some bs ->
  Utf8.encode q = Some bs' ->
  In r1 (fst (delete_note w self p [])) ->
  In r2 (fst (delete_note w self q [])) ->
  req_url r1 = req_url r2 ->
  p = q.
Proof.
  intros Hp Hq. unfold delete_note, bind, lift.
  rewrite (quote_encoded _ _ _ Hp), (quote_encoded _ _ _ Hq), !request_eq.
  destruct (accepted w _); [|intros []].
  destruct (accepted w _); [|intros _ []].
  intros [<-|[]] [<-|[]] H. simpl in H.
  apply app_inv_head in H.
  change (lit "/vault/" ++ Urllib.quote_from_bytes [] bs
          = lit "/vault/" ++ Urllib.quote_from_bytes [] bs') in H.
  apply app_inv_head in H. apply quote_from_bytes_inj in H. subst bs'.
  apply decode_encode in Hp, Hq. congruence.
Qed.

Lemma note_urls_are_distinct_witness :
  Utf8.encode (lit "a/b c.md") = Some (blit "a/b c.md")
  /\ In (mkRequest (lit "DELETE") (lit "https://127.0.0.1:27124/vault/a%2Fb%20c.md")
           None [(lit "Authorization", VStr (lit "Bearer secret"))])
       (fst (delete_note (constant_world (Return [])) local_client
               (lit "a/b c.md") []))
  /\ lit "a/b c.md" = lit "a/b c.md".
Proof.
  split; [reflexivity|]. split; [left; reflexivity|].
  apply (note_urls_are_distinct (constant_world (Return [])) local_client
           (lit "a/b c.md") (lit "a/b c.md") (blit "a/b c.md") (blit "a/b c.md")
           (mkRequest (lit "DELETE")
              (lit "https://127.0.0.1:27124/vault/a%2Fb%20c.md")
              None [(lit "Authorization", VStr (lit "Bearer secret"))])
           (mkRequest (lit "DELETE")
              (lit "https://127.0.0.1:27124/vault/a%2Fb%20c.md")
              None [(lit "Authorization", VStr (lit "Bearer secret"))])).
  - reflexivity.
  - reflexivity.
  - left; reflexivity.
  - left; reflexivity.
  - reflexivity.
Defined.

(* ================================================================= *)
(** ** Valid dates *)

(** A strictly valid YYYY-MM-DD date is parsed to the numbers it writes. *)
Lemma strict_ymd_parsed (nd : N -> option N) (s : str) :
  strict_ymd s = true ->
  Datetime.strptime nd s = Some (year_of s, month_of s, day_of s).
Proof.
  intros H.
  destruct s as [|y1 [|y2 [|y3 [|y4 [|h1 [|m1 [|m2 [|h2 [|d1 [|d2 [|x s]]]]]]]]]]];
    try discriminate.
  unfold strict_ymd in H. simpl forallb in H.
  bool_facts.
  subst h1 h2.
  unfold Datetime.strptime, Datetime.year_field.
  rewrite !digit_value_ascii by (unfold Json.is_digit, Utf8.between;
     apply andb_true_iff; split; now apply N.leb_le).
  cbv beta iota. rewrite N.eqb_refl.
  unfold Datetime.valid_date in *. bool_facts.
  assert (Hm : exists v, Datetime.month_field (m1 :: m2 :: 45%N :: d1 :: d2 :: [])
             = Some (v, 45%N :: d1 :: d2 :: [])
             /\ v = Z.of_N ((m1 - 48) * 10 + (m2 - 48))).
  { unfold Datetime.month_field, Datetime.alternation, Datetime.two, Datetime.one.
    destruct (N.eq_dec m1 49) as [->|Hn1].
    - rewrite (ascii_in_true 49 49 49), (ascii_in_true 48 50 m2) by lia.
      eexists; split; [reflexivity|lia].
    - rewrite (ascii_in_false 49 49 m1) by lia.
      assert (m1 = 48%N) as -> by lia.
      rewrite (ascii_in_true 48 48 48), (ascii_in_true 49 57 m2) by lia.
      eexists; split; [reflexivity|lia]. }
  destruct Hm as (v & -> & ->).
  rewrite N.eqb_refl.
  assert (Hd : exists v, Datetime.day_field nd (d1 :: d2 :: []) = Some (v, [])
             /\ v = Z.of_N ((d1 - 48) * 10 + (d2 - 48))).
  { unfold Datetime.day_field, Datetime.alternation, Datetime.two, Datetime.one.
    destruct (N.eq_dec d1 51) as [->|Hn3].
    - assert (d2 <= 49)%N.
      { unfold Datetime.days_in_month in *.
        repeat match goal with
        | H : context [if ?b then _ else _] |- _ => destruct b
        end; lia. }
      rewrite (ascii_in_true 51 51 51), (ascii_in_true 48 49 d2) by lia.
      eexists; split; [reflexivity|lia].
    - rewrite (ascii_in_false 51 51 d1) by lia.
      destruct (N.eq_dec d1 48) as [->|Hn0].
      + rewrite (ascii_in_false 49 50 48) by lia.
        rewrite (ascii_in_true 48 48 48), (ascii_in_true 49 57 d2) by lia.
        eexists; split; [reflexivity|lia].
      + assert (d1 = 49 \/ d1 = 50)%N as Hd1.
        { unfold Datetime.days_in_month in *.
          repeat match goal with
          | H : context [if ?b then _ else _] |- _ => destruct b
          end; lia. }
        rewrite (ascii_in_true 49 50 d1) by lia.
        rewrite digit_value_ascii by (unfold Json.is_digit, Utf8.between;
          apply andb_true_iff; split; now apply N.leb_le).
        eexists; split; [reflexivity|lia]. }
  destruct Hd as (v & -> & ->).
  replace ((Z.of_N y1 - 48) * 1000 + (Z.of_N y2 - 48) * 100
           + (Z.of_N y3 - 48) * 10 + (Z.of_N y4 - 48))
    with (Z.of_N ((y1 - 48) * 1000 + (y2 - 48) * 100 + (y3 - 48) * 10 + (y4 - 48)))
    by lia.
  assert (Hy : year_of [y1; y2; y3; y4; 45%N; m1; m2; 45%N; d1; d2]
               = Z.of_N ((y1 - 48) * 1000 + (y2 - 48) * 100 + (y3 - 48) * 10
                         + (y4 - 48)))
    by (unfold year_of, digits_value; cbn [firstn skipn fold_left]; lia).
  assert (Hmo : month_of [y1; y2; y3; y4; 45%N; m1; m2; 45%N; d1; d2]
                = Z.of_N ((m1 - 48) * 10 + (m2 - 48)))
    by (unfold month_of, digits_value; cbn [firstn skipn fold_left]; lia).
  assert (Hda : day_of [y1; y2; y3; y4; 45%N; m1; m2; 45%N; d1; d2]
                = Z.of_N ((d1 - 48) * 10 + (d2 - 48)))
    by (unfold day_of, digits_value; cbn [firstn skipn fold_left]; lia).
  rewrite Hy, Hmo, Hda.
  repeat match goal with
  | H : (_ <= _)%Z |- _ => apply Z.leb_le in H; rewrite H; clear H
  end.
  reflexivity.
Qed.

(** X15. No valid date is taken for an invalid one: for a client that
    reaches its server, a periodic-append (its content read and text) with
    a strictly valid YYYY-MM-DD date issues one POST whose URL is the base
    URL, the period's path and the year, the month and the day the date
    writes, as numbers without leading zeros. *)
Theorem valid_dates_are_requested (w : world) (client : VaultClient)
    (c : content_args) (content : str) (data : bytes) (date period : str)
    (log : list Request) :
  reaches w client ->
  get_content w c log = (log, Return content) ->
  Utf8.encode content = Some data ->
  strict_ymd date = true ->
  fst (execute w client (Daily (Some date) period c) log)
  = log ++ [mkRequest (lit "POST")
              (base_url client ++ lit "/periodic/" ++ period ++ lit "/"
               ++ str_of_int (year_of date) ++ lit "/"
               ++ str_of_int (month_of date) ++ lit "/"
               ++ str_of_int (day_of date) ++ lit "/")
              (Some data)
              [(lit "Authorization", VStr (lit "Bearer " ++ api_key client));
               (lit "Content-Type", VStr (lit "text/markdown"))]].
Proof.
  intros Hreach Hcontent Hc Hstrict.
  pose proof (strict_ymd_parsed (unicode_decimal w) date Hstrict) as Hparse.
  rewrite (daily_issues w client c content data (Some date) period log
             Hreach Hcontent Hc (Some (year_of date, month_of date, day_of date))
             Hparse ltac:(discriminate)).
  rewrite periodic_request.
  apply strptime_valid in Hparse. unfold Datetime.valid_date in Hparse.
  repeat (apply andb_true_iff in Hparse as [Hparse ?]).
  unfold periodic_path.
  replace (year_of date =? 0) with false by (symmetry; apply Z.eqb_neq; lia).
  replace (month_of date =? 0) with false by (symmetry; apply Z.eqb_neq; lia).
  replace (day_of date =? 0) with false by (symmetry; apply Z.eqb_neq; lia).
  reflexivity.
Qed.

Lemma valid_dates_are_requested_witness :
  reaches (constant_world (Return [])) local_client
  /\ get_content (constant_world (Return [])) (inline (lit "hi")) []
     = ([], Return (lit "hi"))
  /\ Utf8.encode (lit "hi") = Some (blit "hi")
  /\ strict_ymd (lit "0987-02-09") = true
  /\ fst (execute (constant_world (Return [])) local_client
            (Daily (Some (lit "0987-02-09")) (lit "weekly") (inline (lit "hi"))) [])
     = [mkRequest (lit "POST") (lit "https://127.0.0.1:27124/periodic/weekly/987/2/9/")
          (Some (blit "hi"))
          [(lit "Authorization", VStr (lit "Bearer secret"));
           (lit "Content-Type", VStr (lit "text/markdown"))]].
Proof.
  split; [exact (local_reaches _)|].
  split; [reflexivity|]. split; [reflexivity|]. split; [reflexivity|].
  apply (valid_dates_are_requested (constant_world (Return [])) local_client
           (inline (lit "hi")) (lit "hi") (blit "hi") (lit "0987-02-09")
           (lit "weekly") []); [exact (local_reaches _) | | | ]; reflexivity.
Defined.

(* ================================================================= *)
(** ** Truncation and limits at their edges *)

Lemma map_fst_dict_set {V} (d : list (str * V)) (k : str) (v : V) :
  dict_has d k = true -> map fst (dict_set d k v) = map fst d.
Proof.
  induction d as [|[k' v'] d IH]; simpl; [discriminate|].
  destruct (str_eqb k' k); simpl; [reflexivity|].
  intros H. now rewrite IH.
Qed.

(** X16. Truncation touches the content only: for a limit of at least
    one and a content longer than it, the record that comes back has the
    same keys in the same order and the same value under every other key,
    and its content has [limit + 15] characters, the marker being 15
    characters long. *)
Theorem truncation_changes_content_only (d : dict) (c : str) (n : Z)
    (log : list Request) :
  0 < n ->
  dict_get d (lit "content") (VStr []) = VStr c ->
  n < len c ->
  exists d' c',
    shape_get (Some n) (success (VDict d)) log
    = (log, Return (success (VDict d')))
    /\ map fst d' = map fst d
    /\ (forall k, k <> lit "content" -> dict_lookup d' k = dict_lookup d k)
    /\ dict_lookup d' (lit "content") = Some (VStr c')
    /\ len c' = n + 15.
Proof.
  intros Hn Hc Hlen.
  exists (dict_set d (lit "content")
            (VStr (firstn (Z.to_nat n) c ++ truncation_marker))),
         (firstn (Z.to_nat n) c ++ truncation_marker).
  split; [|split; [|split; [|split]]].
  - rewrite (shape_get_text d c n log) by (try lia; exact Hc).
    replace (n <? len c) with true by (symmetry; apply Z.ltb_lt; lia).
    now rewrite slice_to_nonneg by lia.
  - apply map_fst_dict_set. apply dict_has_lookup.
    unfold dict_get in Hc.
    destruct (dict_lookup d (lit "content")); [discriminate|].
    injection Hc as <-. unfold len in Hlen. simpl in Hlen. lia.
  - intros k Hk. now apply dict_lookup_set_other.
  - apply dict_lookup_set_same.
  - unfold len in *. rewrite length_app, firstn_length_le by lia.
    change (List.length truncation_marker) with 15%nat. lia.
Qed.

Lemma truncation_changes_content_only_witness :
  0 < 3
  /\ dict_get [(lit "path", VStr (lit "a.md")); (lit "content", VStr (lit "hello"))]
       (lit "content") (VStr []) = VStr (lit "hello")
  /\ 3 < len (lit "hello")
  /\ exists d' c',
       shape_get (Some 3)
         (success (VDict [(lit "path", VStr (lit "a.md"));
                          (lit "content", VStr (lit "hello"))])) []
       = ([], Return (success (VDict d')))
       /\ map fst d'
          = map fst [(lit "path", VStr (lit "a.md")); (lit "content", VStr (lit "hello"))]
       /\ (forall k, k <> lit "content" ->
             dict_lookup d' k
             = dict_lookup [(lit "path", VStr (lit "a.md"));
                            (lit "content", VStr (lit "hello"))] k)
       /\ dict_lookup d' (lit "content") = Some (VStr c')
       /\ len c' = 3 + 15.
Proof.
  split; [lia|]. split; [reflexivity|]. split; [reflexivity|].
  apply (truncation_changes_content_only
           [(lit "path", VStr (lit "a.md")); (lit "content", VStr (lit "hello"))]
           (lit "hello") 3 []); [lia | reflexivity | reflexivity].
Defined.

(** X17. A negative limit is a slice bound from the end: whatever its
    length, the content (the empty string when the record has none) loses
    its last [-limit] characters and gets the marker; a content shorter
    than that becomes the marker alone. *)
Theorem negative_limit_cuts_from_the_end (d : dict) (c : str) (n : Z)
    (log : list Request) :
  n < 0 ->
  dict_get d (lit "content") (VStr []) = VStr c ->
  shape_get (Some n) (success (VDict d)) log
  = (log,
     Return (success
               (VDict (dict_set d (lit "content")
                         (VStr (firstn (List.length c - Z.to_nat (- n)) c
                                ++ truncation_marker)))))).
Proof.
  intros Hn Hc.
  rewrite (shape_get_text d c n log) by (try lia; exact Hc).
  replace (n <? len c) with true by (symmetry; apply Z.ltb_lt; unfold len; lia).
  unfold slice_to.
  replace (n <? 0) with true by (symmetry; apply Z.ltb_lt; lia).
  reflexivity.
Qed.

Lemma negative_limit_cuts_from_the_end_witness :
  -2 < 0
  /\ dict_get [(lit "tags", VList [])] (lit "content") (VStr []) = VStr []
  /\ shape_get (Some (-2)) (success (VDict [(lit "tags", VList [])])) []
     = ([], Return (success (VDict [(lit "tags", VList []);
                                    (lit "content", VStr truncation_marker)]))).
Proof.
  split; [lia|]. split; [reflexivity|].
  apply (negative_limit_cuts_from_the_end [(lit "tags", VList [])] [] (-2) []);
    [lia | reflexivity].
Defined.

(** The shaped result for search hits and any maximum, negative too. *)
Lemma shape_search_hits (hits : list value) (max_results : Z) (log : list Request) :
  forallb is_search_hit hits = true ->
  shape_search max_results (success (VList hits)) log
  = (log, Return (success (VList (map shaped_entry (slice_to max_results hits))))).
Proof.
  intros Hhits. unfold shape_search, bind, lift, ret. simpl.
  assert (Hs : forallb is_search_hit (slice_to max_results hits) = true).
  { unfold slice_to. destruct (max_results <? 0); now apply forallb_firstn. }
  rewrite (comprehension_map _ shaped_entry); [reflexivity|].
  intros a Ha. apply search_entry_hit.
  rewrite forallb_forall in Hs. now apply Hs.
Qed.

(** X18. A negative maximum count is a slice bound from the end: the
    shaped result holds the entries of all hits but the last [-max], in
    order (none when there are no more hits than that). *)
Theorem negative_max_drops_last_hits (hits : list value) (max_results : Z)
    (log : list Request) :
  max_results < 0 ->
  forallb is_search_hit hits = true ->
  exists entries,
    shape_search max_results (success (VList hits)) log
    = (log, Return (success (VList entries)))
    /\ entries
       = map shaped_entry
           (firstn (List.length hits - Z.to_nat (- max_results)) hits)
    /\ List.length entries = (List.length hits - Z.to_nat (- max_results))%nat.
Proof.
  intros Hmax Hhits. eexists. split; [|split; [reflexivity|]].
  - rewrite (shape_search_hits hits max_results log Hhits). unfold slice_to.
    replace (max_results <? 0) with true by (symmetry; apply Z.ltb_lt; lia).
    reflexivity.
  - rewrite length_map, length_firstn. lia.
Qed.

Lemma negative_max_drops_last_hits_witness :
  -1 < 0
  /\ forallb is_search_hit [long_hit; bare_hit; bare_hit] = true
  /\ exists entries,
       shape_search (-1) (success (VList [long_hit; bare_hit; bare_hit])) []
       = ([], Return (success (VList entries)))
       /\ entries
          = map shaped_entry
              (firstn (List.length [long_hit; bare_hit; bare_hit] - Z.to_nat (- -1))
                 [long_hit; bare_hit; bare_hit])
       /\ List.length entries
          = (List.length [long_hit; bare_hit; bare_hit] - Z.to_nat (- -1))%nat.
Proof.
  split; [lia|]. split; [reflexivity|].
  apply (negative_max_drops_last_hits [long_hit; bare_hit; bare_hit] (-1) []);
    [lia | reflexivity].
Defined.

(* ================================================================= *)
(** ** The flags of [get] and the payload *)

(** The metadata-only flag changes a successful result of [get_note] in
    one way: a record loses its content. *)
Lemma get_note_flag (w : world) (client : VaultClient) (path : str)
    (data : value) (log log' : list Request) :
  get_note w client path false log = (log', Return (success data)) ->
  get_note w client path true log
  = (log',
     Return (success (match data with
                      | VDict d => VDict (dict_pop d (lit "content"))
                      | _ => data
                      end))).
Proof.
  unfold get_note, bind, lift.
  destruct (Urllib.quote path []) as [q|e]; [|discriminate].
  rewrite request_eq.
  destruct (accepted w _); [|discriminate].
  destruct (normalize _ _) as [r|e]; [|discriminate].
  destruct (getitem r (lit "ok")) as [ok|e] eqn:Eok; [|discriminate].
  rewrite andb_false_r. unfold ret. intros H.
  injection H as Hlog Hr. subst log' r.
  injection Eok as <-.
  destruct data; reflexivity.
Qed.

Lemma dict_set_absent {V} (d : list (str * V)) (k : str) (v : V) :
  dict_lookup d k = None -> dict_set d k v = d ++ [(k, v)].
Proof.
  induction d as [|[k' v'] d IH]; simpl; [reflexivity|].
  destruct (str_eqb k' k); [discriminate|].
  intros H. now rewrite IH.
Qed.

(** X19. The flags of [get] act on records only: when the server's
    answer is a success whose payload is not a JSON object (the raw text
    of a note, a list, a number), neither the metadata-only flag nor a
    character limit changes anything, and the payload comes back whole. *)
Theorem get_flags_need_a_record (w : world) (client : VaultClient) (path : str)
    (metadata_only : bool) (max_chars : option Z) (data : value)
    (log log' : list Request) :
  (forall d, data <> VDict d) ->
  get_note w client path false log = (log', Return (success data)) ->
  execute w client (Get path metadata_only max_chars) log
  = (log', Return (success data)).
Proof.
  intros Hdata Hget.
  assert (Hflag : get_note w client path metadata_only log
                  = (log', Return (success data))).
  { destruct metadata_only; [|exact Hget].
    rewrite (get_note_flag w client path data log log' Hget).
    destruct data; try reflexivity. now destruct (Hdata d). }
  unfold execute, bind. rewrite Hflag.
  unfold shape_get, bind, lift, ret. simpl.
  destruct (opt_int_truthy max_chars); [|reflexivity].
  destruct data; try reflexivity. now destruct (Hdata d).
Qed.

Lemma get_flags_need_a_record_witness :
  (forall d, VStr (lit "# Title") <> VDict d)
  /\ get_note (constant_world (Return (blit "# Title"))) local_client
       (lit "n.md") false []
     = ([make_request local_client (lit "GET") (lit "/vault/n.md") None
           (Some [(lit "Accept", VStr (lit "application/vnd.olrapi.note+json"))])
           None],
        Return (success (VStr (lit "# Title"))))
  /\ execute (constant_world (Return (blit "# Title"))) local_client
       (Get (lit "n.md") true (Some 3)) []
     = ([make_request local_client (lit "GET") (lit "/vault/n.md") None
           (Some [(lit "Accept", VStr (lit "application/vnd.olrapi.note+json"))])
           None],
        Return (success (VStr (lit "# Title")))).
Proof.
  split; [discriminate|]. split; [reflexivity|].
  apply (get_flags_need_a_record (constant_world (Return (blit "# Title")))
           local_client (lit "n.md") true (Some 3) (VStr (lit "# Title")) []
           [make_request local_client (lit "GET") (lit "/vault/n.md") None
              (Some [(lit "Accept", VStr (lit "application/vnd.olrapi.note+json"))])
              None]).
  - discriminate.
  - reflexivity.
Defined.

(** X20. Metadata-only and a negative limit together: the content is
    removed first, the limit then sees an empty content, which a negative
    number is always less than the length of, so the record comes back
    with a [content] again, put last and holding the marker alone. *)
Theorem metadata_only_negative_limit (w : world) (client : VaultClient)
    (path : str) (n : Z) (d : dict) (log log' : list Request) :
  n < 0 ->
  get_note w client path false log = (log', Return (success (VDict d))) ->
  execute w client (Get path true (Some n)) log
  = (log',
     Return (success (VDict (dict_pop d (lit "content")
                             ++ [(lit "content", VStr truncation_marker)])))).
Proof.
  intros Hn Hget.
  unfold execute, bind.
  rewrite (get_note_flag w client path (VDict d) log log' Hget).
  rewrite (shape_get_text (dict_pop d (lit "content")) [] n log').
  - replace (n <? len (@nil N)) with true
      by (symmetry; apply Z.ltb_lt; unfold len; simpl; lia).
    replace (slice_to n (@nil N)) with (@nil N)
      by (unfold slice_to; destruct (n <? 0); now rewrite firstn_nil).
    now rewrite dict_set_absent by apply dict_lookup_pop_same.
  - lia.
  - unfold dict_get. now rewrite dict_lookup_pop_same.
Qed.

Lemma metadata_only_negative_limit_witness :
  -1 < 0
  /\ get_note (constant_world (Return (bjlit "{'content':'hello','tags':['x']}")))
       local_client (lit "n.md") false []
     = ([make_request local_client (lit "GET") (lit "/vault/n.md") None
           (Some [(lit "Accept", VStr (lit "application/vnd.olrapi.note+json"))])
           None],
        Return (success (VDict [(lit "content", VStr (lit "hello"));
                                (lit "tags", VList [VStr (lit "x")])])))
  /\ execute (constant_world (Return (bjlit "{'content':'hello','tags':['x']}")))
       local_client (Get (lit "n.md") true (Some (-1))) []
     = ([make_request local_client (lit "GET") (lit "/vault/n.md") None
           (Some [(lit "Accept", VStr (lit "application/vnd.olrapi.note+json"))])
           None],
        Return (success (VDict [(lit "tags", VList [VStr (lit "x")]);
                                (lit "content", VStr truncation_marker)]))).
Proof.
  split; [lia|]. split; [reflexivity|].
  apply (metadata_only_negative_limit
           (constant_world (Return (bjlit "{'content':'hello','tags':['x']}")))
           local_client (lit "n.md") (-1)
           [(lit "content", VStr (lit "hello")); (lit "tags", VList [VStr (lit "x")])]
           []
           [make_request local_client (lit "GET") (lit "/vault/n.md") None
              (Some [(lit "Accept", VStr (lit "application/vnd.olrapi.note+json"))])
              None]).
  - lia.
  - reflexivity.
Defined.

(* ================================================================= *)
(** ** Search hits that are not records *)

Lemma comprehension_raises {A B} (f : A -> Exc B) (l : list A) (a : A) (e : exn) :
  In a l -> f a = Raise e -> exists e', comprehension f l = Raise e'.
Proof.
  intros Hin Hf. induction l as [|b l IH]; [destruct Hin|].
  simpl. destruct (f b) as [y|e'] eqn:E; [|now exists e'].
  destruct Hin as [->|Hin]; [congruence|].
  destruct (IH Hin) as [e' ->]. now exists e'.
Qed.

(** X21. Search shaping has no guard on the hits themselves: when one
    of the hits kept by the maximum count is not a JSON object, the
    command raises instead of returning an envelope (the request has been
    made, nothing more is logged). Hits cut off by the maximum are not
    looked at. *)
Theorem non_record_hit_raises (hits : list value) (item : value)
    (max_results : Z) (log : list Request) :
  In item (slice_to max_results hits) ->
  (forall d, item <> VDict d) ->
  exists e,
    shape_search max_results (success (VList hits)) log = (log, Raise e).
Proof.
  intros Hin Hitem.
  destruct (comprehension_raises search_entry (slice_to max_results hits)
              item AttributeError Hin) as [e He].
  { destruct item; try reflexivity. now destruct (Hitem d). }
  exists e. unfold shape_search, bind, lift, ret. simpl. now rewrite He.
Qed.

Lemma non_record_hit_raises_witness :
  In (VStr (lit "a.md")) (slice_to 1 [VStr (lit "a.md"); bare_hit])
  /\ (forall d, VStr (lit "a.md") <> VDict d)
  /\ exists e,
       shape_search 1 (success (VList [VStr (lit "a.md"); bare_hit])) []
       = ([], Raise e).
Proof.
  split; [left; reflexivity|]. split; [discriminate|].
  apply (non_record_hit_raises [VStr (lit "a.md"); bare_hit] (VStr (lit "a.md")) 1 []).
  - left; reflexivity.
  - discriminate.
Defined.
